(** * mapi: declarative REST collection -- identity model, hook pipeline, collector

    A shallow embedding of [mapi/core.py], [mapi/collector.py] and the test
    doubles of [tests/doubles.py], followed by the properties of the
    specification that were checked against it.

    Conventions.
    - Python [str] is [string]; scanning works on [list ascii].
    - A Python [dict] with string keys is an association list in insertion
      order (the order is observable through [items()], hence through
      [__hash__]).
    - Raising is explicit: a computation returns [Ok v] or [Raise e]. *)

From Stdlib Require Import String Ascii List ZArith Lia Bool Permutation.
Import ListNotations.
Open Scope string_scope.

(** ** Exceptions and results *)

Inductive Exn : Type :=
| ValueError (msg : string)
| KeyError (key : string)
| IndexError (index : Z)
| Fault (msg : string)          (* any other exception, e.g. raised by user code *)
| NotModelled (what : string).  (* the call leaves the embedded fragment of a builtin *)

Inductive Result (A : Type) : Type :=
| Ok (a : A)
| Raise (e : Exn).
Arguments Ok {A} a.
Arguments Raise {A} e.

Definition chars : string -> list ascii := list_ascii_of_string.
Definition text : list ascii -> string := string_of_list_ascii.

(** ** Dictionaries with string keys and values

    [RouteArgs], [QueryArgs] and [Headers] of [core.py]. Entries are kept in
    insertion order; a well-formed dictionary has no repeated key. *)

Definition dict : Type := list (string * string).

Definition keys (d : dict) : list string := map fst d.

(** [d.get(k)] *)
Fixpoint dict_get (k : string) (d : dict) : option string :=
  match d with
  | [] => None
  | (k', v) :: d' => if String.eqb k' k then Some v else dict_get k d'
  end.

(** [d[k] = v]: an existing key keeps its position. *)
Fixpoint dict_set (k v : string) (d : dict) : dict :=
  match d with
  | [] => [(k, v)]
  | (k', v') :: d' => if String.eqb k' k then (k', v) :: d' else (k', v') :: dict_set k v d'
  end.

(** [a == b] on dictionaries: same number of entries, and every entry of
    [a] is found in [b] with an equal value. *)
Definition dict_eq (a b : dict) : bool :=
  Nat.eqb (length a) (length b)
  && forallb (fun kv => match dict_get (fst kv) b with
                        | Some v => String.eqb v (snd kv)
                        | None => false
                        end) a.

Definition wf_dict (d : dict) : Prop := NoDup (keys d).

(** [x or {}] for an optional dictionary argument. *)
Definition or_empty (d : option dict) : dict :=
  match d with
  | None => []
  | Some d => d
  end.

(** ** Builtins used by [core.py]: [str.strip], [string.Formatter.parse], [str.format] *)

Module Str.

(** [s.lstrip(c)], [s.rstrip(c)], [s.strip(c)] for a one-character set. *)
Fixpoint lstrip_chars (c : ascii) (s : list ascii) : list ascii :=
  match s with
  | [] => []
  | x :: s' => if Ascii.eqb x c then lstrip_chars c s' else s
  end.

Definition rstrip_chars (c : ascii) (s : list ascii) : list ascii :=
  rev (lstrip_chars c (rev s)).

Definition strip_chars (c : ascii) (s : list ascii) : list ascii :=
  rstrip_chars c (lstrip_chars c s).

Definition strip (c : ascii) (s : string) : string := text (strip_chars c (chars s)).

(** One replacement field of a format string, as [Formatter.parse] reports
    it: [field_name], [format_spec], [conversion]. *)
Record Field : Type := mkField {
  field_name : string;
  format_spec : string;
  conversion : option ascii
}.

(** One tuple yielded by [Formatter.parse]: the literal text and, when a
    replacement field follows it, that field ([None] stands for the
    [(literal, None, None, None)] tuples). *)
Definition Item : Type := (string * option Field)%type.

(** The scanner of CPython's format-string iterator, one character at a
    time. Accumulators are kept reversed. *)
Inductive PState : Type :=
| PLit (lit : list ascii)
| POpen (lit : list ascii)                       (* just read an opening brace *)
| PClose (lit : list ascii)                      (* just read a closing brace *)
| PName (lit name : list ascii)                  (* inside the field name *)
| PBracket (lit name : list ascii)               (* inside [...] of a field name *)
| PConv (lit name : list ascii)                  (* just read '!' *)
| PAfterConv (lit name : list ascii) (cv : ascii)
| PSpec (lit name : list ascii) (cv : option ascii) (spec : list ascii) (depth : nat).

Inductive Action : Type :=
| Goto (st : PState)
| Emit (i : Item) (st : PState)
| Fail (e : Exn).

Definition mk_item (lit name : list ascii) (cv : option ascii) (spec : list ascii) : Item :=
  (text (rev lit), Some (mkField (text (rev name)) (text (rev spec)) cv)).

Definition name_step (lit name : list ascii) (c : ascii) : Action :=
  if Ascii.eqb c "{" then Fail (ValueError "unexpected '{' in field name")
  else if Ascii.eqb c "[" then Goto (PBracket lit (c :: name))
  else if Ascii.eqb c "}" then Emit (mk_item lit name None []) (PLit [])
  else if Ascii.eqb c ":" then Goto (PSpec lit name None [] 1)
  else if Ascii.eqb c "!" then Goto (PConv lit name)
  else Goto (PName lit (c :: name)).

Definition transition (st : PState) (c : ascii) : Action :=
  match st with
  | PLit lit =>
      if Ascii.eqb c "{" then Goto (POpen lit)
      else if Ascii.eqb c "}" then Goto (PClose lit)
      else Goto (PLit (c :: lit))
  | POpen lit =>
      if Ascii.eqb c "{" then Emit (text (rev (c :: lit)), None) (PLit [])
      else name_step lit [] c
  | PClose lit =>
      if Ascii.eqb c "}" then Emit (text (rev (c :: lit)), None) (PLit [])
      else Fail (ValueError "Single '}' encountered in format string")
  | PName lit name => name_step lit name c
  | PBracket lit name =>
      if Ascii.eqb c "]" then Goto (PName lit (c :: name))
      else Goto (PBracket lit (c :: name))
  | PConv lit name => Goto (PAfterConv lit name c)
  | PAfterConv lit name cv =>
      if Ascii.eqb c "}" then Emit (mk_item lit name (Some cv) []) (PLit [])
      else if Ascii.eqb c ":" then Goto (PSpec lit name (Some cv) [] 1)
      else Fail (ValueError "expected ':' after conversion specifier")
  | PSpec lit name cv spec depth =>
      if Ascii.eqb c "{" then Goto (PSpec lit name cv (c :: spec) (S depth))
      else if Ascii.eqb c "}" then
        match depth with
        | 0 | 1 => Emit (mk_item lit name cv spec) (PLit [])
        | S d => Goto (PSpec lit name cv (c :: spec) d)
        end
      else Goto (PSpec lit name cv (c :: spec) depth)
  end.

Definition at_end (st : PState) : list Item * option Exn :=
  match st with
  | PLit [] => ([], None)
  | PLit lit => ([(text (rev lit), None)], None)
  | POpen _ => ([], Some (ValueError "Single '{' encountered in format string"))
  | PClose _ => ([], Some (ValueError "Single '}' encountered in format string"))
  | PName _ _ | PBracket _ _ => ([], Some (ValueError "expected '}' before end of string"))
  | PConv _ _ =>
      ([], Some (ValueError "end of string while looking for conversion specifier"))
  | PAfterConv _ _ _ | PSpec _ _ _ _ _ =>
      ([], Some (ValueError "unmatched '{' in format spec"))
  end.

(** The tuples produced before the scan ends, and the error that ends it
    when the format string is malformed (the iterator is lazy: the tuples
    before the error are delivered first). *)
Fixpoint parse_from (st : PState) (s : list ascii) : list Item * option Exn :=
  match s with
  | [] => at_end st
  | c :: s' =>
      match transition st c with
      | Goto st' => parse_from st' s'
      | Emit i st' => let (rest, e) := parse_from st' s' in (i :: rest, e)
      | Fail e => ([], Some e)
      end
  end.

(** [Formatter().parse(format_string)] *)
Definition Formatter_parse (format_string : string) : list Item * option Exn :=
  parse_from (PLit []) (chars format_string).

(** *** [str.format] called with string-valued keyword arguments only *)

Definition is_digit (c : ascii) : bool :=
  let n := nat_of_ascii c in (48 <=? n)%nat && (n <=? 57)%nat.

Definition PY_SSIZE_T_MAX : Z := 9223372036854775807.

(** [get_integer]: [None] when the text is no decimal number, [Some (Ok n)]
    for an index, [Some (Raise _)] when it overflows. *)
Fixpoint get_integer_from (acc : Z) (s : list ascii) : option (Result Z) :=
  match s with
  | [] => Some (Ok acc)
  | c :: s' =>
      if is_digit c then
        let d := Z.of_nat (nat_of_ascii c - 48) in
        if (acc >? (PY_SSIZE_T_MAX - d) / 10)%Z
        then Some (Raise (ValueError "Too many decimal digits in format string"))
        else get_integer_from (acc * 10 + d)%Z s'
      else None
  end.

Definition get_integer (s : list ascii) : option (Result Z) :=
  match s with
  | [] => None
  | _ => get_integer_from 0%Z s
  end.

(** The first component of a field name: everything before the first
    '.' or '['; and the rest. *)
Fixpoint split_first (s : list ascii) : list ascii * list ascii :=
  match s with
  | [] => ([], [])
  | c :: s' =>
      if Ascii.eqb c "." || Ascii.eqb c "[" then ([], s)
      else let (a, b) := split_first s' in (c :: a, b)
  end.

(** Rendering of one replacement field against keyword arguments only
    (no positional arguments are ever passed by [Request.route]). *)
Definition format_field (kwargs : dict) (f : Field) : Result string :=
  let (first, rest) := split_first (chars (field_name f)) in
  match get_integer first with
  | Some (Raise e) => Raise e
  | Some (Ok n) => Raise (IndexError n)
  | None =>
      match first with
      | [] => Raise (IndexError 0)
      | _ =>
          match dict_get (text first) kwargs with
          | None => Raise (KeyError (text first))
          | Some v =>
              match rest with
              | _ :: _ => Raise (NotModelled "attribute or index lookup in a field name")
              | [] =>
                  match conversion f with
                  | Some c =>
                      if Ascii.eqb c "s" then
                        (if String.eqb (format_spec f) "" then Ok v
                         else Raise (NotModelled "format spec"))
                      else if Ascii.eqb c "r" || Ascii.eqb c "a"
                      then Raise (NotModelled "repr conversion")
                      else Raise (ValueError "Unknown conversion specifier")
                  | None =>
                      if String.eqb (format_spec f) "" then Ok v
                      else Raise (NotModelled "format spec")
                  end
              end
          end
      end
  end.

Fixpoint format_items (kwargs : dict) (items : list Item) (err : option Exn)
  : Result string :=
  match items with
  | [] => match err with None => Ok "" | Some e => Raise e end
  | (lit, fld) :: rest =>
      match (match fld with None => Ok "" | Some f => format_field kwargs f end) with
      | Raise e => Raise e
      | Ok v =>
          match format_items kwargs rest err with
          | Raise e => Raise e
          | Ok s => Ok (lit ++ v ++ s)
          end
      end
  end.

(** [format_string.format] applied to the unpacked dictionary [kwargs] *)
Definition format (format_string : string) (kwargs : dict) : Result string :=
  let (items, err) := Formatter_parse format_string in
  format_items kwargs items err.

End Str.

(** ** Values that cross the hook boundary

    A hook handler may return anything. The code distinguishes the [Abort]
    sentinel (compared with [is]), instances of [Request], instances of
    [Response], and everything else ([None] included). *)

Inductive PyVal (Req Resp : Type) : Type :=
| PyNone
| PyAbort
| PyRequest (r : Req)
| PyResponse (r : Resp)
| PyOther.
Arguments PyNone {Req Resp}.
Arguments PyAbort {Req Resp}.
Arguments PyRequest {Req Resp} r.
Arguments PyResponse {Req Resp} r.
Arguments PyOther {Req Resp}.

(** ** Builtin sets and hashing

    The iteration order of a Python [set] is unspecified: [set_iter] is any
    enumeration of the elements. [hash] of a [str] is seeded per process and
    [hash] of a tuple is a function of the hashes of its items, in order:
    both are parameters of the model. *)

Class SetOrder : Type := {
  set_iter : list string -> list string;
  set_iter_perm : forall s, Permutation (set_iter s) s
}.

Class PyHash : Type := {
  hash_str : string -> Z;
  hash_tuple : list Z -> Z
}.

Definition set_of (l : list string) : list string := nodup string_dec l.

Definition mem (x : string) (s : list string) : bool := existsb (String.eqb x) s.

(** [a.difference(b)] *)
Definition difference (a b : list string) : list string :=
  filter (fun x => negb (mem x b)) a.

(** ** Identity model ([core.py]) *)

(** Hooks are attached to resources and APIs by name; the collector resolves
    the names to handlers (see [Collector]). *)
Definition HookId : Type := nat.

Module API.
Record t : Type := mk {
  host : string;
  hooks : list HookId
}.
End API.

Module Resource.
Record t : Type := mk {
  api : API.t;
  name : string;
  route_template : string;
  query_params : list string;
  hooks : list HookId
}.

(** [[name for _, name, _, _ in Formatter().parse(self.route_template) if name]] *)
Definition route_params (self : t) : Result (list string) :=
  let (items, err) := Str.Formatter_parse (route_template self) in
  match err with
  | Some e => Raise e
  | None =>
      Ok (flat_map (fun it : Str.Item =>
                      match snd it with
                      | Some f =>
                          if String.eqb (Str.field_name f) "" then []
                          else [Str.field_name f]
                      | None => []
                      end) items)
  end.
End Resource.

Module Request.
Record t : Type := mk {
  resource : Resource.t;
  route_args : dict;
  query_args : dict;
  headers : dict
}.

Definition _validate_route_args `{SetOrder} (self : t) : Result unit :=
  match Resource.route_params (resource self) with
  | Raise e => Raise e
  | Ok ps =>
      let params := set_of ps in
      let args := set_of (keys (route_args self)) in
      let missing_args := difference params args in
      match missing_args with
      | _ :: _ =>
          match set_iter missing_args with
          | k :: _ => Raise (ValueError ("Missing route argument for parameter " ++ k))
          | [] => Raise (IndexError 0)
          end
      | [] =>
          let unknown_params := difference args params in
          match unknown_params with
          | _ :: _ =>
              match set_iter unknown_params with
              | k :: _ => Raise (ValueError ("Unknown route parameter " ++ k))
              | [] => Raise (IndexError 0)
              end
          | [] => Ok tt
          end
      end
  end.

Definition __init__ `{SetOrder} (resource : Resource.t)
           (route_args query_args headers : option dict) : Result t :=
  let self := mk resource (or_empty route_args) (or_empty query_args) (or_empty headers) in
  match _validate_route_args self with
  | Raise e => Raise e
  | Ok _ => Ok self
  end.

(** property [route] *)
Definition route (self : t) : Result string :=
  Str.format (Resource.route_template (resource self)) (route_args self).

(** property [uri] *)
Definition uri (self : t) : Result string :=
  let h := Str.strip "/" (API.host (Resource.api (resource self))) in
  match route self with
  | Raise e => Raise e
  | Ok r => Ok (h ++ "/" ++ Str.strip "/" r)
  end.

Definition __eq__ {Resp : Type} (self : t) (other : PyVal t Resp) : Result bool :=
  match other with
  | PyRequest other =>
      match uri self with
      | Raise e => Raise e
      | Ok u1 =>
          match uri other with
          | Raise e => Raise e
          | Ok u2 =>
              Ok (String.eqb u1 u2 && dict_eq (query_args self) (query_args other))
          end
      end
  | _ => Ok false
  end.

(** The tuple handed to [hash]: [(self.uri, tuple(self.query_args.items()))]. *)
Definition hash_key (self : t) : Result (string * list (string * string)) :=
  match uri self with
  | Raise e => Raise e
  | Ok u => Ok (u, query_args self)
  end.

Definition __hash__ `{PyHash} (self : t) : Result Z :=
  match hash_key self with
  | Raise e => Raise e
  | Ok (u, items) =>
      Ok (hash_tuple [hash_str u;
                      hash_tuple (map (fun kv => hash_tuple [hash_str (fst kv);
                                                             hash_str (snd kv)]) items)])
  end.
End Request.

(** [Resource.as_request] *)
Definition Resource_as_request `{SetOrder} (self : Resource.t)
           (route_args query_args : option dict) : Result Request.t :=
  Request.__init__ self route_args query_args None.

Module Response.
Record t : Type := mk {
  request : Request.t;
  status : Z;
  body : option string;
  headers : dict
}.
End Response.

Definition Val : Type := PyVal Request.t Response.t.

(** ** Test doubles ([tests/doubles.py]) *)

Module FakeDatabase.
(** A Python [dict] keyed by [Request]: each entry remembers the hash its
    key had when it was inserted; a lookup matches an entry when the hashes
    agree and [stored_key == key]. *)
Record entry : Type := mk_entry {
  e_hash : Z;
  e_key : Request.t;
  e_value : Response.t
}.

Definition t : Type := list entry.

Definition __init__ : t := [].

Fixpoint lookup (h : Z) (request : Request.t) (es : t) : Result (option Response.t) :=
  match es with
  | [] => Ok None
  | e :: es' =>
      if Z.eqb (e_hash e) h then
        match Request.__eq__ (e_key e) (PyRequest request : Val) with
        | Raise ex => Raise ex
        | Ok true => Ok (Some (e_value e))
        | Ok false => lookup h request es'
        end
      else lookup h request es'
  end.

Fixpoint assign (h : Z) (request : Request.t) (response : Response.t) (es : t)
  : Result t :=
  match es with
  | [] => Ok [mk_entry h request response]
  | e :: es' =>
      let next :=
        match assign h request response es' with
        | Raise ex => Raise ex
        | Ok es'' => Ok (e :: es'')
        end in
      if Z.eqb (e_hash e) h then
        match Request.__eq__ (e_key e) (PyRequest request : Val) with
        | Raise ex => Raise ex
        | Ok true => Ok (mk_entry (e_hash e) (e_key e) response :: es')
        | Ok false => next
        end
      else next
  end.

(** [self._entries[request] = response] *)
Definition put `{PyHash} (self : t) (request : Request.t) (response : Response.t)
  : Result t :=
  match Request.__hash__ request with
  | Raise ex => Raise ex
  | Ok h => assign h request response self
  end.

(** [self._entries.get(request)] *)
Definition get `{PyHash} (self : t) (request : Request.t) : Result (option Response.t) :=
  match Request.__hash__ request with
  | Raise ex => Raise ex
  | Ok h => lookup h request self
  end.

Definition iter_responses (self : t) : list Response.t := map e_value self.
End FakeDatabase.

Module HttpClientStub.
(** [responses_map]: uri -> (status, body, headers) *)
Definition t : Type := list (string * (Z * option string * dict)).

Fixpoint find (u : string) (m : t) : option (Z * option string * dict) :=
  match m with
  | [] => None
  | (k, v) :: m' => if String.eqb k u then Some v else find u m'
  end.

Definition send (self : t) (request : Request.t) : Result Response.t :=
  match Request.uri request with
  | Raise e => Raise e
  | Ok u =>
      match find u self with
      | Some (status, body, headers) => Ok (Response.mk request status body headers)
      | None => Ok (Response.mk request 404 None [])
      end
  end.
End HttpClientStub.

(** ** The event-loop queue ([asyncio.Queue], unbounded)

    Only what the collector uses: [put_nowait], [get] (which suspends on an
    empty queue), [task_done] and the condition [join] waits for. *)

Module AsyncQueue.
Section Queue.
Context {A : Type}.

Record t : Type := mk {
  items : list A;
  unfinished_tasks : Z
}.

Definition empty : t := mk [] 0%Z.

Definition put_nowait (item : A) (q : t) : t :=
  mk (items q ++ [item])%list (unfinished_tasks q + 1)%Z.

(** [None]: the caller is suspended until an item arrives. *)
Definition get (q : t) : option (A * t) :=
  match items q with
  | [] => None
  | x :: rest => Some (x, mk rest (unfinished_tasks q))
  end.

Definition task_done (q : t) : Result t :=
  if (unfinished_tasks q <=? 0)%Z
  then Raise (ValueError "task_done() called too many times")
  else Ok (mk (items q) (unfinished_tasks q - 1)%Z).

(** [join] suspends while [unfinished_tasks > 0]. *)
Definition join_ready (q : t) : bool := (unfinished_tasks q <=? 0)%Z.
End Queue.
Arguments t A : clear implicits.
End AsyncQueue.

(** ** Hook pipeline and worker ([core.py], [collector.py])

    The pipeline never looks inside a request or a response: it passes them
    to hooks and ports and compares results with the [Abort] sentinel. It is
    embedded once, for any representation [Req], [Resp] of the two objects
    and any type [U] of the state that hooks, transport and storage own. *)

Section Pipeline.
Context {Req Resp U : Type}.

Record Collector : Type := mkCollector {
  _queue : list Req;
  _async_queue : option (AsyncQueue.t Req);
  _num_workers : nat;
  env : U                    (* [_db], [_http_client] and whatever hooks share *)
}.

Definition with_async_queue (q : option (AsyncQueue.t Req)) (c : Collector) : Collector :=
  mkCollector (_queue c) q (_num_workers c) (env c).

Definition with_env (u : U) (c : Collector) : Collector :=
  mkCollector (_queue c) (_async_queue c) (_num_workers c) u.

(** A handler receives its argument and [collector=self]. *)
Definition Handler (A : Type) : Type :=
  A -> Collector -> Result (PyVal Req Resp) * Collector.

Record Hook : Type := mkHook {
  handle_request : Handler Req;
  handle_response : Handler Resp
}.

(** [class Hook]: both handlers are [pass]. *)
Definition Hook_base : Hook :=
  mkHook (fun _ c => (Ok PyNone, c)) (fun _ c => (Ok PyNone, c)).

Definition CustomHook (handle_request_fn : option (Handler Req))
           (handle_response_fn : option (Handler Resp)) : Hook :=
  mkHook
    (fun request c =>
       match handle_request_fn with
       | Some fn => fn request c
       | None => (Ok (PyRequest request), c)
       end)
    (fun response c =>
       match handle_response_fn with
       | Some fn => fn response c
       | None => (Ok (PyResponse response), c)
       end).

(** [hook(handle_request, handle_response)] *)
Definition hook := CustomHook.

(** Ghost trace: every call the code makes to a hook handler, to the
    transport, to the storage and to [task_done], in program order.
    Nothing in the model reads it. *)
Inductive Call : Type :=
| CallHandleRequest (h : Hook) (request : Req)
| CallHandleResponse (h : Hook) (response : Resp)
| CallSend (request : Req)
| CallPut (request : Req) (response : Resp)
| CallTaskDone.

Definition St : Type := (Collector * list Call)%type.

(** State and exception monad of the worker. *)
Definition M (A : Type) : Type := St -> Result A * St.

Definition ret {A} (a : A) : M A := fun s => (Ok a, s).

Definition raise {A} (e : Exn) : M A := fun s => (Raise e, s).

Definition bind {A B} (m : M A) (k : A -> M B) : M B :=
  fun s => match m s with
           | (Ok a, s') => k a s'
           | (Raise e, s') => (Raise e, s')
           end.

Definition log (c : Call) : M unit := fun s => (Ok tt, (fst s, (snd s ++ [c])%list)).

Definition call {A} (f : Collector -> Result A * Collector) : M A :=
  fun s => let (r, c') := f (fst s) in (r, (c', snd s)).

Definition call_env {A} (f : U -> Result A * U) : M A :=
  call (fun c => let (r, u') := f (env c) in (r, with_env u' c)).

Definition read {A} (f : Collector -> A) : M A := fun s => (Ok (f (fst s)), s).

(** [try: body finally: fin] -- [fin] runs on every exit of [body]; an
    exception of [fin] replaces the outcome of [body]. *)
Definition try_finally {A} (body : M A) (fin : M unit) : M A :=
  fun s => let (r, s1) := body s in
           match fin s1 with
           | (Ok _, s2) => (r, s2)
           | (Raise e, s2) => (Raise e, s2)
           end.

Notation "x <- m ;; k" := (bind m (fun x => k))
  (at level 61, m at next level, right associativity).
Notation "m ;;; k" := (bind m (fun _ => k))
  (at level 61, right associativity).

(** [Request.run_hooks]: the loop over [hooks]. *)
Fixpoint Request_run_hooks (hooks : list Hook) (request : Req) : M (PyVal Req Resp) :=
  match hooks with
  | [] => ret (PyRequest request)
  | hook :: hooks' =>
      log (CallHandleRequest hook request) ;;;
      result <- call (handle_request hook request) ;;
      match result with
      | PyAbort => ret (PyRequest request)
      | PyRequest result => Request_run_hooks hooks' result
      | _ => Request_run_hooks hooks' request
      end
  end.

Fixpoint Response_run_loop (hooks : list Hook) (response : Resp) : M (PyVal Req Resp) :=
  match hooks with
  | [] => ret (PyResponse response)
  | hook :: hooks' =>
      log (CallHandleResponse hook response) ;;;
      result <- call (handle_response hook response) ;;
      match result with
      | PyAbort => ret (PyResponse response)
      | PyResponse result => Response_run_loop hooks' result
      | _ => Response_run_loop hooks' response
      end
  end.

(** [Response.run_hooks]: the same loop over [reversed(hooks)]. *)
Definition Response_run_hooks (hooks : list Hook) (response : Resp) : M (PyVal Req Resp) :=
  Response_run_loop (rev hooks) response.

(** The collaborators of the worker. *)
Class Ports : Type := {
  resource_hooks : Req -> U -> list Hook;        (* [request.resource.hooks] *)
  api_hooks : Req -> U -> list Hook;             (* [request.resource.api.hooks] *)
  http_send : Req -> U -> Result Resp * U;       (* [self._http_client.send] *)
  db_put : Req -> Resp -> U -> Result unit * U   (* [self._db.put] *)
}.
Context {ports : Ports}.

(** [self._async_queue.task_done()] *)
Definition task_done : M unit :=
  log CallTaskDone ;;;
  call (fun c =>
          match _async_queue c with
          | None => (Raise (Fault "AttributeError: 'NoneType' object has no attribute 'task_done'"), c)
          | Some q =>
              match AsyncQueue.task_done q with
              | Raise e => (Raise e, c)
              | Ok q' => (Ok tt, with_async_queue (Some q') c)
              end
          end).

(** [hooks = resource.hooks + resource.api.hooks] *)
Definition hooks_of (request : Req) : M (list Hook) :=
  read (fun c => (resource_hooks request (env c) ++ api_hooks request (env c))%list).

(** The part of the [try] block that follows the send: response hooks and
    storage. *)
Definition after_send (hooks : list Hook) (request : Req) (response : Resp) : M unit :=
  response <- Response_run_hooks hooks response ;;
  match response with
  | PyAbort => ret tt
  | PyResponse response =>
      log (CallPut request response) ;;;
      call_env (db_put request response)
  | _ => raise (Fault "TypeError: not a Response")
  end.

(** The part of the [try] block between [get] and the send: [Some request]
    when the code goes on to [send], [None] on [continue]. *)
Definition before_send (hooks : list Hook) (request : Req) : M (option Req) :=
  request <- Request_run_hooks hooks request ;;
  match request with
  | PyAbort => ret None
  | PyRequest request => ret (Some request)
  | _ => raise (Fault "TypeError: not a Request")
  end.

(** The [try] block once [get] has delivered [request]. *)
Definition unit_body (request : Req) : M unit :=
  hooks <- hooks_of request ;;
  request <- before_send hooks request ;;
  match request with
  | None => ret tt
  | Some request =>
      log (CallSend request) ;;;
      response <- call_env (http_send request) ;;
      after_send hooks request response
  end.

(** One unit of work: the [try] block and its [finally]. *)
Definition unit_of_work (request : Req) : M unit :=
  try_finally (unit_body request) task_done.

(** [await self._async_queue.get()] *)
Definition queue_get (s : St) : option (Req * St) :=
  match _async_queue (fst s) with
  | None => None
  | Some q =>
      match AsyncQueue.get q with
      | None => None
      | Some (request, q') => Some (request, (with_async_queue (Some q') (fst s), snd s))
      end
  end.

(** How a worker stops running: suspended in [get] on an empty queue, or
    ended by an exception that left the [while] loop. *)
Inductive WorkerExit : Type :=
| Suspended
| Crashed (e : Exn)
| OutOfFuel.

(** [Collector._worker], run alone until it suspends or dies. *)
Fixpoint _worker (fuel : nat) (s : St) : WorkerExit * St :=
  match fuel with
  | O => (OutOfFuel, s)
  | S fuel' =>
      match queue_get s with
      | None => (Suspended, s)
      | Some (request, s1) =>
          match unit_of_work request s1 with
          | (Ok _, s2) => _worker fuel' s2
          | (Raise e, s2) => (Crashed e, s2)
          end
      end
  end.

(** The enqueue half of [Collector.register]. *)
Definition enqueue (request : Req) (c : Collector) : Collector :=
  match _async_queue c with
  | Some q => with_async_queue (Some (AsyncQueue.put_nowait request q)) c
  | None => mkCollector (_queue c ++ [request])%list None (_num_workers c) (env c)
  end.

(** [Collector._fill_async_queue] *)
Definition _fill_async_queue (c : Collector) : Collector :=
  match _async_queue c with
  | None => c
  | Some q =>
      mkCollector []
        (Some (fold_left (fun q request => AsyncQueue.put_nowait request q) (_queue c) q))
        (_num_workers c) (env c)
  end.

(** *** The workers under the event loop

    [asyncio] runs one task at a time and switches only at an [await].
    A worker has two of them: [get] and [send]. Between two awaits a task
    runs without interruption, so a run of the collector is a sequence of
    resumptions, each of one task. *)

Inductive Task : Type :=
| AtGet                                          (* suspended in [await get()] *)
| AtSend (hooks : list Hook) (request : Req)     (* suspended in [await send(request)] *)
| Ended (e : Exn).                               (* the coroutine ended with an exception *)

Record Loop : Type := mkLoop {
  machine : St;
  tasks : list Task
}.

(** What the [finally] clause leaves the task with. *)
Definition finish (r : Result unit * St) : St * Task :=
  match task_done (snd r) with
  | (Ok _, s) =>
      match fst r with
      | Ok _ => (s, AtGet)
      | Raise e => (s, Ended e)
      end
  | (Raise e, s) => (s, Ended e)
  end.

(** A task resumed from [get] with a request runs up to the send. *)
Definition resume_get (request : Req) (s : St) : St * Task :=
  match hooks_of request s with
  | (Raise e, s1) => finish (Raise e, s1)
  | (Ok hooks, s1) =>
      match before_send hooks request s1 with
      | (Raise e, s2) => finish (Raise e, s2)
      | (Ok None, s2) => finish (Ok tt, s2)
      | (Ok (Some request'), s2) => (snd (log (CallSend request') s2), AtSend hooks request')
      end
  end.

(** A task resumed from [send] runs to the end of the iteration. *)
Definition resume_send (hooks : list Hook) (request : Req) (s : St) : St * Task :=
  finish ((response <- call_env (http_send request) ;;
           after_send hooks request response) s).

Fixpoint set_nth {A} (i : nat) (x : A) (l : list A) : list A :=
  match l, i with
  | [], _ => []
  | _ :: l', O => x :: l'
  | y :: l', S i' => y :: set_nth i' x l'
  end.

(** The event loop resumes task [i]; [None] when that task cannot run. *)
Definition resume (i : nat) (l : Loop) : option Loop :=
  match nth_error (tasks l) i with
  | Some AtGet =>
      match queue_get (machine l) with
      | None => None
      | Some (request, s1) =>
          let (s2, t) := resume_get request s1 in
          Some (mkLoop s2 (set_nth i t (tasks l)))
      end
  | Some (AtSend hooks request) =>
      let (s2, t) := resume_send hooks request (machine l) in
      Some (mkLoop s2 (set_nth i t (tasks l)))
  | _ => None
  end.

Inductive step : Loop -> Loop -> Prop :=
| step_resume : forall i l l', resume i l = Some l' -> step l l'.

Inductive steps : Loop -> Loop -> Prop :=
| steps_refl : forall l, steps l l
| steps_next : forall l1 l2 l3, steps l1 l2 -> step l2 l3 -> steps l1 l3.

(** The schedule [sched] (task indices, in order) applied from [l]. *)
Fixpoint run_schedule (sched : list nat) (l : Loop) : option Loop :=
  match sched with
  | [] => Some l
  | i :: sched' =>
      match resume i l with
      | None => None
      | Some l' => run_schedule sched' l'
      end
  end.

(** [Collector._run] up to [await self._async_queue.join()]. *)
Definition _run_start (c : Collector) : Loop :=
  let c1 := _fill_async_queue (with_async_queue (Some AsyncQueue.empty) c) in
  mkLoop (c1, []) (repeat AtGet (_num_workers c)).

(** [join] lets [_run] go on exactly in the states where no task is
    unfinished. *)
Definition join_ready (l : Loop) : bool :=
  match _async_queue (fst (machine l)) with
  | Some q => AsyncQueue.join_ready q
  | None => false
  end.

(** The rest of [_run]: the workers are cancelled (each one is suspended
    in [get]; its [finally] calls [task_done] on a queue with nothing
    unfinished, which raises and changes nothing) and the queue is
    dropped. *)
Definition _run_finish (l : Loop) : Collector :=
  with_async_queue None (fst (machine l)).

(** [run()] can return [c'] from [c]. *)
Definition run_returns (c c' : Collector) : Prop :=
  exists l, steps (_run_start c) l /\ join_ready l = true /\ c' = _run_finish l.

Definition in_flight (ts : list Task) : nat :=
  length (filter (fun t => match t with AtSend _ _ => true | _ => false end) ts).

End Pipeline.

(** ** The collector over the test doubles ([collector.py], [tests/doubles.py]) *)

Module Mapi.
(** What the collector owns besides its queues, and what hooks may share. *)
Record World : Type := mkWorld {
  _db : FakeDatabase.t;
  _http_client : HttpClientStub.t;
  shared_log : list string
}.

Definition hook_t : Type := @Hook Request.t Response.t World.
Definition collector_t : Type := @Collector Request.t World.

Section WithHooks.
Context `{SetOrder} `{PyHash}.
(** The hook objects behind the names used by resources and APIs. *)
Variable hook_table : HookId -> hook_t.

#[local] Instance ports : @Ports Request.t Response.t World := {
  resource_hooks := fun request _ =>
    map hook_table (Resource.hooks (Request.resource request));
  api_hooks := fun request _ =>
    map hook_table (API.hooks (Resource.api (Request.resource request)));
  http_send := fun request u => (HttpClientStub.send (_http_client u) request, u);
  db_put := fun request response u =>
    match FakeDatabase.put (_db u) request response with
    | Raise e => (Raise e, u)
    | Ok db' => (Ok tt, mkWorld db' (_http_client u) (shared_log u))
    end
}.

(** [Collector(db, http_client, num_workers)] *)
Definition __init__ (db : option FakeDatabase.t) (http_client : HttpClientStub.t)
           (num_workers : option nat) : collector_t :=
  mkCollector []  None
    (match num_workers with Some n => n | None => 3 end)
    (mkWorld (match db with Some d => d | None => FakeDatabase.__init__ end)
             http_client []).

Definition register (resource : Resource.t) (route_args query_args : option dict)
           (self : collector_t) : Result collector_t :=
  match Resource_as_request resource route_args query_args with
  | Raise e => Raise e
  | Ok request => Ok (enqueue request self)
  end.

Definition get (resource : Resource.t) (route_args query_args : option dict)
           (self : collector_t) : Result (option Response.t) :=
  match Resource_as_request resource route_args query_args with
  | Raise e => Raise e
  | Ok request => FakeDatabase.get (_db (env self)) request
  end.

Definition iter_responses (self : collector_t) : list Response.t :=
  FakeDatabase.iter_responses (_db (env self)).
End WithHooks.
End Mapi.

(** ** A reference instance of the builtins: CPython 3.11, 64-bit, hash seed 0 *)

Module CPython.
#[local] Open Scope Z_scope.

Definition w64 (x : Z) : Z := x mod 2 ^ 64.
Definition rotl (x : Z) (b : Z) : Z :=
  w64 (Z.lor (Z.shiftl x b) (Z.shiftr x (64 - b))).
Definition signed (x : Z) : Z := if x <? 2 ^ 63 then x else x - 2 ^ 64.

(** SipHash-1-3 with a zero key, as [str.__hash__] runs it on the bytes of
    an ASCII string. *)
Definition half_round (a b c d s t : Z) : Z * Z * Z * Z :=
  let a := w64 (a + b) in
  let c := w64 (c + d) in
  let b := Z.lxor (rotl b s) a in
  let d := Z.lxor (rotl d t) c in
  let a := rotl a 32 in
  (a, b, c, d).

Definition sipround (v : Z * Z * Z * Z) : Z * Z * Z * Z :=
  let '(v0, v1, v2, v3) := v in
  let '(v0, v1, v2, v3) := half_round v0 v1 v2 v3 13 16 in
  let '(v2, v1, v0, v3) := half_round v2 v1 v0 v3 17 21 in
  (v0, v1, v2, v3).

Definition absorb (v : Z * Z * Z * Z) (m : Z) : Z * Z * Z * Z :=
  let '(v0, v1, v2, v3) := v in
  let '(v0, v1, v2, v3) := sipround (v0, v1, v2, Z.lxor v3 m) in
  (Z.lxor v0 m, v1, v2, v3).

Fixpoint le_word (bytes : list Z) : Z :=
  match bytes with
  | [] => 0
  | b :: bs => b + 256 * le_word bs
  end.

Fixpoint sip_blocks (fuel : nat) (v : Z * Z * Z * Z) (bytes : list Z)
  : (Z * Z * Z * Z) * list Z :=
  match fuel with
  | O => (v, bytes)
  | S fuel' =>
      if (8 <=? length bytes)%nat
      then sip_blocks fuel' (absorb v (le_word (firstn 8 bytes))) (skipn 8 bytes)
      else (v, bytes)
  end.

Definition siphash13 (bytes : list Z) : Z :=
  let v := (0x736f6d6570736575, 0x646f72616e646f6d,
            0x6c7967656e657261, 0x7465646279746573) in
  let (v, tail) := sip_blocks (length bytes) v bytes in
  let b := Z.lor (Z.shiftl (Z.of_nat (length bytes) mod 256) 56) (le_word tail) in
  let '(v0, v1, v2, v3) := absorb v b in
  let '(v0, v1, v2, v3) := sipround (sipround (sipround (v0, v1, Z.lxor v2 255, v3))) in
  Z.lxor (Z.lxor v0 v1) (Z.lxor v2 v3).

Definition str_hash (s : string) : Z :=
  match chars s with
  | [] => 0
  | cs =>
      let x := signed (siphash13 (map (fun c => Z.of_nat (nat_of_ascii c)) cs)) in
      if x =? -1 then -2 else x
  end.

(** [tuplehash] of [Objects/tupleobject.c] on the hashes of the items. *)
Definition XXPRIME_1 : Z := 11400714785074694791.
Definition XXPRIME_2 : Z := 14029467366897019727.
Definition XXPRIME_5 : Z := 2870177450012600261.

Definition tuple_hash (lanes : list Z) : Z :=
  let acc :=
    fold_left (fun acc lane =>
                 w64 (rotl (w64 (acc + w64 lane * XXPRIME_2)) 31 * XXPRIME_1))
              lanes XXPRIME_5 in
  let acc := w64 (acc + Z.lxor (Z.of_nat (length lanes)) (Z.lxor XXPRIME_5 3527539)) in
  if acc =? 2 ^ 64 - 1 then 1546275796 else signed acc.

#[export] Instance py_hash : PyHash := {
  hash_str := str_hash;
  hash_tuple := tuple_hash
}.

(** CPython's small sets of short strings are not modelled: the reference
    instance enumerates a set in the order the model built it. *)
#[export] Instance set_order : SetOrder := {
  set_iter := fun s => s;
  set_iter_perm := fun s => Permutation_refl s
}.
End CPython.


(** ** Observations on runs *)

Section Observations.
Context {Req Resp U : Type}.
#[local] Abbreviation hook_t := (@Hook Req Resp U).
#[local] Abbreviation call_t := (@Call Req Resp U).
#[local] Abbreviation collector_t := (@Collector Req U).

(** The calls a computation makes when started in [c]. *)
Definition calls_of {A} (m : @M Req Resp U A) (c : collector_t) : list call_t :=
  snd (snd (m (c, []))).

(** The hooks whose [handle_request] (resp. [handle_response]) a trace
    invokes, in order. *)
Definition request_calls (tr : list call_t) : list hook_t :=
  flat_map (fun c => match c with CallHandleRequest h _ => [h] | _ => [] end) tr.

Definition response_calls (tr : list call_t) : list hook_t :=
  flat_map (fun c => match c with CallHandleResponse h _ => [h] | _ => [] end) tr.

(** The requests handed to the transport, and the pairs handed to the
    storage. *)
Definition sent (tr : list call_t) : list Req :=
  flat_map (fun c => match c with CallSend r => [r] | _ => [] end) tr.

Definition stored (tr : list call_t) : list (Req * Resp) :=
  flat_map (fun c => match c with CallPut r p => [(r, p)] | _ => [] end) tr.

Definition task_done_calls (tr : list call_t) : nat :=
  length (filter (fun c => match c with CallTaskDone => true | _ => false end) tr).

Definition is_request_call (c : call_t) : Prop :=
  match c with CallHandleRequest _ _ => True | _ => False end.

Definition is_response_call (c : call_t) : Prop :=
  match c with CallHandleResponse _ _ => True | _ => False end.

(** A handler that returns, and returns neither [Abort] nor a replacement. *)
Definition quiet_request (h : hook_t) : Prop :=
  forall request c, exists v c',
    handle_request h request c = (Ok v, c') /\ v <> PyAbort /\ forall r, v <> PyRequest r.

Definition quiet_response (h : hook_t) : Prop :=
  forall response c, exists v c',
    handle_response h response c = (Ok v, c') /\ v <> PyAbort /\ forall r, v <> PyResponse r.

(** A hook whose handlers return and never return [Abort]. *)
Definition proceeds (h : hook_t) : Prop :=
  (forall request c, exists v c', handle_request h request c = (Ok v, c') /\ v <> PyAbort)
  /\ (forall response c, exists v c',
         handle_response h response c = (Ok v, c') /\ v <> PyAbort).

(** The queue [q'] is [q] with some requests appended, each counted. *)
Definition grows (q q' : AsyncQueue.t Req) : Prop :=
  exists new,
    q' = AsyncQueue.mk (AsyncQueue.items q ++ new)%list
                       (AsyncQueue.unfinished_tasks q + Z.of_nat (length new))%Z.

(** A handler that touches the running queue only through
    [collector.register]. *)
Definition registers_only {A} (f : @Handler Req Resp U A) : Prop :=
  forall x c q, _async_queue c = Some q ->
    exists q', _async_queue (snd (f x c)) = Some q' /\ grows q q'.

Definition polite (h : hook_t) : Prop :=
  registers_only (handle_request h) /\ registers_only (handle_response h).

(** Outstanding work balances: every queued item and every unit in flight
    is counted once. *)
Definition balanced (l : @Loop Req Resp U) : Prop :=
  exists q, _async_queue (fst (machine l)) = Some q
            /\ AsyncQueue.unfinished_tasks q
               = Z.of_nat (length (AsyncQueue.items q) + in_flight (tasks l))
            /\ Forall (fun t => match t with
                                | AtSend hooks _ => Forall polite hooks
                                | _ => True
                                end) (tasks l).
End Observations.

(** ** Route templates as the specification describes them

    "A path string with named placeholders": literal text without braces
    and placeholders [{name}]. *)

Module Template.
Inductive Segment : Type :=
| Lit (s : string)
| Hole (name : string).

Definition render_segment (g : Segment) : string :=
  match g with
  | Lit s => s
  | Hole n => "{" ++ n ++ "}"
  end.

Definition render (segs : list Segment) : string :=
  fold_right (fun g s => render_segment g ++ s) "" segs.

Definition holes (segs : list Segment) : list string :=
  flat_map (fun g => match g with Hole n => [n] | Lit _ => [] end) segs.

Definition is_brace (c : ascii) : bool := Ascii.eqb c "{" || Ascii.eqb c "}".

Definition is_special (c : ascii) : bool :=
  is_brace c || Ascii.eqb c "[" || Ascii.eqb c "]" || Ascii.eqb c "."
  || Ascii.eqb c ":" || Ascii.eqb c "!".

(** A placeholder name: starts with a character that is no digit and
    contains none of the characters with a meaning in a replacement field. *)
Definition plain_name (n : string) : bool :=
  match chars n with
  | [] => false
  | c :: cs => negb (Str.is_digit c) && forallb (fun x => negb (is_special x)) (c :: cs)
  end.

Definition well_formed_segment (g : Segment) : bool :=
  match g with
  | Lit s => forallb (fun c => negb (is_brace c)) (chars s)
  | Hole n => plain_name n
  end.

Definition well_formed (segs : list Segment) : bool := forallb well_formed_segment segs.

(** The template with each placeholder replaced by its argument value. *)
Fixpoint substitute (args : dict) (segs : list Segment) : option string :=
  match segs with
  | [] => Some ""
  | g :: segs' =>
      match (match g with Lit s => Some s | Hole n => dict_get n args end),
            substitute args segs' with
      | Some v, Some rest => Some (v ++ rest)
      | _, _ => None
      end
  end.
End Template.

(** Two dictionaries hold the same key/value pairs. *)
Definition dict_equiv (a b : dict) : Prop :=
  forall k v, In (k, v) a <-> In (k, v) b.

Definition with_headers (h : dict) (r : Request.t) : Request.t :=
  Request.mk (Request.resource r) (Request.route_args r) (Request.query_args r) h.


(** ** Concrete scenarios (resources, hooks and registrations used by the examples) *)

Module Scenario.
Import CPython.

Definition api : API.t := API.mk "http://test.org" [].
Definition tagged_api : API.t := API.mk "http://test.org/" [5].

Definition users : Resource.t := Resource.mk api "all_users" "users" [] [].
Definition user : Resource.t := Resource.mk api "user" "users/{id}" [] [].
Definition search : Resource.t := Resource.mk api "search" "search" ["a"; "b"] [].
Definition guarded : Resource.t := Resource.mk api "guarded" "guarded" [] [0].
Definition filtered : Resource.t := Resource.mk api "filtered" "filtered" [] [1].
Definition faulty : Resource.t := Resource.mk api "faulty" "faulty" [] [2].
Definition pages : Resource.t := Resource.mk api "pages" "pages" ["page"] [3].
Definition tagged : Resource.t := Resource.mk tagged_api "tagged" "/tagged" [] [4].
Definition retried : Resource.t := Resource.mk api "retried" "search" ["a"; "b"] [6].

(** A request hook that returns [Abort]. *)
Definition abort_request : Mapi.hook_t :=
  hook (Some (fun _ c => (Ok PyAbort, c))) None.

(** A response hook that returns [Abort]. *)
Definition abort_response : Mapi.hook_t :=
  hook None (Some (fun _ c => (Ok PyAbort, c))).

(** A request hook that raises. *)
Definition raising : Mapi.hook_t :=
  hook (Some (fun _ c => (Raise (Fault "boom"), c))) None.

(** A pagination hook: the response of page 1 registers page 2, the response
    of page 2 registers page 3, page 3 is terminal. The query arguments of
    the next request are a fresh dictionary. *)
Definition next_page : Mapi.hook_t :=
  hook None
       (Some (fun response c =>
                let request := Response.request response in
                let register_page (p : string) :=
                  match Mapi.register (Request.resource request)
                                      (Some (Request.route_args request))
                                      (Some (dict_set "page" p (Request.query_args request))) c with
                  | Raise e => (Raise e, c)
                  | Ok c' => (Ok PyNone, c')
                  end in
                match dict_get "page" (Request.query_args request) with
                | Some p =>
                    if String.eqb p "1" then register_page "2"
                    else if String.eqb p "2" then register_page "3"
                    else (Ok PyNone, c)
                | None => (Ok PyNone, c)
                end)).

(** The same query arguments, written in two orders. *)
Definition ab : dict := [("a", "1"); ("b", "2")].
Definition ba : dict := [("b", "2"); ("a", "1")].

(** A retry hook: the response to a request whose query arguments start
    with the key [a] registers the same resource again, with the query
    arguments rebuilt in the order b, a. *)
Definition retry_reordered : Mapi.hook_t :=
  hook None
       (Some (fun response c =>
                let request := Response.request response in
                match Request.query_args request with
                | (k, _) :: _ =>
                    if String.eqb k "a" then
                      match Mapi.register (Request.resource request)
                                          (Some (Request.route_args request)) (Some ba) c with
                      | Raise e => (Raise e, c)
                      | Ok c' => (Ok PyNone, c')
                      end
                    else (Ok PyNone, c)
                | [] => (Ok PyNone, c)
                end)).

(** A hook that tags both phases into the shared log. *)
Definition tagging (who : string) : Mapi.hook_t :=
  let note (phase : string) (c : Mapi.collector_t) : Mapi.collector_t :=
    with_env (Mapi.mkWorld (Mapi._db (env c)) (Mapi._http_client (env c))
                           (Mapi.shared_log (env c) ++ [(who ++ phase)%string])%list) c in
  mkHook (fun _ c => (Ok PyNone, note ":request" c))
         (fun _ c => (Ok PyNone, note ":response" c)).

Definition hook_table (id : HookId) : Mapi.hook_t :=
  match id with
  | 0 => abort_request
  | 1 => abort_response
  | 2 => raising
  | 3 => next_page
  | 4 => tagging "resource"
  | 5 => tagging "api"
  | 6 => retry_reordered
  | _ => Hook_base
  end.

#[export] Instance ports : @Ports Request.t Response.t Mapi.World := Mapi.ports hook_table.

Definition http_client : HttpClientStub.t :=
  [("http://test.org/users", (200%Z, Some "[]", [("Content-type", "application/json")]))].

Definition collector : Mapi.collector_t := Mapi.__init__ None http_client None.

(** [collector.register(...).register(...)] for requests that are known to
    validate. *)
Fixpoint register_all (rs : list (Resource.t * option dict * option dict))
         (c : Mapi.collector_t) : Mapi.collector_t :=
  match rs with
  | [] => c
  | (resource, route_args, query_args) :: rs' =>
      match Mapi.register resource route_args query_args c with
      | Ok c' => register_all rs' c'
      | Raise _ => c
      end
  end.

Definition request_ab : Request.t := Request.mk search [] ab [].
Definition request_ba : Request.t := Request.mk search [] ba [].

(** A worker that is alone on the loop: it is resumed from [get], then from
    [send], for each of [n] units. *)
Fixpoint alone (n : nat) : list nat :=
  match n with
  | O => []
  | S n' => 0 :: 0 :: alone n'
  end.

Definition after_schedule (sched : list nat) (c : Mapi.collector_t) : option Mapi.collector_t :=
  match run_schedule sched (_run_start c) with
  | Some l => if join_ready l then Some (_run_finish l) else None
  | None => None
  end.

(** The collector as a worker sees it once [_run] has filled the queue. *)
Definition started (c : Mapi.collector_t) : Mapi.collector_t :=
  fst (machine (@_run_start Request.t Response.t Mapi.World c)).

(** A collector whose queue has delivered its only request. *)
Definition one_in_flight : Mapi.collector_t :=
  with_async_queue (Some (AsyncQueue.mk [] 1%Z)) collector.

Definition request_of (resource : Resource.t) : Request.t := Request.mk resource [] [] [].

(** A worker state with an empty trace. *)
Definition fresh (c : Mapi.collector_t) : @St Request.t Response.t Mapi.World := (c, []).

Definition not_found (request : Request.t) : Response.t := Response.mk request 404%Z None [].

(** A registration that its response hook registers again, a three-page
    chain, and a faulting unit followed by an ordinary one. *)
Definition retry_ab : Request.t := Request.mk retried [] ab [].
Definition retry_ba : Request.t := Request.mk retried [] ba [].

Definition retrying : Mapi.collector_t :=
  register_all [(retried, None, Some ab)] collector.

Definition page (p : string) : Request.t := Request.mk pages [] [("page", p)] [].

Definition paged : Mapi.collector_t :=
  register_all [(pages, None, Some [("page", "1")])] collector.

Definition faulty_then_users : Mapi.collector_t :=
  register_all [(faulty, None, None); (users, None, None)] collector.

Definition user_7 : Request.t := Request.mk user [("id", "7")] [] [].
End Scenario.

(** ** The API object and its resources ([core.py], class [API])

    An [API] object holds its resources by name, and every [Resource] holds
    a reference back to its API. The table keeps what [add] was given; the
    back reference is resolved when a resource is looked up, so a resource
    obtained from [get] carries the host and the hooks the API has at that
    moment. *)

Module APIState.
Record decl : Type := mk_decl {
  d_route_template : string;
  d_query_params : list string;
  d_hooks : list HookId
}.

Record t : Type := mk {
  host : string;
  _resources : list (string * decl);
  hooks : list HookId
}.

(** [API(host)] *)
Definition __init__ (host : string) : t := mk host [] [].

Fixpoint lookup (name : string) (rs : list (string * decl)) : option decl :=
  match rs with
  | [] => None
  | (n, d) :: rs' => if String.eqb n name then Some d else lookup name rs'
  end.

Definition or_nil {A : Type} (l : option (list A)) : list A :=
  match l with
  | Some l => l
  | None => []
  end.

(** [API.add]: the assertion, then [Resource(self, name, ...)] stored under
    [name]. *)
Definition add (self : t) (name route_template : string)
           (query_params : option (list string)) (hooks : option (list HookId)) : Result t :=
  match lookup name (_resources self) with
  | Some _ => Raise (Fault ("AssertionError: Resource " ++ name ++ " already exist"))
  | None =>
      Ok (mk (host self)
             (_resources self
              ++ [(name, mk_decl route_template (or_nil query_params) (or_nil hooks))])%list
             (APIState.hooks self))
  end.

(** [API.hook] *)
Definition hook (self : t) (h : HookId) : t :=
  mk (host self) (_resources self) (hooks self ++ [h])%list.

(** [API.get] *)
Definition get (self : t) (resource_name : string) : Result Resource.t :=
  match lookup resource_name (_resources self) with
  | Some d =>
      Ok (Resource.mk (API.mk (host self) (hooks self)) resource_name
                      (d_route_template d) (d_query_params d) (d_hooks d))
  | None => Raise (Fault ("Unknown resource " ++ resource_name))
  end.
End APIState.

(** [HttpClientStub.stub]: [self.responses_map[request_url] = response] *)
Fixpoint HttpClientStub_stub (self : HttpClientStub.t) (request_url : string)
         (response : Z * option string * dict) : HttpClientStub.t :=
  match self with
  | [] => [(request_url, response)]
  | (k, v) :: self' =>
      if String.eqb k request_url then (k, response) :: self'
      else (k, v) :: HttpClientStub_stub self' request_url response
  end.

(** The same request on an API with another host. *)
Definition on_host (h : string) (r : Request.t) : Request.t :=
  let res := Request.resource r in
  Request.mk (Resource.mk (API.mk h (API.hooks (Resource.api res))) (Resource.name res)
                          (Resource.route_template res) (Resource.query_params res)
                          (Resource.hooks res))
             (Request.route_args r) (Request.query_args r) (Request.headers r).

Section MoreObservations.
Context {Req Resp U : Type}.
#[local] Abbreviation hook_t := (@Hook Req Resp U).

(** A hook whose handlers return, never return [Abort], and replace the
    object, if at all, by the object itself (as a [CustomHook] built without
    functions does). *)
Definition transparent (h : hook_t) : Prop :=
  (forall request c, exists v c',
      handle_request h request c = (Ok v, c') /\ v <> PyAbort
      /\ forall r, v = PyRequest r -> r = request)
  /\ (forall response c, exists v c',
         handle_response h response c = (Ok v, c') /\ v <> PyAbort
         /\ forall r, v = PyResponse r -> r = response).

(** A hook that answers [Abort] to every request (resp. response). *)
Definition aborts_requests (h : hook_t) : Prop :=
  forall request c, exists c', handle_request h request c = (Ok PyAbort, c').

Definition aborts_responses (h : hook_t) : Prop :=
  forall response c, exists c', handle_response h response c = (Ok PyAbort, c').
End MoreObservations.

(** * Properties *)

(** ** The hook chain *)

Section PipelineFacts.
Context {Req Resp U : Type} {ports : @Ports Req Resp U}.
#[local] Abbreviation hook_t := (@Hook Req Resp U).
#[local] Abbreviation st_t := (@St Req Resp U).

Lemma Request_run_hooks_cons : forall (h : hook_t) hs request c tr,
  Request_run_hooks (h :: hs) request (c, tr) =
  match handle_request h request c with
  | (Raise e, c') => (Raise e, (c', tr ++ [CallHandleRequest h request]))
  | (Ok PyAbort, c') => (Ok (PyRequest request), (c', tr ++ [CallHandleRequest h request]))
  | (Ok (PyRequest r), c') => Request_run_hooks hs r (c', tr ++ [CallHandleRequest h request])
  | (Ok _, c') => Request_run_hooks hs request (c', tr ++ [CallHandleRequest h request])
  end%list.
Proof.
  intros. cbn [Request_run_hooks]. unfold bind, log, call. cbn [fst snd].
  destruct (handle_request h request c) as [[v|e] c']; [destruct v|]; reflexivity.
Qed.

Lemma Response_run_loop_cons : forall (h : hook_t) hs response c tr,
  Response_run_loop (h :: hs) response (c, tr) =
  match handle_response h response c with
  | (Raise e, c') => (Raise e, (c', tr ++ [CallHandleResponse h response]))
  | (Ok PyAbort, c') => (Ok (PyResponse response), (c', tr ++ [CallHandleResponse h response]))
  | (Ok (PyResponse r), c') => Response_run_loop hs r (c', tr ++ [CallHandleResponse h response])
  | (Ok _, c') => Response_run_loop hs response (c', tr ++ [CallHandleResponse h response])
  end%list.
Proof.
  intros. cbn [Response_run_loop]. unfold bind, log, call. cbn [fst snd].
  destruct (handle_response h response c) as [[v|e] c']; [destruct v|]; reflexivity.
Qed.

(** The request chain invokes a prefix of the hooks, in order, and nothing
    else. *)
Lemma Request_run_hooks_calls : forall (hooks : list hook_t) request c tr,
  exists n T,
    n <= length hooks
    /\ snd (snd (Request_run_hooks hooks request (c, tr))) = (tr ++ T)%list
    /\ request_calls T = firstn n hooks
    /\ Forall is_request_call T.
Proof.
  induction hooks as [|h hs IH]; intros request c tr.
  - exists 0, []. cbn. rewrite app_nil_r. auto.
  - rewrite Request_run_hooks_cons.
    assert (Hstop : forall (r : Result (PyVal Req Resp)) (c' : @Collector Req U),
               exists n T, n <= length (h :: hs)
                 /\ snd (snd (r, (c', (tr ++ [CallHandleRequest h request])%list))) = (tr ++ T)%list
                 /\ request_calls T = firstn n (h :: hs) /\ Forall is_request_call T).
    { intros r c'. exists 1, [CallHandleRequest h request]. cbn.
      repeat split; auto; try lia. repeat constructor. }
    assert (Hgo : forall r c',
               exists n T, n <= length (h :: hs)
                 /\ snd (snd (Request_run_hooks hs r (c', (tr ++ [CallHandleRequest h request])%list)))
                    = (tr ++ T)%list
                 /\ request_calls T = firstn n (h :: hs) /\ Forall is_request_call T).
    { intros r c'.
      destruct (IH r c' (tr ++ [CallHandleRequest h request])%list) as (n & T & Hn & HT & Hc & Hf).
      exists (S n), (CallHandleRequest h request :: T). cbn [length firstn].
      repeat split; try lia.
      - rewrite HT, <- app_assoc. reflexivity.
      - cbn. f_equal. exact Hc.
      - constructor; [exact I | exact Hf]. }
    destruct (handle_request h request c) as [[v|e] c']; [destruct v|]; auto.
Qed.

Lemma Response_run_loop_calls : forall (hooks : list hook_t) response c tr,
  exists n T,
    n <= length hooks
    /\ snd (snd (Response_run_loop hooks response (c, tr))) = (tr ++ T)%list
    /\ response_calls T = firstn n hooks
    /\ Forall is_response_call T.
Proof.
  induction hooks as [|h hs IH]; intros response c tr.
  - exists 0, []. cbn. rewrite app_nil_r. auto.
  - rewrite Response_run_loop_cons.
    assert (Hstop : forall (r : Result (PyVal Req Resp)) (c' : @Collector Req U),
               exists n T, n <= length (h :: hs)
                 /\ snd (snd (r, (c', (tr ++ [CallHandleResponse h response])%list))) = (tr ++ T)%list
                 /\ response_calls T = firstn n (h :: hs) /\ Forall is_response_call T).
    { intros r c'. exists 1, [CallHandleResponse h response]. cbn.
      repeat split; auto; try lia. repeat constructor. }
    assert (Hgo : forall r c',
               exists n T, n <= length (h :: hs)
                 /\ snd (snd (Response_run_loop hs r (c', (tr ++ [CallHandleResponse h response])%list)))
                    = (tr ++ T)%list
                 /\ response_calls T = firstn n (h :: hs) /\ Forall is_response_call T).
    { intros r c'.
      destruct (IH r c' (tr ++ [CallHandleResponse h response])%list) as (n & T & Hn & HT & Hc & Hf).
      exists (S n), (CallHandleResponse h response :: T). cbn [length firstn].
      repeat split; try lia.
      - rewrite HT, <- app_assoc. reflexivity.
      - cbn. f_equal. exact Hc.
      - constructor; [exact I | exact Hf]. }
    destruct (handle_response h response c) as [[v|e] c']; [destruct v|]; auto.
Qed.

(** [run_hooks] hands back a request (resp. a response), never [Abort]. *)
Lemma Request_run_hooks_result : forall (hooks : list hook_t) request s v s',
  Request_run_hooks hooks request s = (Ok v, s') -> exists r, v = PyRequest r.
Proof.
  induction hooks as [|h hs IH]; intros request [c tr] v s' Hrun.
  - cbn in Hrun. inversion Hrun. eauto.
  - rewrite Request_run_hooks_cons in Hrun.
    destruct (handle_request h request c) as [[w|e] c']; [destruct w|];
      try (eapply IH; eassumption); inversion Hrun; eauto.
Qed.

Lemma Response_run_loop_result : forall (hooks : list hook_t) response s v s',
  Response_run_loop hooks response s = (Ok v, s') -> exists r, v = PyResponse r.
Proof.
  induction hooks as [|h hs IH]; intros response [c tr] v s' Hrun.
  - cbn in Hrun. inversion Hrun. eauto.
  - rewrite Response_run_loop_cons in Hrun.
    destruct (handle_response h response c) as [[w|e] c']; [destruct w|];
      try (eapply IH; eassumption); inversion Hrun; eauto.
Qed.


Lemma Request_run_hooks_quiet : forall (hooks : list hook_t),
  Forall quiet_request hooks ->
  forall request s, fst (Request_run_hooks hooks request s) = Ok (PyRequest request).
Proof.
  induction 1 as [|h hs Hq _ IH]; intros request [c tr].
  - reflexivity.
  - rewrite Request_run_hooks_cons.
    destruct (Hq request c) as (v & c' & Hh & Hna & Hnr). rewrite Hh.
    destruct v; try apply IH.
    + contradiction.
    + exfalso. eapply Hnr. reflexivity.
Qed.

Lemma Response_run_loop_quiet : forall (hooks : list hook_t),
  Forall quiet_response hooks ->
  forall response s, fst (Response_run_loop hooks response s) = Ok (PyResponse response).
Proof.
  induction 1 as [|h hs Hq _ IH]; intros response [c tr].
  - reflexivity.
  - rewrite Response_run_loop_cons.
    destruct (Hq response c) as (v & c' & Hh & Hna & Hnr). rewrite Hh.
    destruct v; try apply IH.
    + contradiction.
    + exfalso. eapply Hnr. reflexivity.
Qed.

Lemma Hook_base_quiet : quiet_request (@Hook_base Req Resp U) /\ quiet_response (@Hook_base Req Resp U).
Proof.
  split; intros x c; exists PyNone, c; repeat split; intros; discriminate.
Qed.

(** C10. When no handler of the chain returns a Request (resp. Response)
    instance or the Abort sentinel, [run_hooks] returns the object it was
    called on; with an empty chain it is the identity (the state is untouched
    as well); the no-op handlers of the base [Hook] are such handlers. *)
Theorem C10_run_hooks_returns_self : forall (hooks : list hook_t),
  (Forall quiet_request hooks ->
   forall self s, fst (Request_run_hooks hooks self s) = Ok (PyRequest self))
  /\ (Forall quiet_response hooks ->
      forall self s, fst (Response_run_hooks hooks self s) = Ok (PyResponse self))
  /\ (forall self (s : st_t), Request_run_hooks [] self s = (Ok (PyRequest self), s))
  /\ (forall self (s : st_t), Response_run_hooks [] self s = (Ok (PyResponse self), s))
  /\ (Forall (fun h => h = Hook_base) hooks ->
      Forall quiet_request hooks /\ Forall quiet_response hooks).
Proof.
  intros hooks. repeat split.
  - apply Request_run_hooks_quiet.
  - intros Hq self s. unfold Response_run_hooks.
    apply Response_run_loop_quiet. apply Forall_rev. exact Hq.
  - eapply Forall_impl; [|eassumption]. intros h ->. apply Hook_base_quiet.
  - eapply Forall_impl; [|eassumption]. intros h ->. apply Hook_base_quiet.
Qed.

Lemma task_done_calls_snoc : forall (c : @Collector Req U) (tr : list (@Call Req Resp U)),
  snd (snd (task_done (c, tr))) = (tr ++ [CallTaskDone])%list.
Proof.
  intros. unfold task_done, bind, log, call. cbn [fst snd].
  destruct (_async_queue c) as [q|]; [|reflexivity].
  destruct (AsyncQueue.task_done q); reflexivity.
Qed.

Lemma unit_of_work_trace : forall request (s : st_t),
  snd (snd (unit_of_work request s))
  = (snd (snd (unit_body request s)) ++ [CallTaskDone])%list.
Proof.
  intros. unfold unit_of_work, try_finally.
  destruct (unit_body request s) as [r [c1 tr1]].
  pose proof (task_done_calls_snoc c1 tr1) as Ht.
  destruct (task_done (c1, tr1)) as [[u|e] s2]; exact Ht.
Qed.

Lemma unit_body_unfold : forall request (c : @Collector Req U) (tr : list (@Call Req Resp U)),
  unit_body request (c, tr) =
  let H := (resource_hooks request (env c) ++ api_hooks request (env c))%list in
  match Request_run_hooks H request (c, tr) with
  | (Raise e, s1) => (Raise e, s1)
  | (Ok PyAbort, s1) => (Ok tt, s1)
  | (Ok (PyRequest request'), (c1, tr1)) =>
      match http_send request' (env c1) with
      | (Raise e, u) => (Raise e, (with_env u c1, (tr1 ++ [CallSend request'])%list))
      | (Ok response, u) =>
          match Response_run_loop (rev H) response
                                  (with_env u c1, (tr1 ++ [CallSend request'])%list) with
          | (Raise e, s3) => (Raise e, s3)
          | (Ok PyAbort, s3) => (Ok tt, s3)
          | (Ok (PyResponse response'), (c3, tr3)) =>
              (fst (db_put request' response' (env c3)),
               (with_env (snd (db_put request' response' (env c3))) c3,
                (tr3 ++ [CallPut request' response'])%list))
          | (Ok _, s3) => (Raise (Fault "TypeError: not a Response"), s3)
          end
      end
  | (Ok _, s1) => (Raise (Fault "TypeError: not a Request"), s1)
  end.
Proof.
  intros. unfold unit_body, hooks_of, read, before_send, after_send, Response_run_hooks.
  unfold bind at 1. cbn [fst snd]. unfold bind at 1. unfold bind at 1.
  destruct (Request_run_hooks _ request (c, tr)) as [[v|e] [c1 tr1]]; [|reflexivity].
  destruct v; try reflexivity.
  unfold ret at 1. unfold bind at 1. unfold log at 1. cbn [fst snd].
  unfold bind at 1. unfold call_env at 1. unfold call at 1. cbn [fst snd].
  destruct (http_send r (env c1)) as [[response|e] u]; [|reflexivity].
  unfold bind at 1.
  destruct (Response_run_loop _ response _) as [[w|e] [c3 tr3]]; [|reflexivity].
  destruct w; try reflexivity.
  unfold bind, log, call_env, call. cbn [fst snd].
  destruct (db_put r r0 (env c3)); reflexivity.
Qed.


Lemma request_calls_app : forall (a b : list (@Call Req Resp U)),
  request_calls (a ++ b) = (request_calls a ++ request_calls b)%list.
Proof. intros. unfold request_calls. apply flat_map_app. Qed.

Lemma response_calls_app : forall (a b : list (@Call Req Resp U)),
  response_calls (a ++ b) = (response_calls a ++ response_calls b)%list.
Proof. intros. unfold response_calls. apply flat_map_app. Qed.

Lemma request_calls_none : forall (T : list (@Call Req Resp U)),
  Forall (fun c => ~ is_request_call c) T -> request_calls T = [].
Proof.
  induction 1 as [|c T Hc _ IH]; [reflexivity|].
  destruct c; cbn in *; try exact IH. exfalso. apply Hc. exact I.
Qed.

Lemma response_calls_none : forall (T : list (@Call Req Resp U)),
  Forall (fun c => ~ is_response_call c) T -> response_calls T = [].
Proof.
  induction 1 as [|c T Hc _ IH]; [reflexivity|].
  destruct c; cbn in *; try exact IH. exfalso. apply Hc. exact I.
Qed.

Lemma task_done_calls_app : forall (a b : list (@Call Req Resp U)),
  task_done_calls (a ++ b) = task_done_calls a + task_done_calls b.
Proof. intros. unfold task_done_calls. rewrite filter_app, length_app. reflexivity. Qed.

Lemma task_done_calls_none : forall (T : list (@Call Req Resp U)),
  Forall (fun c => c <> CallTaskDone) T -> task_done_calls T = 0.
Proof.
  induction 1 as [|c T Hc _ IH]; [reflexivity|].
  unfold task_done_calls in *. destruct c; cbn; try exact IH. contradiction.
Qed.

(** The calls of the [try] block: request hooks, then at most one send,
    then response hooks, then at most one put. *)
Lemma unit_body_calls : forall request (c : @Collector Req U) (tr : list (@Call Req Resp U)),
  let H := (resource_hooks request (env c) ++ api_hooks request (env c))%list in
  exists n m T1 S T2 P,
    snd (snd (unit_body request (c, tr))) = (tr ++ T1 ++ S ++ T2 ++ P)%list
    /\ Forall is_request_call T1 /\ request_calls T1 = firstn n H
    /\ Forall is_response_call T2 /\ response_calls T2 = firstn m (rev H)
    /\ (S = [] \/ exists r, S = [CallSend r])
    /\ (P = [] \/ exists r p, P = [CallPut r p]).
Proof.
  intros request c tr H. rewrite unit_body_unfold. fold H. cbv zeta.
  destruct (Request_run_hooks_calls H request c tr) as (n & T1 & _ & HT1 & Hc1 & Hf1).
  assert (Hshort : forall (r : Result unit) (c' : @Collector Req U),
             exists n m T1' S T2 P,
               snd (snd (r, (c', (tr ++ T1)%list))) = (tr ++ T1' ++ S ++ T2 ++ P)%list
               /\ Forall is_request_call T1' /\ request_calls T1' = firstn n H
               /\ Forall is_response_call T2 /\ response_calls T2 = firstn m (rev H)
               /\ (S = [] \/ exists r, S = [CallSend r])
               /\ (P = [] \/ exists r p, P = [CallPut r p])).
  { intros r c'. exists n, 0, T1, [], [], []. cbn. rewrite !app_nil_r. auto 10. }
  destruct (Request_run_hooks H request (c, tr)) as [[v|e] [c1 tr1]]; cbn [snd] in HT1; subst tr1;
    [destruct v|]; try apply Hshort.
  destruct (http_send r (env c1)) as [[response|e] u].
  2:{ exists n, 0, T1, [CallSend r], [], []. cbn [snd]. rewrite <- !app_assoc. cbn.
      repeat split; auto. right. eauto. }
  destruct (Response_run_loop_calls (rev H) response (with_env u c1) ((tr ++ T1) ++ [CallSend r])%list)
    as (m & T2 & _ & HT2 & Hc2 & Hf2).
  assert (Hmid : forall (x : Result unit) (c' : @Collector Req U),
             exists n m T1' S T2' P,
               snd (snd (x, (c', (((tr ++ T1) ++ [CallSend r]) ++ T2)%list)))
               = (tr ++ T1' ++ S ++ T2' ++ P)%list
               /\ Forall is_request_call T1' /\ request_calls T1' = firstn n H
               /\ Forall is_response_call T2' /\ response_calls T2' = firstn m (rev H)
               /\ (S = [] \/ exists r, S = [CallSend r])
               /\ (P = [] \/ exists r p, P = [CallPut r p])).
  { intros x c'. exists n, m, T1, [CallSend r], T2, []. cbn [snd].
    rewrite <- !app_assoc, app_nil_r. cbn. repeat split; auto. right. eauto. }
  destruct (Response_run_loop (rev H) response _) as [[w|e] [c3 tr3]]; cbn [snd] in HT2; subst tr3;
    [destruct w|]; try apply Hmid.
  exists n, m, T1, [CallSend r], T2, [CallPut r r0]. cbn [snd].
  rewrite <- !app_assoc. cbn. repeat split; auto; right; eauto.
Qed.


Lemma Request_run_hooks_proceeds : forall (hooks : list hook_t),
  Forall proceeds hooks ->
  forall request c tr, exists r' c' T,
    Request_run_hooks hooks request (c, tr) = (Ok (PyRequest r'), (c', (tr ++ T)%list))
    /\ request_calls T = hooks /\ Forall is_request_call T.
Proof.
  induction 1 as [|h hs Hp _ IH]; intros request c tr.
  - exists request, c, []. cbn. rewrite app_nil_r. auto.
  - rewrite Request_run_hooks_cons.
    destruct Hp as [Hp _]. destruct (Hp request c) as (v & c' & Hh & Hna). rewrite Hh.
    assert (Hgo : forall r, exists r' c'' T,
               Request_run_hooks hs r (c', (tr ++ [CallHandleRequest h request])%list)
               = (Ok (PyRequest r'), (c'', (tr ++ T)%list))
               /\ request_calls T = h :: hs /\ Forall is_request_call T).
    { intros r. destruct (IH r c' (tr ++ [CallHandleRequest h request])%list)
        as (r' & c'' & T & Hrun & Hc & Hf).
      exists r', c'', (CallHandleRequest h request :: T). rewrite Hrun, <- app_assoc.
      repeat split; cbn; [f_equal; exact Hc | constructor; [exact I | exact Hf]]. }
    destruct v; try apply Hgo. contradiction.
Qed.

Lemma Response_run_loop_proceeds : forall (hooks : list hook_t),
  Forall proceeds hooks ->
  forall response c tr, exists r' c' T,
    Response_run_loop hooks response (c, tr) = (Ok (PyResponse r'), (c', (tr ++ T)%list))
    /\ response_calls T = hooks /\ Forall is_response_call T.
Proof.
  induction 1 as [|h hs Hp _ IH]; intros response c tr.
  - exists response, c, []. cbn. rewrite app_nil_r. auto.
  - rewrite Response_run_loop_cons.
    destruct Hp as [_ Hp]. destruct (Hp response c) as (v & c' & Hh & Hna). rewrite Hh.
    assert (Hgo : forall r, exists r' c'' T,
               Response_run_loop hs r (c', (tr ++ [CallHandleResponse h response])%list)
               = (Ok (PyResponse r'), (c'', (tr ++ T)%list))
               /\ response_calls T = h :: hs /\ Forall is_response_call T).
    { intros r. destruct (IH r c' (tr ++ [CallHandleResponse h response])%list)
        as (r' & c'' & T & Hrun & Hc & Hf).
      exists r', c'', (CallHandleResponse h response :: T). rewrite Hrun, <- app_assoc.
      repeat split; cbn; [f_equal; exact Hc | constructor; [exact I | exact Hf]]. }
    destruct v; try apply Hgo. contradiction.
Qed.

Lemma unit_of_work_ok : forall request (s : st_t),
  fst (unit_of_work request s) = Ok tt -> fst (unit_body request s) = Ok tt.
Proof.
  intros request s. unfold unit_of_work, try_finally.
  destruct (unit_body request s) as [r s1].
  destruct (task_done s1) as [[u|e] s2]; cbn; [auto | discriminate].
Qed.

Lemma request_calls_of_responses : forall (T : list (@Call Req Resp U)),
  Forall is_response_call T -> request_calls T = [].
Proof.
  intros T HT. apply request_calls_none. eapply Forall_impl; [|exact HT].
  intros [] Hc; cbn in *; auto.
Qed.

Lemma response_calls_of_requests : forall (T : list (@Call Req Resp U)),
  Forall is_request_call T -> response_calls T = [].
Proof.
  intros T HT. apply response_calls_none. eapply Forall_impl; [|exact HT].
  intros [] Hc; cbn in *; auto.
Qed.

(** C8. With H = resource hooks ++ api hooks, the [handle_request] calls of a
    unit are the hooks of H from the first on, in the order of H, and its
    [handle_response] calls are the hooks of H from the last on, in the
    reverse order; every [handle_request] call comes before every
    [handle_response] call. When no handler aborts or raises and the unit
    completes, the two sequences are H and the reverse of H in full. *)
Theorem C8_hook_order : forall request (c : @Collector Req U),
  let H := (resource_hooks request (env c) ++ api_hooks request (env c))%list in
  let T := calls_of (unit_of_work request) c in
  (exists n, request_calls T = firstn n H)
  /\ (exists m, response_calls T = firstn m (rev H))
  /\ (exists T1 T2, T = (T1 ++ T2)%list /\ response_calls T1 = [] /\ request_calls T2 = [])
  /\ (Forall proceeds H -> fst (unit_of_work request (c, [])) = Ok tt ->
      request_calls T = H /\ response_calls T = rev H).
Proof.
  intros request c H T. unfold T, calls_of. rewrite unit_of_work_trace.
  split; [|split; [|split]].
  - destruct (unit_body_calls request c []) as (n & m & T1 & S & T2 & P & HT & Hf1 & Hc1 & Hf2 & Hc2 & HS & HP).
    exists n. rewrite HT. cbn [app]. rewrite !request_calls_app, Hc1.
    rewrite (request_calls_of_responses T2 Hf2).
    destruct HS as [->|[r ->]]; destruct HP as [->|(r' & p & ->)]; cbn; rewrite ?app_nil_r; reflexivity.
  - destruct (unit_body_calls request c []) as (n & m & T1 & S & T2 & P & HT & Hf1 & Hc1 & Hf2 & Hc2 & HS & HP).
    exists m. rewrite HT. cbn [app]. rewrite !response_calls_app, Hc2.
    rewrite (response_calls_of_requests T1 Hf1).
    destruct HS as [->|[r ->]]; destruct HP as [->|(r' & p & ->)]; cbn; rewrite ?app_nil_r; reflexivity.
  - destruct (unit_body_calls request c []) as (n & m & T1 & S & T2 & P & HT & Hf1 & Hc1 & Hf2 & Hc2 & HS & HP).
    exists (T1 ++ S)%list, (T2 ++ P ++ [CallTaskDone])%list. rewrite HT. cbn [app].
    rewrite <- !app_assoc. split; [reflexivity|].
    rewrite response_calls_app, !request_calls_app.
    rewrite (response_calls_of_requests T1 Hf1), (request_calls_of_responses T2 Hf2).
    destruct HS as [->|[r ->]]; destruct HP as [->|(r' & p & ->)]; cbn; auto.
  - intros Hp Hok. apply unit_of_work_ok in Hok. revert Hok.
    rewrite unit_body_unfold. fold H. cbv zeta.
    destruct (Request_run_hooks_proceeds H Hp request c []) as (r' & c1 & T1 & Hrun & Hc1 & Hf1).
    rewrite Hrun. cbn [app].
    destruct (http_send r' (env c1)) as [[response|e] u]; [|discriminate].
    assert (Hp' : Forall proceeds (rev H)) by (apply Forall_rev; exact Hp).
    destruct (Response_run_loop_proceeds (rev H) Hp' response (with_env u c1) (T1 ++ [CallSend r'])%list)
      as (p & c3 & T2 & Hrun2 & Hc2 & Hf2).
    rewrite Hrun2. cbn [fst snd]. intros _.
    rewrite !request_calls_app, !response_calls_app, Hc1, Hc2.
    rewrite (response_calls_of_requests T1 Hf1), (request_calls_of_responses T2 Hf2).
    cbn. rewrite !app_nil_r. auto.
Qed.

(** C4 (as amended). On every exit path of a unit -- normal end, [continue],
    or an exception out of a hook, the transport or the storage --
    [task_done] is called once, as the last call, and the count of
    unfinished tasks goes down by one. The exception is not caught: it leaves
    the [while] loop and ends the worker, whatever is still queued. *)
Theorem C4_task_done_on_every_exit_and_fault_ends_worker : forall request (s : st_t),
  (exists T, snd (snd (unit_of_work request s)) = (snd s ++ T ++ [CallTaskDone])%list
             /\ task_done_calls T = 0)
  /\ (forall q1, _async_queue (fst (snd (unit_body request s))) = Some q1 ->
                 (0 < AsyncQueue.unfinished_tasks q1)%Z ->
                 _async_queue (fst (snd (unit_of_work request s)))
                 = Some (AsyncQueue.mk (AsyncQueue.items q1) (AsyncQueue.unfinished_tasks q1 - 1)%Z)
                 /\ fst (unit_of_work request s) = fst (unit_body request s))
  /\ (forall e fuel s0, queue_get s0 = Some (request, s) ->
                        fst (unit_of_work request s) = Raise e ->
                        _worker (S fuel) s0 = (Crashed e, snd (unit_of_work request s))).
Proof.
  intros request [c tr]. split; [|split].
  - rewrite unit_of_work_trace.
    destruct (unit_body_calls request c tr) as (n & m & T1 & S & T2 & P & HT & Hf1 & Hc1 & Hf2 & Hc2 & HS & HP).
    exists (T1 ++ S ++ T2 ++ P)%list. cbn [snd]. rewrite HT, <- !app_assoc. split; [reflexivity|].
    rewrite !task_done_calls_app.
    rewrite (task_done_calls_none T1), (task_done_calls_none T2).
    + destruct HS as [->|[r ->]]; destruct HP as [->|(r' & p & ->)]; reflexivity.
    + eapply Forall_impl; [|exact Hf2]. intros [] Hc; cbn in *; try contradiction; discriminate.
    + eapply Forall_impl; [|exact Hf1]. intros [] Hc; cbn in *; try contradiction; discriminate.
  - intros q1 Hq Hpos. unfold unit_of_work, try_finally.
    destruct (unit_body request (c, tr)) as [r [c1 tr1]]. cbn [fst snd] in *.
    unfold task_done, bind, log, call. cbn [fst snd]. rewrite Hq.
    unfold AsyncQueue.task_done.
    destruct (Z.leb_spec (AsyncQueue.unfinished_tasks q1) 0); [lia|]. cbn. auto.
  - intros e fuel s0 Hget Hraise. cbn [_worker]. rewrite Hget.
    destruct (unit_of_work request (c, tr)) as [[u|e'] s2]; cbn in Hraise; [discriminate|].
    inversion Hraise. reflexivity.
Qed.


(** *** Outstanding work under the event loop *)

Lemma grows_refl : forall q : AsyncQueue.t Req, grows q q.
Proof.
  intros [items n]. exists []. cbn. rewrite app_nil_r. f_equal. lia.
Qed.

Lemma grows_trans : forall q1 q2 q3 : AsyncQueue.t Req,
  grows q1 q2 -> grows q2 q3 -> grows q1 q3.
Proof.
  intros q1 q2 q3 [n1 ->] [n2 ->]. exists (n1 ++ n2)%list. cbn.
  rewrite <- app_assoc, length_app. f_equal. lia.
Qed.

Lemma Request_run_hooks_grows : forall (hooks : list hook_t),
  Forall polite hooks ->
  forall request (c : @Collector Req U) (tr : list (@Call Req Resp U)) q,
    _async_queue c = Some q ->
    exists q', _async_queue (fst (snd (Request_run_hooks hooks request (c, tr)))) = Some q'
               /\ grows q q'.
Proof.
  induction 1 as [|h hs Hp _ IH]; intros request c tr q Hq.
  - exists q. split; [exact Hq | apply grows_refl].
  - rewrite Request_run_hooks_cons.
    destruct Hp as [Hp _]. destruct (Hp request c q Hq) as (q1 & Hq1 & Hg1).
    destruct (handle_request h request c) as [[v|e] c1]; cbn [snd] in Hq1.
    2:{ exists q1. auto. }
    assert (Hgo : forall r, exists q',
               _async_queue (fst (snd (Request_run_hooks hs r
                  (c1, (tr ++ [CallHandleRequest h request])%list)))) = Some q' /\ grows q q').
    { intros r. destruct (IH r c1 (tr ++ [CallHandleRequest h request])%list q1 Hq1)
        as (q2 & Hq2 & Hg2).
      exists q2. split; [exact Hq2 | eapply grows_trans; eassumption]. }
    destruct v; try apply Hgo. exists q1. auto.
Qed.

Lemma Response_run_loop_grows : forall (hooks : list hook_t),
  Forall polite hooks ->
  forall response (c : @Collector Req U) (tr : list (@Call Req Resp U)) q,
    _async_queue c = Some q ->
    exists q', _async_queue (fst (snd (Response_run_loop hooks response (c, tr)))) = Some q'
               /\ grows q q'.
Proof.
  induction 1 as [|h hs Hp _ IH]; intros response c tr q Hq.
  - exists q. split; [exact Hq | apply grows_refl].
  - rewrite Response_run_loop_cons.
    destruct Hp as [_ Hp]. destruct (Hp response c q Hq) as (q1 & Hq1 & Hg1).
    destruct (handle_response h response c) as [[v|e] c1]; cbn [snd] in Hq1.
    2:{ exists q1. auto. }
    assert (Hgo : forall r, exists q',
               _async_queue (fst (snd (Response_run_loop hs r
                  (c1, (tr ++ [CallHandleResponse h response])%list)))) = Some q' /\ grows q q').
    { intros r. destruct (IH r c1 (tr ++ [CallHandleResponse h response])%list q1 Hq1)
        as (q2 & Hq2 & Hg2).
      exists q2. split; [exact Hq2 | eapply grows_trans; eassumption]. }
    destruct v; try apply Hgo. exists q1. auto.
Qed.

(** The [finally] clause on a queue with unfinished tasks: one task fewer,
    the items untouched. *)
Lemma finish_counts : forall (r : Result unit) (s : st_t) q,
  _async_queue (fst s) = Some q ->
  (0 < AsyncQueue.unfinished_tasks q)%Z ->
  _async_queue (fst (fst (finish (r, s))))
  = Some (AsyncQueue.mk (AsyncQueue.items q) (AsyncQueue.unfinished_tasks q - 1)%Z)
  /\ (forall hooks request, snd (finish (r, s)) <> AtSend hooks request).
Proof.
  intros r [c tr] q Hq Hpos. unfold finish, task_done, bind, log, call. cbn [fst snd] in *.
  rewrite Hq. unfold AsyncQueue.task_done.
  destruct (Z.leb_spec (AsyncQueue.unfinished_tasks q) 0); [lia|]. cbn [fst snd].
  destruct r; cbn; split; auto; intros; discriminate.
Qed.

Lemma after_send_grows : forall (hooks : list hook_t) request
    (c : @Collector Req U) (tr : list (@Call Req Resp U)) q,
  Forall polite hooks ->
  _async_queue c = Some q ->
  exists q',
    _async_queue (fst (snd (bind (call_env (http_send request))
                                 (fun response => after_send hooks request response) (c, tr))))
    = Some q' /\ grows q q'.
Proof.
  intros hooks request c tr q Hp Hq.
  unfold bind at 1. unfold call_env, call. cbn [fst snd].
  destruct (http_send request (env c)) as [[response|e] u].
  2:{ exists q. cbn. split; [exact Hq | apply grows_refl]. }
  unfold after_send, Response_run_hooks. unfold bind at 1.
  assert (Hq0 : _async_queue (with_env u c) = Some q) by exact Hq.
  destruct (Response_run_loop_grows (rev hooks) (Forall_rev Hp) response (with_env u c) tr q Hq0)
    as (q1 & Hq1 & Hg1).
  destruct (Response_run_loop (rev hooks) response (with_env u c, tr)) as [[w|e] [c3 tr3]];
    cbn [fst snd] in Hq1.
  2:{ exists q1. auto. }
  destruct w; try (exists q1; cbn; auto).
  unfold bind, log, call_env, call. cbn [fst snd].
  destruct (db_put request r (env c3)) as [[x|e] u']; cbn; auto.
Qed.

Lemma in_flight_set_nth : forall (ts : list (@Task Req Resp U)) i t0 t,
  nth_error ts i = Some t0 ->
  in_flight (set_nth i t ts) + in_flight [t0] = in_flight ts + in_flight [t].
Proof.
  induction ts as [|x ts IH]; intros i t0 t Hn.
  - destruct i; discriminate.
  - destruct i as [|i]; cbn [nth_error] in Hn.
    + inversion Hn; subst. cbn [set_nth]. unfold in_flight. cbn [filter].
      destruct t0, t; cbn; lia.
    + cbn [set_nth]. specialize (IH i t0 t Hn). unfold in_flight in *. cbn [filter] in *.
      destruct x; cbn [length] in *; lia.
Qed.

Lemma Forall_set_nth : forall {A} (P : A -> Prop) (l : list A) i x,
  Forall P l -> P x -> Forall P (set_nth i x l).
Proof.
  induction l as [|y l IH]; intros i x Hl Hx; [destruct i; constructor|].
  inversion Hl; subst. destruct i; cbn; constructor; auto.
Qed.


Lemma resume_get_unfold : forall request (c : @Collector Req U) (tr : list (@Call Req Resp U)),
  resume_get request (c, tr) =
  let H := (resource_hooks request (env c) ++ api_hooks request (env c))%list in
  match Request_run_hooks H request (c, tr) with
  | (Raise e, s2) => finish (Raise e, s2)
  | (Ok PyAbort, s2) => finish (Ok tt, s2)
  | (Ok (PyRequest request'), s2) => (snd (log (CallSend request') s2), AtSend H request')
  | (Ok _, s2) => finish (Raise (Fault "TypeError: not a Request"), s2)
  end.
Proof.
  intros. unfold resume_get, hooks_of, read, before_send. cbn [fst snd]. unfold bind.
  destruct (Request_run_hooks _ request (c, tr)) as [[v|e] s2]; [destruct v|]; reflexivity.
Qed.

Lemma resume_get_counts : forall request (s : st_t) q,
  Forall polite (resource_hooks request (env (fst s)) ++ api_hooks request (env (fst s)))%list ->
  _async_queue (fst s) = Some q ->
  (0 < AsyncQueue.unfinished_tasks q)%Z ->
  exists q2 new,
    _async_queue (fst (fst (resume_get request s))) = Some q2
    /\ AsyncQueue.items q2 = (AsyncQueue.items q ++ new)%list
    /\ (AsyncQueue.unfinished_tasks q2 + 1
        = AsyncQueue.unfinished_tasks q + Z.of_nat (length new)
          + Z.of_nat (in_flight [snd (resume_get request s)]))%Z
    /\ match snd (resume_get request s) with
       | AtSend hooks _ => Forall polite hooks
       | _ => True
       end.
Proof.
  intros request [c tr] q Hp Hq Hpos. cbn [fst snd] in *.
  rewrite resume_get_unfold. cbv zeta.
  destruct (Request_run_hooks_grows _ Hp request c tr q Hq) as (q1 & Hq1 & [new Hg]).
  assert (Hpos1 : (0 < AsyncQueue.unfinished_tasks q1)%Z) by (subst q1; cbn; lia).
  assert (Hfin : forall (r : Result unit) (s1 : st_t),
             _async_queue (fst s1) = Some q1 ->
             exists q2 new0,
               _async_queue (fst (fst (finish (r, s1)))) = Some q2
               /\ AsyncQueue.items q2 = (AsyncQueue.items q ++ new0)%list
               /\ (AsyncQueue.unfinished_tasks q2 + 1
                   = AsyncQueue.unfinished_tasks q + Z.of_nat (length new0)
                     + Z.of_nat (in_flight [snd (finish (r, s1))]))%Z
               /\ match snd (finish (r, s1)) with
                  | AtSend hooks _ => Forall polite hooks
                  | _ => True
                  end).
  { intros r s1 Hs1. destruct (finish_counts r s1 q1 Hs1 Hpos1) as [Hf Hns].
    exists (AsyncQueue.mk (AsyncQueue.items q1) (AsyncQueue.unfinished_tasks q1 - 1)%Z), new.
    split; [exact Hf|]. subst q1. cbn.
    destruct (snd (finish (r, s1))) eqn:Ht.
    - unfold in_flight. cbn. repeat split; auto. lia.
    - exfalso. eapply Hns. reflexivity.
    - unfold in_flight. cbn. repeat split; auto. lia. }
  destruct (Request_run_hooks _ request (c, tr)) as [[v|e] [c1 tr1]]; cbn [fst snd] in Hq1.
  2:{ exact (Hfin (Raise e) (c1, tr1) Hq1). }
  destruct v; try (apply Hfin; exact Hq1).
  unfold log. cbn [fst snd].
  exists q1, new. split; [exact Hq1|]. subst q1. unfold in_flight. cbn.
  repeat split; auto; lia.
Qed.

Lemma resume_send_counts : forall (hooks : list hook_t) request (s : st_t) q,
  Forall polite hooks ->
  _async_queue (fst s) = Some q ->
  (0 < AsyncQueue.unfinished_tasks q)%Z ->
  exists q2 new,
    _async_queue (fst (fst (resume_send hooks request s))) = Some q2
    /\ AsyncQueue.items q2 = (AsyncQueue.items q ++ new)%list
    /\ (AsyncQueue.unfinished_tasks q2 + 1
        = AsyncQueue.unfinished_tasks q + Z.of_nat (length new))%Z
    /\ in_flight [snd (resume_send hooks request s)] = 0.
Proof.
  intros hooks request [c tr] q Hp Hq Hpos. cbn [fst] in Hq. unfold resume_send.
  destruct (after_send_grows hooks request c tr q Hp Hq) as (q1 & Hq1 & [new Hg]).
  assert (Hpos1 : (0 < AsyncQueue.unfinished_tasks q1)%Z) by (subst q1; cbn; lia).
  destruct (bind (call_env (http_send request))
                 (fun response => after_send hooks request response) (c, tr)) as [r s1].
  cbn [fst snd] in Hq1.
  destruct (finish_counts r s1 q1 Hq1 Hpos1) as [Hf Hns].
  exists (AsyncQueue.mk (AsyncQueue.items q1) (AsyncQueue.unfinished_tasks q1 - 1)%Z), new.
  split; [exact Hf|]. subst q1. cbn. repeat split; try lia.
  destruct (snd (finish (r, s1))) eqn:Ht; try reflexivity.
  exfalso. eapply Hns. reflexivity.
Qed.

(** Every resumption keeps the balance: unfinished = queued + in flight. *)
Lemma resume_balanced :
  (forall r u, Forall polite (resource_hooks r u ++ api_hooks r u)%list) ->
  forall i (l l' : @Loop Req Resp U), balanced l -> resume i l = Some l' -> balanced l'.
Proof.
  intros Hpol i [[c tr] ts] l' (q & Hq & Hbal & Hall) Hres.
  unfold resume in Hres. cbn [machine tasks fst snd] in *.
  destruct (nth_error ts i) as [t0|] eqn:Hn; [|discriminate].
  destruct t0 as [|hooks request|e]; [| |discriminate].
  - unfold queue_get in Hres. cbn [fst snd] in Hres. rewrite Hq in Hres.
    unfold AsyncQueue.get in Hres.
    destruct q as [items unf]. cbn [AsyncQueue.items AsyncQueue.unfinished_tasks] in *.
    destruct items as [|request rest]; [discriminate|].
    set (s1 := (with_async_queue (Some (AsyncQueue.mk rest unf)) c, tr)) in *.
    assert (Hq1 : _async_queue (fst s1) = Some (AsyncQueue.mk rest unf)) by reflexivity.
    assert (Hpos : (0 < AsyncQueue.unfinished_tasks (AsyncQueue.mk rest unf))%Z)
      by (cbn in *; lia).
    destruct (resume_get_counts request s1 _ (Hpol request (env (fst s1))) Hq1 Hpos)
      as (q2 & new & Hq2 & Hitems & Hcount & Hpt).
    destruct (resume_get request s1) as [s2 t]. inversion Hres; subst l'. clear Hres.
    cbn [fst snd] in *. exists q2. cbn [machine tasks fst].
    split; [exact Hq2|]. split.
    + pose proof (in_flight_set_nth ts i AtGet t Hn) as Hfl.
      unfold in_flight at 2 in Hfl. cbn [filter length] in Hfl.
      cbn [AsyncQueue.items AsyncQueue.unfinished_tasks] in Hitems, Hcount.
      rewrite Hitems, length_app. cbn [length] in Hbal. lia.
    + apply Forall_set_nth; assumption.
  - assert (Hph : Forall polite hooks).
    { rewrite Forall_forall in Hall. apply (Hall (AtSend hooks request)).
      eapply nth_error_In. exact Hn. }
    assert (Hin : 1 <= in_flight ts).
    { clear - Hn. revert i Hn. induction ts as [|x ts IH]; intros i Hn.
      - destruct i; discriminate.
      - destruct i; cbn in Hn.
        + inversion Hn; subst. unfold in_flight. cbn. lia.
        + specialize (IH i Hn). unfold in_flight in *. cbn [filter].
          destruct x; cbn [length]; lia. }
    assert (Hpos : (0 < AsyncQueue.unfinished_tasks q)%Z) by lia.
    destruct (resume_send_counts hooks request (c, tr) q Hph Hq Hpos)
      as (q2 & new & Hq2 & Hitems & Hcount & Hnf).
    destruct (resume_send hooks request (c, tr)) as [s2 t]. inversion Hres; subst l'. clear Hres.
    cbn [fst snd] in *. exists q2. cbn [machine tasks fst].
    split; [exact Hq2|]. split.
    + pose proof (in_flight_set_nth ts i (AtSend hooks request) t Hn) as Hfl.
      rewrite Hnf in Hfl. unfold in_flight at 2 in Hfl. cbn [filter length] in Hfl.
      rewrite Hitems, length_app. lia.
    + apply Forall_set_nth; [assumption|]. destruct t; auto.
      unfold in_flight in Hnf. cbn in Hnf. discriminate.
Qed.

Lemma fill_put_nowait : forall (rs : list Req) (q : AsyncQueue.t Req),
  fold_left (fun q request => AsyncQueue.put_nowait request q) rs q
  = AsyncQueue.mk (AsyncQueue.items q ++ rs)%list
                  (AsyncQueue.unfinished_tasks q + Z.of_nat (length rs))%Z.
Proof.
  induction rs as [|r rs IH]; intros [items n].
  - cbn. rewrite app_nil_r. f_equal. lia.
  - cbn [fold_left]. rewrite IH. unfold AsyncQueue.put_nowait. cbn [AsyncQueue.items AsyncQueue.unfinished_tasks].
    rewrite <- app_assoc. cbn [app length]. f_equal. lia.
Qed.

Lemma in_flight_repeat : forall n, in_flight (repeat (@AtGet Req Resp U) n) = 0.
Proof. induction n; [reflexivity | exact IHn]. Qed.

Lemma run_start_balanced : forall c : @Collector Req U,
  balanced (@_run_start Req Resp U c).
Proof.
  intros c. unfold balanced, _run_start. cbn [machine tasks fst].
  unfold _fill_async_queue.
  cbn [_async_queue with_async_queue _queue _num_workers env].
  eexists. split; [reflexivity|]. rewrite fill_put_nowait, in_flight_repeat.
  cbn [AsyncQueue.items AsyncQueue.unfinished_tasks AsyncQueue.empty app].
  split; [lia|].
  apply Forall_forall. intros t Ht. apply repeat_spec in Ht. subst t. exact I.
Qed.

(** [run()] returns only at quiescence: in every state the event loop can
    reach, [join] is satisfied only when nothing is queued and no unit is in
    flight. (Hooks are assumed to reach the queue through [register] only.) *)
Lemma run_returns_only_at_quiescence :
  (forall r u, Forall polite (resource_hooks r u ++ api_hooks r u)%list) ->
  forall (c : @Collector Req U) (l : @Loop Req Resp U),
    steps (_run_start c) l -> join_ready l = true ->
    exists q, _async_queue (fst (machine l)) = Some q
              /\ AsyncQueue.items q = [] /\ in_flight (tasks l) = 0.
Proof.
  intros Hpol c l Hsteps.
  assert (Hbal : balanced l).
  { remember (_run_start c) as l0 eqn:Hl0.
    induction Hsteps as [l1|l1 l2 l3 _ IH Hstep]; [subst l1; apply run_start_balanced|].
    destruct Hstep as [i l2 l3 Hres].
    eapply resume_balanced; [exact Hpol | apply IH; exact Hl0 | exact Hres]. }
  intros Hjoin.
  destruct Hbal as (q & Hq & Hcount & _). exists q. split; [exact Hq|].
  unfold join_ready in Hjoin. rewrite Hq in Hjoin. unfold AsyncQueue.join_ready in Hjoin.
  apply Z.leb_le in Hjoin.
  destruct (AsyncQueue.items q); cbn [length] in *; split; auto; try lia.
Qed.


Lemma run_schedule_steps : forall sched (l l' : @Loop Req Resp U),
  run_schedule sched l = Some l' -> steps l l'.
Proof.
  intros sched l l' Hrun.
  assert (Hgen : forall l0, steps l0 l -> steps l0 l').
  { revert l Hrun. induction sched as [|i sched IH]; intros l Hrun l0 H0.
    - inversion Hrun; subst. exact H0.
    - cbn in Hrun. destruct (resume i l) as [l1|] eqn:Hres; [|discriminate].
      apply (IH l1 Hrun). eapply steps_next; [exact H0 | apply (step_resume i); exact Hres]. }
  apply Hgen. constructor.
Qed.

(** Whatever the request hooks return -- [Abort] included -- once the chain
    has returned the worker calls [send]. *)
Lemma request_chain_return_is_sent : forall request (c : @Collector Req U) v,
  fst (Request_run_hooks
         (resource_hooks request (env c) ++ api_hooks request (env c))%list request (c, []))
  = Ok v ->
  exists request', sent (calls_of (unit_of_work request) c) = [request'].
Proof.
  intros request c v Hv. unfold calls_of. rewrite unit_of_work_trace, unit_body_unfold. cbv zeta.
  destruct (Request_run_hooks_calls
              (resource_hooks request (env c) ++ api_hooks request (env c))%list request c [])
    as (n & T1 & _ & HT1 & _ & Hf1).
  assert (Hs1 : sent T1 = []).
  { clear - Hf1. induction Hf1 as [|x T Hx _ IH]; [reflexivity|]. destruct x; cbn in *; try contradiction. exact IH. }
  assert (Hsent_app : forall a b : list (@Call Req Resp U), sent (a ++ b) = (sent a ++ sent b)%list)
    by (intros; apply flat_map_app).
  destruct (Request_run_hooks _ request (c, [])) as [[w|e] [c1 tr1]] eqn:Hrun;
    cbn [fst snd] in *; [|discriminate]. subst tr1.
  destruct (Request_run_hooks_result _ _ _ _ _ Hrun) as [request' ->].
  exists request'.
  destruct (http_send request' (env c1)) as [[response|e] u].
  2:{ cbn [snd]. rewrite !Hsent_app, Hs1. reflexivity. }
  destruct (Response_run_loop_calls
              (rev (resource_hooks request (env c) ++ api_hooks request (env c)))
              response (with_env u c1) (T1 ++ [CallSend request'])%list)
    as (m & T2 & _ & HT2 & _ & Hf2).
  assert (Hs2 : sent T2 = []).
  { clear - Hf2. induction Hf2 as [|x T Hx _ IH]; [reflexivity|]. destruct x; cbn in *; try contradiction. exact IH. }
  destruct (Response_run_loop _ response _) as [[w|e] [c3 tr3]]; cbn [snd] in HT2; subst tr3;
    [destruct w|]; cbn [snd]; rewrite !Hsent_app, Hs1, Hs2; reflexivity.
Qed.


(** Whatever the response hooks return -- [Abort] included -- once the chain
    has returned the worker calls [put]. *)
Lemma response_chain_return_is_stored :
  forall (hooks : list hook_t) request response (c : @Collector Req U) w,
    fst (Response_run_hooks hooks response (c, [])) = Ok w ->
    exists response',
      stored (calls_of (after_send hooks request response) c) = [(request, response')].
Proof.
  intros hooks request response c w Hw. unfold calls_of, after_send, Response_run_hooks in *.
  unfold bind at 1.
  destruct (Response_run_loop_calls (rev hooks) response c []) as (m & T2 & _ & HT2 & _ & Hf2).
  assert (Hs2 : stored T2 = []).
  { clear - Hf2. induction Hf2 as [|x T Hx _ IH]; [reflexivity|].
    destruct x; cbn in *; try contradiction. exact IH. }
  destruct (Response_run_loop (rev hooks) response (c, [])) as [[v|e] [c3 tr3]] eqn:Hrun;
    cbn [fst snd] in *; [|discriminate]. subst tr3.
  destruct (Response_run_loop_result _ _ _ _ _ Hrun) as [response' ->].
  exists response'. unfold bind, log, call_env, call. cbn [fst snd].
  destruct (db_put request response' (env c3)) as [r u]. cbn [snd].
  cbn [app]. unfold stored in *. rewrite flat_map_app, Hs2. reflexivity.
Qed.

End PipelineFacts.

(** ** The identity model *)

Section Validation.
Context `{SetOrder}.

Lemma mem_In : forall x s, mem x s = true <-> In x s.
Proof.
  intros x s. unfold mem. rewrite existsb_exists. split.
  - intros (y & Hy & Heq). apply String.eqb_eq in Heq. subst. exact Hy.
  - intros Hx. exists x. split; [exact Hx | apply String.eqb_refl].
Qed.

Lemma difference_In : forall a b x, In x (difference a b) <-> In x a /\ ~ In x b.
Proof.
  intros a b x. unfold difference. rewrite filter_In, negb_true_iff.
  rewrite <- (mem_In x b). destruct (mem x b); intuition congruence.
Qed.

Lemma set_of_In : forall l x, In x (set_of l) <-> In x l.
Proof. intros. unfold set_of. apply nodup_In. Qed.

Lemma set_iter_In : forall s x, In x (set_iter s) <-> In x s.
Proof.
  intros s x. split; intros Hx.
  - eapply Permutation_in; [apply set_iter_perm | exact Hx].
  - eapply Permutation_in; [apply Permutation_sym, set_iter_perm | exact Hx].
Qed.

(** What [_validate_route_args] does once the template has been parsed. *)
Lemma validate_cases : forall (self : Request.t) ps,
  Resource.route_params (Request.resource self) = Ok ps ->
  let A := keys (Request.route_args self) in
  (exists k, Request._validate_route_args self
             = Raise (ValueError ("Missing route argument for parameter " ++ k))
             /\ In k ps /\ ~ In k A)
  \/ ((forall p, In p ps -> In p A)
      /\ exists k, Request._validate_route_args self
                   = Raise (ValueError ("Unknown route parameter " ++ k))
                   /\ In k A /\ ~ In k ps)
  \/ ((forall k, In k A <-> In k ps) /\ Request._validate_route_args self = Ok tt).
Proof.
  intros self ps Hps A. unfold Request._validate_route_args. rewrite Hps. cbv zeta.
  fold A.
  destruct (difference (set_of ps) (set_of A)) as [|m ms] eqn:Hmiss.
  - assert (Hsub : forall p, In p ps -> In p A).
    { intros p Hp. destruct (in_dec string_dec p A) as [|Hn]; [assumption|].
      assert (Hin : In p (difference (set_of ps) (set_of A))).
      { apply difference_In. rewrite !set_of_In. auto. }
      rewrite Hmiss in Hin. destruct Hin. }
    destruct (difference (set_of A) (set_of ps)) as [|u us] eqn:Hunk.
    + right. right. split; [|reflexivity].
      intros k. split; [|apply Hsub].
      intros Hk. destruct (in_dec string_dec k ps) as [|Hn]; [assumption|].
      assert (Hin : In k (difference (set_of A) (set_of ps))).
      { apply difference_In. rewrite !set_of_In. auto. }
      rewrite Hunk in Hin. destruct Hin.
    + right. left. split; [exact Hsub|].
      destruct (set_iter (u :: us)) as [|k ks] eqn:Hit.
      * exfalso. assert (Hin : In u (set_iter (u :: us))) by (apply set_iter_In; left; reflexivity).
        rewrite Hit in Hin. destruct Hin.
      * exists k. split; [reflexivity|].
        assert (Hin : In k (set_iter (u :: us))) by (rewrite Hit; left; reflexivity).
        apply (proj1 (set_iter_In _ _)) in Hin. rewrite <- Hunk in Hin.
        apply (proj1 (difference_In _ _ _)) in Hin. rewrite !set_of_In in Hin. exact Hin.
  - left. destruct (set_iter (m :: ms)) as [|k ks] eqn:Hit.
    + exfalso. assert (Hin : In m (set_iter (m :: ms))) by (apply set_iter_In; left; reflexivity).
      rewrite Hit in Hin. destruct Hin.
    + exists k. split; [reflexivity|].
      assert (Hin : In k (set_iter (m :: ms))) by (rewrite Hit; left; reflexivity).
      apply (proj1 (set_iter_In _ _)) in Hin. rewrite <- Hmiss in Hin.
      apply (proj1 (difference_In _ _ _)) in Hin. rewrite !set_of_In in Hin. exact Hin.
Qed.

(** C7 (as amended). Construction succeeds iff the template parses and the
    keys supplied are exactly its placeholders. When a placeholder has no
    key, it fails with the missing-argument error naming such a placeholder.
    When every placeholder has a key and some key matches no placeholder, it
    fails with the unknown-parameter error naming such a key. (When both
    defects are present the missing-argument error is the one raised.) *)
Theorem C7_route_args_validation :
  forall (resource : Resource.t) (route_args query_args headers : option dict),
    let A := keys (or_empty route_args) in
    ((exists r, Request.__init__ resource route_args query_args headers = Ok r)
     <-> (exists ps, Resource.route_params resource = Ok ps /\ forall k, In k A <-> In k ps))
    /\ (forall ps, Resource.route_params resource = Ok ps ->
          (exists p, In p ps /\ ~ In p A) ->
          exists k, Request.__init__ resource route_args query_args headers
                    = Raise (ValueError ("Missing route argument for parameter " ++ k))
                    /\ In k ps /\ ~ In k A)
    /\ (forall ps, Resource.route_params resource = Ok ps ->
          (forall p, In p ps -> In p A) ->
          (exists k, In k A /\ ~ In k ps) ->
          exists k, Request.__init__ resource route_args query_args headers
                    = Raise (ValueError ("Unknown route parameter " ++ k))
                    /\ In k A /\ ~ In k ps).
Proof.
  intros resource route_args query_args headers A.
  set (self := Request.mk resource (or_empty route_args) (or_empty query_args) (or_empty headers)).
  assert (Hinit : Request.__init__ resource route_args query_args headers
                  = match Request._validate_route_args self with
                    | Raise e => Raise e
                    | Ok _ => Ok self
                    end) by reflexivity.
  split; [|split].
  - split.
    + intros [r Hr]. rewrite Hinit in Hr.
      destruct (Resource.route_params resource) as [ps|e] eqn:Hps.
      * exists ps. split; [reflexivity|].
        destruct (validate_cases self ps Hps) as [(k & Hv & _)|[(_ & k & Hv & _)|[Hiff _]]].
        -- rewrite Hv in Hr. discriminate.
        -- rewrite Hv in Hr. discriminate.
        -- exact Hiff.
      * unfold Request._validate_route_args in Hr. cbn [Request.resource self] in Hr.
        rewrite Hps in Hr. discriminate.
    + intros (ps & Hps & Hiff). exists self. rewrite Hinit.
      destruct (validate_cases self ps Hps) as [(k & _ & Hk & Hn)|[(_ & k & _ & Hk & Hn)|[_ Hv]]].
      * exfalso. apply Hn. apply Hiff. exact Hk.
      * exfalso. apply Hn. apply Hiff. exact Hk.
      * rewrite Hv. reflexivity.
  - intros ps Hps (p & Hp & Hnp). rewrite Hinit.
    destruct (validate_cases self ps Hps) as [(k & Hv & Hk)|[(Hsub & _)|[Hiff _]]].
    + exists k. rewrite Hv. auto.
    + exfalso. apply Hnp. apply Hsub. exact Hp.
    + exfalso. apply Hnp. apply Hiff. exact Hp.
  - intros ps Hps Hsub (k0 & Hk0 & Hnk0). rewrite Hinit.
    destruct (validate_cases self ps Hps) as [(k & _ & Hk & Hn)|[(_ & k & Hv & Hk)|[Hiff _]]].
    + exfalso. apply Hn. apply Hsub. exact Hk.
    + exists k. rewrite Hv. auto.
    + exfalso. apply Hnk0. apply Hiff. exact Hk0.
Qed.

End Validation.

(** *** Equality, hashing and the storage slot *)

Lemma dict_get_In : forall (d : dict) k v, dict_get k d = Some v -> In (k, v) d.
Proof.
  induction d as [|[k' v'] d IH]; intros k v Hg; [discriminate|].
  cbn in Hg. destruct (String.eqb_spec k' k).
  - inversion Hg; subst. left. reflexivity.
  - right. apply IH. exact Hg.
Qed.

Lemma In_dict_get : forall (d : dict) k v, wf_dict d -> In (k, v) d -> dict_get k d = Some v.
Proof.
  induction d as [|[k' v'] d IH]; intros k v Hwf Hin; [destruct Hin|].
  unfold wf_dict in *. cbn in Hwf. inversion Hwf as [|? ? Hnot Hnd]; subst.
  cbn. destruct Hin as [Heq|Hin].
  - inversion Heq; subst. rewrite String.eqb_refl. reflexivity.
  - destruct (String.eqb_spec k' k) as [->|Hne].
    + exfalso. apply Hnot. apply (in_map fst) in Hin. exact Hin.
    + apply IH; assumption.
Qed.

Lemma In_keys : forall (d : dict) k, In k (keys d) -> exists v, In (k, v) d.
Proof.
  intros d k Hk. unfold keys in Hk. apply in_map_iff in Hk.
  destruct Hk as ([k' v] & Heq & Hin). cbn in Heq. subst. eauto.
Qed.

(** [==] on well-formed dictionaries is equality of the sets of pairs. *)
Lemma dict_eq_spec : forall a b, wf_dict a -> wf_dict b ->
  (dict_eq a b = true <-> dict_equiv a b).
Proof.
  intros a b Ha Hb. unfold dict_eq. rewrite andb_true_iff, Nat.eqb_eq, forallb_forall.
  split.
  - intros [Hlen Hall].
    assert (Hab : forall k v, In (k, v) a -> In (k, v) b).
    { intros k v Hin. specialize (Hall (k, v) Hin). cbn in Hall.
      destruct (dict_get k b) as [v'|] eqn:Hg; [|discriminate].
      apply String.eqb_eq in Hall. subst. apply dict_get_In. exact Hg. }
    assert (Hkeys : incl (keys b) (keys a)).
    { apply NoDup_length_incl; [exact Ha | unfold keys; rewrite !length_map; lia |].
      intros k Hk. destruct (In_keys a k Hk) as [v Hv].
      apply (in_map fst) in Hv. apply Hab in Hv || idtac.
      destruct (In_keys a k Hk) as [v' Hv']. apply Hab in Hv'.
      apply (in_map fst) in Hv'. exact Hv'. }
    intros k v. split; [apply Hab|].
    intros Hin. assert (Hk : In k (keys a)) by (apply Hkeys; apply (in_map fst) in Hin; exact Hin).
    destruct (In_keys a k Hk) as [v' Hv'].
    pose proof (Hab k v' Hv') as Hb'.
    apply (In_dict_get b k v Hb) in Hin. apply (In_dict_get b k v' Hb) in Hb'.
    rewrite Hin in Hb'. inversion Hb'; subst. exact Hv'.
  - intros Heq. split.
    + assert (H1 : incl (keys a) (keys b)).
      { intros k Hk. destruct (In_keys a k Hk) as [v Hv]. apply Heq in Hv.
        apply (in_map fst) in Hv. exact Hv. }
      assert (H2 : incl (keys b) (keys a)).
      { intros k Hk. destruct (In_keys b k Hk) as [v Hv]. apply Heq in Hv.
        apply (in_map fst) in Hv. exact Hv. }
      pose proof (NoDup_incl_length Ha H1) as L1.
      pose proof (NoDup_incl_length Hb H2) as L2.
      unfold keys in L1, L2. rewrite !length_map in L1, L2. lia.
    + intros [k v] Hin. cbn. apply Heq in Hin.
      rewrite (In_dict_get b k v Hb Hin). apply String.eqb_refl.
Qed.

Lemma dict_eq_refl : forall d, wf_dict d -> dict_eq d d = true.
Proof. intros d Hd. apply dict_eq_spec; auto. intros k v. reflexivity. Qed.







(** *** Route and uri *)

Lemma chars_app : forall a b, chars (a ++ b) = (chars a ++ chars b)%list.
Proof.
  induction a as [|c a IH]; intros b; [reflexivity|].
  cbn. f_equal. apply IH.
Qed.

Lemma text_chars : forall s, text (chars s) = s.
Proof. apply string_of_list_ascii_of_string. Qed.


Lemma text_app : forall a b, text (a ++ b)%list = text a ++ text b.
Proof.
  induction a as [|c a IH]; intros b; [reflexivity|].
  cbn. f_equal. apply IH.
Qed.

Lemma append_empty_r : forall s : string, s ++ "" = s.
Proof. induction s as [|c s IH]; [reflexivity|]. cbn. f_equal. exact IH. Qed.

Lemma append_assoc3 : forall a b c : string, (a ++ b) ++ c = a ++ b ++ c.
Proof. induction a as [|x a IH]; intros; [reflexivity|]. cbn. f_equal. apply IH. Qed.

(** Literal text without braces is accumulated as it is. *)
Lemma parse_literal : forall l acc rest,
  forallb (fun c => negb (Template.is_brace c)) l = true ->
  Str.parse_from (Str.PLit acc) (l ++ rest) = Str.parse_from (Str.PLit (rev l ++ acc)) rest.
Proof.
  induction l as [|c l IH]; intros acc rest Hl; [reflexivity|].
  cbn [forallb] in Hl. apply andb_true_iff in Hl. destruct Hl as [Hc Hl].
  cbn [app Str.parse_from Str.transition].
  unfold Template.is_brace in Hc. apply negb_true_iff, orb_false_iff in Hc.
  destruct Hc as [Ho Hcl]. rewrite Ho, Hcl. rewrite IH by exact Hl.
  cbn [rev]. rewrite <- app_assoc. reflexivity.
Qed.

Lemma name_step_plain : forall lit name c,
  Template.is_special c = false ->
  Str.name_step lit name c = Str.Goto (Str.PName lit (c :: name)).
Proof.
  intros lit name c Hc. unfold Template.is_special, Template.is_brace in Hc.
  repeat (apply orb_false_iff in Hc; destruct Hc as [Hc ?]).
  unfold Str.name_step.
  repeat match goal with Hx : Ascii.eqb c _ = false |- _ => rewrite Hx; clear Hx end.
  reflexivity.
Qed.

Lemma parse_name : forall cs lit name rest,
  forallb (fun x => negb (Template.is_special x)) cs = true ->
  Str.parse_from (Str.PName lit name) (cs ++ rest)
  = Str.parse_from (Str.PName lit (rev cs ++ name)) rest.
Proof.
  induction cs as [|c cs IH]; intros lit name rest Hcs; [reflexivity|].
  cbn [forallb] in Hcs. apply andb_true_iff in Hcs. destruct Hcs as [Hc Hcs].
  apply negb_true_iff in Hc.
  cbn [app Str.parse_from Str.transition]. rewrite name_step_plain by exact Hc.
  rewrite IH by exact Hcs. cbn [rev]. rewrite <- app_assoc. reflexivity.
Qed.

Lemma parse_open : forall acc s,
  Str.parse_from (Str.PLit acc) ("{"%char :: s) = Str.parse_from (Str.POpen acc) s.
Proof. reflexivity. Qed.

Lemma parse_close_name : forall lit name s,
  Str.parse_from (Str.PName lit name) ("}"%char :: s)
  = let (items, e) := Str.parse_from (Str.PLit []) s in
    (Str.mk_item lit name None [] :: items, e).
Proof. reflexivity. Qed.

(** A placeholder [{n}] with a plain name is one replacement field named [n]. *)
Lemma parse_hole : forall n acc rest,
  Template.plain_name n = true ->
  Str.parse_from (Str.PLit acc) (chars ("{" ++ n ++ "}") ++ rest)
  = let (items, e) := Str.parse_from (Str.PLit []) rest in
    ((text (rev acc), Some (Str.mkField n "" None)) :: items, e).
Proof.
  intros n acc rest Hn. unfold Template.plain_name in Hn.
  rewrite !chars_app. change (chars "{") with ["{"%char]. change (chars "}") with ["}"%char].
  destruct (chars n) as [|c cs] eqn:Hcs; [discriminate|].
  apply andb_true_iff in Hn. destruct Hn as [_ Hn].
  cbn [forallb] in Hn. apply andb_true_iff in Hn. destruct Hn as [Hc Hrest].
  apply negb_true_iff in Hc.
  assert (Hnb : Ascii.eqb c "{" = false).
  { unfold Template.is_special, Template.is_brace in Hc.
    repeat (apply orb_false_iff in Hc; destruct Hc as [Hc ?]). assumption. }
  cbn [app]. rewrite parse_open.
  cbn [Str.parse_from]. cbn [Str.transition]. rewrite Hnb.
  rewrite name_step_plain by exact Hc.
  rewrite <- app_assoc. rewrite parse_name by exact Hrest.
  cbn [app]. rewrite parse_close_name.
  unfold Str.mk_item. cbn [rev app].
  replace (rev (rev cs ++ [c])) with (c :: cs) by (rewrite rev_app_distr, rev_involutive; reflexivity).
  rewrite <- Hcs, text_chars. reflexivity.
Qed.

Lemma format_field_plain : forall kwargs n,
  Template.plain_name n = true ->
  Str.format_field kwargs (Str.mkField n "" None)
  = match dict_get n kwargs with
    | Some v => Ok v
    | None => Raise (KeyError n)
    end.
Proof.
  intros kwargs n Hn. unfold Template.plain_name in Hn.
  unfold Str.format_field. cbn [Str.field_name Str.conversion Str.format_spec].
  destruct (chars n) as [|c cs] eqn:Hcs; [discriminate|].
  apply andb_true_iff in Hn. destruct Hn as [Hd Hn]. apply negb_true_iff in Hd.
  assert (Hsplit : forall l, forallb (fun x => negb (Template.is_special x)) l = true ->
                             Str.split_first l = (l, [])).
  { induction l as [|x l IH]; intros Hl; [reflexivity|].
    cbn [forallb] in Hl. apply andb_true_iff in Hl. destruct Hl as [Hx Hl].
    apply negb_true_iff in Hx. unfold Template.is_special in Hx.
    repeat (apply orb_false_iff in Hx; destruct Hx as [Hx ?]).
    cbn [Str.split_first].
    repeat match goal with Hy : Ascii.eqb x _ = false |- _ => rewrite Hy; clear Hy end.
    cbn [orb]. rewrite IH by exact Hl. reflexivity. }
  rewrite (Hsplit _ Hn).
  unfold Str.get_integer. cbn [Str.get_integer_from]. rewrite Hd.
  rewrite <- Hcs, text_chars.
  destruct (dict_get n kwargs); reflexivity.
Qed.

Lemma plain_name_nonempty : forall n, Template.plain_name n = true -> String.eqb n "" = false.
Proof.
  intros n Hn. destruct n; [discriminate|reflexivity].
Qed.

(** A well-formed template parses to its placeholders and formats to the
    substituted text. *)
Lemma parse_render : forall segs acc,
  Template.well_formed segs = true ->
  exists items,
    Str.parse_from (Str.PLit acc) (chars (Template.render segs)) = (items, None)
    /\ flat_map (fun it : Str.Item =>
                   match snd it with
                   | Some f => if String.eqb (Str.field_name f) "" then []
                               else [Str.field_name f]
                   | None => []
                   end) items = Template.holes segs
    /\ forall kwargs out, Template.substitute kwargs segs = Some out ->
         Str.format_items kwargs items None = Ok (text (rev acc) ++ out).
Proof.
  induction segs as [|g segs IH]; intros acc Hwf.
  - cbn [Template.render fold_right]. change (chars "") with (@nil ascii).
    cbn [Str.parse_from Str.at_end].
    destruct acc as [|a acc].
    + exists []. repeat split. intros kwargs out Hs. inversion Hs. reflexivity.
    + exists [(text (rev (a :: acc)), None)]. repeat split.
      intros kwargs out Hs. inversion Hs. cbn. reflexivity.
  - cbn [Template.well_formed forallb] in Hwf. apply andb_true_iff in Hwf.
    destruct Hwf as [Hg Hwf]. cbn [Template.render fold_right]. fold (Template.render segs).
    rewrite chars_app. destruct g as [s|n]; cbn [Template.render_segment Template.well_formed_segment] in *.
    + rewrite parse_literal by exact Hg.
      destruct (IH (rev (chars s) ++ acc)%list Hwf) as (items & Hp & Hnames & Hfmt).
      exists items. split; [exact Hp|]. split; [exact Hnames|].
      intros kwargs out Hs. cbn [Template.substitute] in Hs.
      destruct (Template.substitute kwargs segs) as [rest|] eqn:Hsub; [|discriminate].
      inversion Hs; subst. rewrite (Hfmt kwargs rest Hsub).
      rewrite rev_app_distr, rev_involutive, text_app, text_chars, append_assoc3. reflexivity.
    + rewrite parse_hole by exact Hg.
      destruct (IH [] Hwf) as (items & Hp & Hnames & Hfmt). rewrite Hp.
      eexists. split; [reflexivity|]. split.
      * cbn [flat_map snd Str.field_name]. rewrite (plain_name_nonempty n Hg), Hnames. reflexivity.
      * intros kwargs out Hs. cbn [Template.substitute] in Hs.
        cbn [Str.format_items]. rewrite format_field_plain by exact Hg.
        destruct (dict_get n kwargs) as [v|]; [|discriminate].
        destruct (Template.substitute kwargs segs) as [rest|] eqn:Hsub; [|discriminate].
        inversion Hs; subst. rewrite (Hfmt kwargs rest Hsub). reflexivity.
Qed.





Lemma keys_dict_get : forall (d : dict) k, In k (keys d) -> exists v, dict_get k d = Some v.
Proof.
  induction d as [|[k' v'] d IH]; intros k Hk; [destruct Hk|].
  cbn. destruct (String.eqb_spec k' k); [eauto|].
  destruct Hk as [Hk|Hk]; [contradiction|]. apply IH. exact Hk.
Qed.

Lemma substitute_total : forall args segs,
  (forall n, In n (Template.holes segs) -> In n (keys args)) ->
  exists out, Template.substitute args segs = Some out.
Proof.
  induction segs as [|g segs IH]; intros Hall; [eexists; reflexivity|].
  destruct IH as [rest Hrest].
  { intros n Hn. apply Hall. destruct g; cbn; auto. }
  cbn [Template.substitute]. rewrite Hrest. destruct g as [s|n].
  - eexists. reflexivity.
  - destruct (keys_dict_get args n) as [v Hv].
    + apply Hall. cbn. auto.
    + rewrite Hv. eexists. reflexivity.
Qed.


(** ** The scenarios *)

Section Scenarios.
Import Scenario.
Import CPython.

(** C1, on the code. A request hook returns [Abort]: [Request.run_hooks]
    leaves its loop and returns the working request, so the test
    [request is Abort] of the worker is false; the request is sent and its
    response is stored. *)
Theorem C1_request_abort_is_sent_and_stored :
  let request := request_of guarded in
  let run := unit_of_work request (one_in_flight, []) in
  handle_request abort_request request one_in_flight = (Ok PyAbort, one_in_flight)
  /\ fst (Request_run_hooks [abort_request] request (one_in_flight, []))
     = Ok (PyRequest request)
  /\ request_calls (snd (snd run)) = [abort_request]
  /\ sent (snd (snd run)) = [request]
  /\ stored (snd (snd run)) = [(request, not_found request)]
  /\ Mapi.iter_responses (fst (snd run)) = [not_found request].
Proof. cbv zeta. repeat split; vm_compute; reflexivity. Qed.

(** C2, on the code. A response hook returns [Abort]: [Response.run_hooks]
    returns the working response, the test [response is not Abort] is true,
    and the response is stored. *)
Theorem C2_response_abort_is_stored :
  let request := request_of filtered in
  let run := unit_of_work request (one_in_flight, []) in
  handle_response abort_response (not_found request) one_in_flight
  = (Ok PyAbort, one_in_flight)
  /\ fst (Response_run_hooks [abort_response] (not_found request) (one_in_flight, []))
     = Ok (PyResponse (not_found request))
  /\ response_calls (snd (snd run)) = [abort_response]
  /\ sent (snd (snd run)) = [request]
  /\ stored (snd (snd run)) = [(request, not_found request)]
  /\ Mapi.iter_responses (fst (snd run)) = [not_found request].
Proof. cbv zeta. repeat split; vm_compute; reflexivity. Qed.


(** C3, on the code. A response hook registers the request it has just
    seen once more, with the query arguments rebuilt in another order.
    [run()] drains the chain and returns, and [iter_responses] then yields
    two stored responses for that one identity: the two requests are equal
    but hash differently (see C6), so the dictionary of the storage keeps
    them apart. *)
Theorem C3_one_identity_stored_twice :
  _queue retrying = [retry_ab]
  /\ Request.__eq__ retry_ab (PyRequest retry_ba : Val) = Ok true
  /\ exists c', run_returns retrying c'
                /\ Mapi.iter_responses c' = [not_found retry_ab; not_found retry_ba].
Proof.
  split; [reflexivity|]. split; [reflexivity|].
  destruct (run_schedule (alone 2) (_run_start retrying)) as [l|] eqn:Hl;
    [|vm_compute in Hl; discriminate].
  exists (_run_finish l). split.
  - exists l. split; [apply (run_schedule_steps (alone 2)); exact Hl|].
    split; [|reflexivity].
    vm_compute in Hl. inversion Hl. reflexivity.
  - vm_compute in Hl. inversion Hl. reflexivity.
Qed.

(** The quiescence part of C3 holds on the three-page chain: while page 1
    is in flight the queue is empty and [join] is not satisfied; after two
    pages it still is not; after the third unit [run()] returns with three
    stored responses. *)
Example pagination_drains_before_run_returns :
  (exists l, run_schedule [0] (_run_start paged) = Some l
             /\ option_map AsyncQueue.items (_async_queue (fst (machine l))) = Some []
             /\ in_flight (tasks l) = 1
             /\ join_ready l = false)
  /\ after_schedule (alone 1) paged = None
  /\ after_schedule (alone 2) paged = None
  /\ option_map Mapi.iter_responses (after_schedule (alone 3) paged)
     = Some [not_found (page "1"); not_found (page "2"); not_found (page "3")].
Proof.
  split; [eexists; split; [reflexivity|]; repeat split|]; repeat split; vm_compute; reflexivity.
Qed.

Lemma scenario_hooks_polite : forall id, polite (hook_table id).
Proof.
  assert (Hsame : forall A (f : @Handler Request.t Response.t Mapi.World A),
             (forall x c, _async_queue (snd (f x c)) = _async_queue c) -> registers_only f).
  { intros A f Hf x c q Hq. exists q. rewrite Hf. split; [exact Hq | apply grows_refl]. }
  assert (Hreg : forall resource ra qa (c : Mapi.collector_t) q,
             _async_queue c = Some q ->
             exists q',
               _async_queue (snd (match Mapi.register resource ra qa c with
                                  | Raise e => (@Raise Val e, c)
                                  | Ok c' => (Ok PyNone, c')
                                  end)) = Some q' /\ grows q q').
  { intros resource ra qa c q Hq. unfold Mapi.register.
    destruct (Resource_as_request resource ra qa) as [request|e].
    - unfold enqueue. rewrite Hq. cbn.
      eexists. split; [reflexivity|]. exists [request]. reflexivity.
    - exists q. split; [exact Hq | apply grows_refl]. }
  intros n. destruct n as [|[|[|[|[|[|[|n]]]]]]]; split;
    try (apply Hsame; intros; reflexivity).
  - intros response c q Hq. cbn [hook_table next_page hook CustomHook handle_response].
    assert (Hnone : exists q', _async_queue (snd (@Ok Val PyNone, c)) = Some q' /\ grows q q')
      by (exists q; split; [exact Hq | apply grows_refl]).
    destruct (dict_get "page" _) as [p|]; [|exact Hnone].
    destruct (String.eqb p "1"); [apply Hreg; exact Hq|].
    destruct (String.eqb p "2"); [apply Hreg; exact Hq | exact Hnone].
  - intros response c q Hq. cbn [hook_table retry_reordered hook CustomHook handle_response].
    assert (Hnone : exists q', _async_queue (snd (@Ok Val PyNone, c)) = Some q' /\ grows q q')
      by (exists q; split; [exact Hq | apply grows_refl]).
    destruct (Request.query_args (Response.request response)) as [|[k v] rest]; [exact Hnone|].
    destruct (String.eqb k "a"); [apply Hreg; exact Hq | exact Hnone].
Qed.

(** With the hooks of the scenarios, whenever [run()] returns nothing is
    queued and nothing is in flight. *)
Example scenario_runs_return_at_quiescence : forall c (l : @Loop Request.t Response.t Mapi.World),
  steps (_run_start c) l -> join_ready l = true ->
  exists q, _async_queue (fst (machine l)) = Some q
            /\ AsyncQueue.items q = [] /\ in_flight (tasks l) = 0.
Proof.
  apply run_returns_only_at_quiescence. intros r u.
  apply Forall_app. split; apply Forall_forall; intros h Hh;
    apply in_map_iff in Hh; destruct Hh as (id & <- & _); apply scenario_hooks_polite.
Qed.


(** C4, against the claim as stated. A request hook raises in the first of
    two queued units: [task_done] runs, then the exception leaves the loop
    and ends the worker; the second request stays in the queue and is never
    sent, however long the worker is given. *)
Lemma C4_fault_ends_the_worker :
  _queue faulty_then_users = [request_of faulty; request_of users]
  /\ forall fuel,
       fst (_worker (S fuel) (fresh (started faulty_then_users))) = Crashed (Fault "boom")
       /\ _async_queue (fst (snd (_worker (S fuel) (fresh (started faulty_then_users)))))
          = Some (AsyncQueue.mk [request_of users] 1%Z)
       /\ task_done_calls (snd (snd (_worker (S fuel) (fresh (started faulty_then_users))))) = 1
       /\ sent (snd (snd (_worker (S fuel) (fresh (started faulty_then_users))))) = [].
Proof.
  split; [reflexivity|]. intros fuel.
  assert (Hw : _worker (S fuel) (fresh (started faulty_then_users))
               = _worker 1 (fresh (started faulty_then_users))).
  { cbn [_worker].
    destruct (queue_get (fresh (started faulty_then_users))) as [[request s1]|] eqn:Hg;
      [|vm_compute in Hg; discriminate].
    destruct (unit_of_work request s1) as [[u|e] s2] eqn:Hu; [|reflexivity].
    exfalso. vm_compute in Hg. inversion Hg; subst. vm_compute in Hu. discriminate. }
  rewrite Hw. repeat split; vm_compute; reflexivity.
Qed.

Lemma C4_task_done_on_every_exit_and_fault_ends_worker_witness :
  queue_get (fresh (started faulty_then_users))
  = Some (request_of faulty,
          fresh (with_async_queue (Some (AsyncQueue.mk [request_of users] 2%Z)) collector))
  /\ fst (unit_of_work (request_of faulty)
            (fresh (with_async_queue (Some (AsyncQueue.mk [request_of users] 2%Z)) collector)))
     = Raise (Fault "boom")
  /\ _async_queue (fst (snd (unit_of_work (request_of faulty)
            (fresh (with_async_queue (Some (AsyncQueue.mk [request_of users] 2%Z)) collector)))))
     = Some (AsyncQueue.mk [request_of users] (2 - 1)%Z)
  /\ _worker 1 (fresh (started faulty_then_users))
     = (Crashed (Fault "boom"),
        snd (unit_of_work (request_of faulty)
               (fresh (with_async_queue (Some (AsyncQueue.mk [request_of users] 2%Z)) collector)))).
Proof.
  pose proof (C4_task_done_on_every_exit_and_fault_ends_worker
                (ports := ports) (request_of faulty)
                (fresh (with_async_queue (Some (AsyncQueue.mk [request_of users] 2%Z)) collector)))
    as (_ & Hcount & Hend).
  assert (Hget : queue_get (fresh (started faulty_then_users))
                 = Some (request_of faulty,
                         fresh (with_async_queue (Some (AsyncQueue.mk [request_of users] 2%Z))
                                                 collector))) by reflexivity.
  assert (Hraise : fst (unit_of_work (request_of faulty)
                          (fresh (with_async_queue (Some (AsyncQueue.mk [request_of users] 2%Z))
                                                   collector)))
                   = Raise (Fault "boom")) by reflexivity.
  split; [exact Hget|]. split; [exact Hraise|]. split.
  - apply (Hcount (AsyncQueue.mk [request_of users] 2%Z)); [reflexivity | reflexivity].
  - apply (Hend (Fault "boom") 0 _ Hget Hraise).
Defined.

(** C6, on the code. Two requests with the same uri and the same query
    arguments written in two orders are equal, but [__hash__] hashes the
    tuple of the items in insertion order: the tuples differ, and so do the
    hashes CPython computes for them (64-bit build, hash seed 0). *)
Theorem C6_equal_requests_hash_differently :
  Request.__eq__ request_ab (PyRequest request_ba : Val) = Ok true
  /\ dict_equiv (Request.query_args request_ab) (Request.query_args request_ba)
  /\ Request.hash_key request_ab = Ok ("http://test.org/search", [("a", "1"); ("b", "2")])
  /\ Request.hash_key request_ba = Ok ("http://test.org/search", [("b", "2"); ("a", "1")])
  /\ Request.__hash__ request_ab = Ok 7029169263094970593%Z
  /\ Request.__hash__ request_ba = Ok 3826262190314788485%Z.
Proof.
  split; [reflexivity|]. split.
  - intros k v. cbn. tauto.
  - repeat split; vm_compute; reflexivity.
Qed.

(** Requests whose uri and items agree, in the same order, hash alike
    whatever the hash functions. *)
Lemma same_items_same_hash : forall `{PyHash} (r1 r2 : Request.t),
  Request.hash_key r1 = Request.hash_key r2 -> Request.__hash__ r1 = Request.__hash__ r2.
Proof. intros PH r1 r2 Hk. unfold Request.__hash__. rewrite Hk. reflexivity. Qed.

(** C7, against the claim as stated. The key [name] matches no placeholder
    of [users/{id}], yet construction does not fail with the
    unknown-parameter error: the placeholder [id] is missing too, and the
    missing-argument check comes first -- under every iteration order of
    sets. *)
Lemma C7_unknown_key_reported_as_missing :
  Resource.route_params user = Ok ["id"]
  /\ In "name" (keys [("name", "x")])
  /\ ~ In "name" ["id"]
  /\ forall so : SetOrder,
       @Request.__init__ so user (Some [("name", "x")]) None None
       = Raise (ValueError "Missing route argument for parameter id")
       /\ forall k, @Request.__init__ so user (Some [("name", "x")]) None None
                    <> Raise (ValueError ("Unknown route parameter " ++ k)).
Proof.
  split; [reflexivity|]. split; [left; reflexivity|]. split; [cbn; intuition discriminate|].
  intros so.
  assert (Hinit : @Request.__init__ so user (Some [("name", "x")]) None None
                  = Raise (ValueError "Missing route argument for parameter id")).
  { assert (Hps : Resource.route_params (Request.resource (Request.mk user [("name", "x")] [] []))
                  = Ok ["id"]) by reflexivity.
    unfold Request.__init__. cbn [or_empty].
    destruct (validate_cases _ _ Hps) as [(k & Hv & Hin & _)|[(Hsub & _)|[Hiff _]]].
    - rewrite Hv. destruct Hin as [<-|[]]. reflexivity.
    - exfalso. destruct (Hsub "id") as [Hx|[]]; [left; reflexivity | discriminate Hx].
    - exfalso. destruct (proj2 (Hiff "id")) as [Hx|[]]; [left; reflexivity | discriminate Hx]. }
  split; [exact Hinit|]. intros k. rewrite Hinit. intros Heq. inversion Heq.
Qed.

Lemma C7_route_args_validation_witness :
  (exists r, Request.__init__ user (Some [("id", "7")]) None None = Ok r)
  /\ (exists k, Request.__init__ user None None None
                = Raise (ValueError ("Missing route argument for parameter " ++ k))
                /\ In k ["id"])
  /\ (exists k, Request.__init__ users (Some [("page", "2")]) None None
                = Raise (ValueError ("Unknown route parameter " ++ k))
                /\ In k ["page"]).
Proof.
  split; [|split].
  - destruct (C7_route_args_validation user (Some [("id", "7")]) None None) as (Hiff & _ & _).
    apply Hiff. exists ["id"]. split; [reflexivity|]. intros k. reflexivity.
  - destruct (C7_route_args_validation user None None None) as (_ & Hmiss & _).
    destruct (Hmiss ["id"] eq_refl) as (k & Hk & Hin & _).
    + exists "id". split; [left; reflexivity | intros []].
    + exists k. split; assumption.
  - destruct (C7_route_args_validation users (Some [("page", "2")]) None None) as (_ & _ & Hunk).
    destruct (Hunk [] eq_refl) as (k & Hk & Hin & _).
    + intros p [].
    + exists "page". split; [left; reflexivity | intros []].
    + exists k. split; assumption.
Defined.



Lemma C10_run_hooks_returns_self_witness :
  Forall quiet_request [Hook_base; Hook_base : Mapi.hook_t]
  /\ Forall quiet_response [Hook_base; Hook_base : Mapi.hook_t]
  /\ fst (Request_run_hooks [Hook_base; Hook_base] user_7 (fresh collector))
     = Ok (PyRequest user_7)
  /\ fst (Response_run_hooks [Hook_base; Hook_base] (not_found user_7) (fresh collector))
     = Ok (PyResponse (not_found user_7)).
Proof.
  destruct (C10_run_hooks_returns_self [Hook_base; Hook_base : Mapi.hook_t])
    as (Hreq & Hresp & _ & _ & Hbase).
  destruct Hbase as [Hq Hp]; [repeat constructor|].
  split; [exact Hq|]. split; [exact Hp|].
  split; [apply Hreq; exact Hq | apply Hresp; exact Hp].
Defined.

Lemma C8_hook_order_witness :
  Forall proceeds [tagging "resource"; tagging "api"]
  /\ fst (unit_of_work (request_of tagged) (fresh one_in_flight)) = Ok tt
  /\ request_calls (calls_of (unit_of_work (request_of tagged)) one_in_flight)
     = [tagging "resource"; tagging "api"]
  /\ response_calls (calls_of (unit_of_work (request_of tagged)) one_in_flight)
     = [tagging "api"; tagging "resource"].
Proof.
  assert (Hp : Forall proceeds [tagging "resource"; tagging "api"]).
  { repeat constructor; intros x c; eexists; eexists; (split; [reflexivity | discriminate]). }
  assert (Hok : fst (unit_of_work (request_of tagged) (fresh one_in_flight)) = Ok tt)
    by reflexivity.
  destruct (C8_hook_order (ports := ports) (request_of tagged) one_in_flight)
    as (_ & _ & _ & Hfull).
  destruct (Hfull Hp Hok) as [Hreq Hresp].
  split; [exact Hp|]. split; [exact Hok|]. split; [exact Hreq | exact Hresp].
Defined.

(** The order of the two phases, as the shared log of the tagging hooks
    records it. *)
Example tagged_order_in_shared_log :
  option_map (fun c => Mapi.shared_log (env c))
             (after_schedule (alone 1) (register_all [(tagged, None, None)] collector))
  = Some ["resource:request"; "api:request"; "api:response"; "resource:response"].
Proof. vm_compute. reflexivity. Qed.

End Scenarios.

(** ** The builtins on concrete inputs (each checked against CPython 3.11) *)

Example parse_users_id :
  Str.Formatter_parse "users/{id}" = ([("users/", Some (Str.mkField "id" "" None))], None).
Proof. reflexivity. Qed.

Example parse_escapes :
  Str.Formatter_parse "a{{b}}c" = ([("a{", None); ("b}", None); ("c", None)], None).
Proof. reflexivity. Qed.

Example parse_conv_spec :
  Str.Formatter_parse "x{a!r:>5}y"
  = ([("x", Some (Str.mkField "a" ">5" (Some "r"%char))); ("y", None)], None).
Proof. reflexivity. Qed.

Example parse_bracket :
  Str.Formatter_parse "{[!]x}" = ([("", Some (Str.mkField "[!]x" "" None))], None).
Proof. reflexivity. Qed.

Example parse_single_close :
  Str.Formatter_parse "{a}}"
  = ([("", Some (Str.mkField "a" "" None))],
     Some (ValueError "Single '}' encountered in format string")).
Proof. reflexivity. Qed.

Example parse_nested_spec :
  Str.Formatter_parse "{a:{w}}" = ([("", Some (Str.mkField "a" "{w}" None))], None).
Proof. reflexivity. Qed.

Example parse_bang_end :
  Str.Formatter_parse "{a!}" = ([], Some (ValueError "unmatched '{' in format spec")).
Proof. reflexivity. Qed.

Example format_positional :
  Str.format "users/{0}" [("0", "x")] = Raise (IndexError 0).
Proof. reflexivity. Qed.

Example format_named :
  Str.format "projects/{project}/issues" [("project", "42")] = Ok "projects/42/issues".
Proof. reflexivity. Qed.

Example strip_slashes : Str.strip "/" "/a/b//" = "a/b" /\ Str.strip "/" "///" = "".
Proof. split; reflexivity. Qed.

Example cpython_hashes :
  CPython.str_hash "a" = 4644417185603328019%Z
  /\ CPython.str_hash "http://test.org/users" = 7208781492715178992%Z
  /\ CPython.tuple_hash [CPython.str_hash "a"; CPython.str_hash "1"] = (-2730023028350365010)%Z.
Proof. repeat split; vm_compute; reflexivity. Qed.

(** * More of the code *)

(** ** Hook chains: where they stop and what they pass on *)

Section ChainFacts.
Context {Req Resp U : Type} {ports : @Ports Req Resp U}.
#[local] Abbreviation hook_t := (@Hook Req Resp U).
#[local] Abbreviation st_t := (@St Req Resp U).

Lemma Request_run_hooks_app : forall (pre rest : list hook_t),
  Forall proceeds pre ->
  forall request c tr, exists r' c' T,
    Request_run_hooks (pre ++ rest) request (c, tr)
    = Request_run_hooks rest r' (c', (tr ++ T)%list)
    /\ request_calls T = pre /\ Forall is_request_call T.
Proof.
  induction 1 as [|h hs Hp _ IH]; intros request c tr.
  - exists request, c, []. rewrite app_nil_r. auto.
  - cbn [app]. rewrite Request_run_hooks_cons.
    destruct Hp as [Hp _]. destruct (Hp request c) as (v & c1 & Hh & Hna). rewrite Hh.
    assert (Hgo : forall r, exists r' c' T,
               Request_run_hooks (hs ++ rest) r (c1, (tr ++ [CallHandleRequest h request])%list)
               = Request_run_hooks rest r' (c', (tr ++ T)%list)
               /\ request_calls T = h :: hs /\ Forall is_request_call T).
    { intros r. destruct (IH r c1 (tr ++ [CallHandleRequest h request])%list)
        as (r' & c' & T & Hrun & Hc & Hf).
      exists r', c', (CallHandleRequest h request :: T). rewrite Hrun, <- app_assoc.
      repeat split; cbn; [f_equal; exact Hc | constructor; [exact I | exact Hf]]. }
    destruct v; try apply Hgo. contradiction.
Qed.

Lemma Response_run_loop_app : forall (pre rest : list hook_t),
  Forall proceeds pre ->
  forall response c tr, exists r' c' T,
    Response_run_loop (pre ++ rest) response (c, tr)
    = Response_run_loop rest r' (c', (tr ++ T)%list)
    /\ response_calls T = pre /\ Forall is_response_call T.
Proof.
  induction 1 as [|h hs Hp _ IH]; intros response c tr.
  - exists response, c, []. rewrite app_nil_r. auto.
  - cbn [app]. rewrite Response_run_loop_cons.
    destruct Hp as [_ Hp]. destruct (Hp response c) as (v & c1 & Hh & Hna). rewrite Hh.
    assert (Hgo : forall r, exists r' c' T,
               Response_run_loop (hs ++ rest) r (c1, (tr ++ [CallHandleResponse h response])%list)
               = Response_run_loop rest r' (c', (tr ++ T)%list)
               /\ response_calls T = h :: hs /\ Forall is_response_call T).
    { intros r. destruct (IH r c1 (tr ++ [CallHandleResponse h response])%list)
        as (r' & c' & T & Hrun & Hc & Hf).
      exists r', c', (CallHandleResponse h response :: T). rewrite Hrun, <- app_assoc.
      repeat split; cbn; [f_equal; exact Hc | constructor; [exact I | exact Hf]]. }
    destruct v; try apply Hgo. contradiction.
Qed.

(** X1. [Request.run_hooks] stops at the first hook that returns [Abort]:
    the hooks before it are invoked in order, the aborting hook is invoked,
    and no hook after it is; the chain returns a request, not [Abort]. *)
Theorem request_chain_stops_at_abort : forall (pre post : list hook_t) h request c,
  Forall proceeds pre ->
  aborts_requests h ->
  request_calls (calls_of (Request_run_hooks (pre ++ h :: post) request) c) = (pre ++ [h])%list
  /\ exists r, fst (Request_run_hooks (pre ++ h :: post) request (c, [])) = Ok (PyRequest r).
Proof.
  intros pre post h request c Hpre Hab. unfold calls_of.
  destruct (Request_run_hooks_app pre (h :: post) Hpre request c [])
    as (r' & c' & T & Hrun & Hc & _).
  rewrite Hrun, Request_run_hooks_cons.
  destruct (Hab r' c') as [c1 Hh]. rewrite Hh. cbn [fst snd app]. split; [|eauto].
  rewrite request_calls_app, Hc. reflexivity.
Qed.

(** X2. [Response.run_hooks] walks the hooks from the last to the first and
    stops at the first that returns [Abort]: the hooks registered after the
    aborting one have seen the response, the hooks registered before it
    never do; the chain returns a response, not [Abort]. *)
Theorem response_chain_stops_at_abort : forall (pre post : list hook_t) h response c,
  Forall proceeds post ->
  aborts_responses h ->
  response_calls (calls_of (Response_run_hooks (pre ++ h :: post) response) c)
  = (rev post ++ [h])%list
  /\ exists r, fst (Response_run_hooks (pre ++ h :: post) response (c, [])) = Ok (PyResponse r).
Proof.
  intros pre post h response c Hpost Hab. unfold calls_of, Response_run_hooks.
  rewrite rev_app_distr. cbn [rev]. rewrite <- app_assoc. cbn [app].
  destruct (Response_run_loop_app (rev post) (h :: rev pre) (Forall_rev Hpost) response c [])
    as (r' & c' & T & Hrun & Hc & _).
  rewrite Hrun, Response_run_loop_cons.
  destruct (Hab r' c') as [c1 Hh]. rewrite Hh. cbn [fst snd app]. split; [|eauto].
  rewrite response_calls_app, Hc. reflexivity.
Qed.

Lemma CustomHook_transparent : transparent (@CustomHook Req Resp U None None).
Proof.
  split; intros x c; eexists; eexists; cbn;
    (split; [reflexivity|]; split; [discriminate|]); intros r Hr; inversion Hr; reflexivity.
Qed.

(** X3. A chain of hooks that hand back what they were given -- the hooks
    [hook()] builds when no function is supplied, or handlers returning
    [None] -- returns the object [run_hooks] was called on, in both phases,
    after invoking every hook of the chain. *)
Theorem transparent_chain_returns_self : forall (hooks : list hook_t),
  Forall transparent hooks ->
  (forall request c,
      fst (Request_run_hooks hooks request (c, [])) = Ok (PyRequest request)
      /\ request_calls (calls_of (Request_run_hooks hooks request) c) = hooks)
  /\ (forall response c,
         fst (Response_run_hooks hooks response (c, [])) = Ok (PyResponse response)
         /\ response_calls (calls_of (Response_run_hooks hooks response) c) = rev hooks).
Proof.
  intros hooks Ht.
  assert (Hreq : forall hs : list hook_t, Forall transparent hs ->
            forall request c tr, exists c' T,
              Request_run_hooks hs request (c, tr) = (Ok (PyRequest request), (c', (tr ++ T)%list))
              /\ request_calls T = hs).
  { induction 1 as [|h hs Hh _ IH]; intros request c tr.
    - exists c, []. rewrite app_nil_r. auto.
    - rewrite Request_run_hooks_cons. destruct Hh as [Hh _].
      destruct (Hh request c) as (v & c1 & Hv & Hna & Hself). rewrite Hv.
      destruct (IH request c1 (tr ++ [CallHandleRequest h request])%list) as (c' & T & Hrun & Hc).
      assert (Hgo : exists c'0 T0,
                 Request_run_hooks hs request (c1, (tr ++ [CallHandleRequest h request])%list)
                 = (Ok (PyRequest request), (c'0, (tr ++ T0)%list))
                 /\ request_calls T0 = h :: hs).
      { exists c', (CallHandleRequest h request :: T). rewrite Hrun, <- app_assoc.
        split; [reflexivity|]. cbn. f_equal. exact Hc. }
      destruct v; try exact Hgo; [contradiction|].
      rewrite (Hself r eq_refl). exact Hgo. }
  assert (Hresp : forall hs : list hook_t, Forall transparent hs ->
            forall response c tr, exists c' T,
              Response_run_loop hs response (c, tr)
              = (Ok (PyResponse response), (c', (tr ++ T)%list))
              /\ response_calls T = hs).
  { induction 1 as [|h hs Hh _ IH]; intros response c tr.
    - exists c, []. rewrite app_nil_r. auto.
    - rewrite Response_run_loop_cons. destruct Hh as [_ Hh].
      destruct (Hh response c) as (v & c1 & Hv & Hna & Hself). rewrite Hv.
      destruct (IH response c1 (tr ++ [CallHandleResponse h response])%list)
        as (c' & T & Hrun & Hc).
      assert (Hgo : exists c'0 T0,
                 Response_run_loop hs response (c1, (tr ++ [CallHandleResponse h response])%list)
                 = (Ok (PyResponse response), (c'0, (tr ++ T0)%list))
                 /\ response_calls T0 = h :: hs).
      { exists c', (CallHandleResponse h response :: T). rewrite Hrun, <- app_assoc.
        split; [reflexivity|]. cbn. f_equal. exact Hc. }
      destruct v; try exact Hgo; [contradiction|].
      rewrite (Hself r eq_refl). exact Hgo. }
  split.
  - intros request c. unfold calls_of.
    destruct (Hreq hooks Ht request c []) as (c' & T & Hrun & Hc). rewrite Hrun. auto.
  - intros response c. unfold calls_of, Response_run_hooks.
    destruct (Hresp (rev hooks) (Forall_rev Ht) response c []) as (c' & T & Hrun & Hc).
    rewrite Hrun. auto.
Qed.

(** X4. The request the worker hands to the transport is the one the
    request chain returned (the replacement, if a hook replaced it), not the
    one it took from the queue; it is sent once, and whatever is stored is
    stored under that same request. *)
Theorem worker_sends_and_stores_the_chain_result : forall request (c : @Collector Req U) r',
  fst (Request_run_hooks
         (resource_hooks request (env c) ++ api_hooks request (env c))%list request (c, []))
  = Ok (PyRequest r') ->
  sent (calls_of (unit_of_work request) c) = [r']
  /\ (stored (calls_of (unit_of_work request) c) = []
      \/ exists p, stored (calls_of (unit_of_work request) c) = [(r', p)]).
Proof.
  intros request c r' Hv. unfold calls_of. rewrite unit_of_work_trace, unit_body_unfold. cbv zeta.
  destruct (Request_run_hooks_calls
              (resource_hooks request (env c) ++ api_hooks request (env c))%list request c [])
    as (n & T1 & _ & HT1 & _ & Hf1).
  assert (Hno : forall T : list (@Call Req Resp U),
            Forall is_request_call T \/ Forall is_response_call T ->
            sent T = [] /\ stored T = []).
  { intros T [HT|HT]; induction HT as [|x T Hx _ [IH1 IH2]]; auto;
      destruct x; cbn in *; try contradiction; auto. }
  destruct (Hno T1 (or_introl Hf1)) as [Hs1 Hp1].
  assert (Hsent_app : forall a b : list (@Call Req Resp U), sent (a ++ b) = (sent a ++ sent b)%list)
    by (intros; apply flat_map_app).
  assert (Hstored_app : forall a b : list (@Call Req Resp U),
             stored (a ++ b) = (stored a ++ stored b)%list)
    by (intros; apply flat_map_app).
  destruct (Request_run_hooks _ request (c, [])) as [[w|e] [c1 tr1]] eqn:Hrun;
    cbn [fst snd] in *; [|discriminate]. subst tr1. inversion Hv; subst w. clear Hv.
  destruct (http_send r' (env c1)) as [[response|e] u].
  { destruct (Response_run_loop_calls
                (rev (resource_hooks request (env c) ++ api_hooks request (env c)))
                response (with_env u c1) (T1 ++ [CallSend r'])%list)
      as (m & T2 & _ & HT2 & _ & Hf2).
    destruct (Hno T2 (or_intror Hf2)) as [Hs2 Hp2].
    destruct (Response_run_loop _ response _) as [[w|e] [c3 tr3]]; cbn [snd] in HT2; subst tr3;
      [destruct w|]; cbn [snd];
      rewrite !Hsent_app, !Hstored_app, Hs1, Hs2, Hp1, Hp2; cbn; eauto. }
  cbn [snd]. rewrite !Hsent_app, !Hstored_app, Hs1, Hp1. cbn. auto.
Qed.

End ChainFacts.

(** ** The queue: registration, draining, quiescence *)

Section QueueFacts.
Context {Req Resp U : Type} {ports : @Ports Req Resp U}.
#[local] Abbreviation st_t := (@St Req Resp U).

(** X5. Under the event loop, with hooks that reach the queue through
    [register] only: in every state a run can reach, the count of unfinished
    tasks equals the number of queued requests plus the number of units
    suspended in [send]; hence [join] lets [_run] go on only when nothing is
    queued and nothing is in flight. *)
Theorem outstanding_work_is_counted :
  (forall r u, Forall polite (resource_hooks r u ++ api_hooks r u)%list) ->
  forall (c : @Collector Req U) (l : @Loop Req Resp U),
    steps (_run_start c) l ->
    exists q, _async_queue (fst (machine l)) = Some q
              /\ AsyncQueue.unfinished_tasks q
                 = Z.of_nat (length (AsyncQueue.items q) + in_flight (tasks l))
              /\ (join_ready l = true -> AsyncQueue.items q = [] /\ in_flight (tasks l) = 0).
Proof.
  intros Hpol c l Hsteps.
  assert (Hbal : balanced l).
  { remember (_run_start c) as l0 eqn:Hl0.
    induction Hsteps as [l1|l1 l2 l3 _ IH Hstep]; [subst l1; apply run_start_balanced|].
    destruct Hstep as [i l2 l3 Hres].
    eapply resume_balanced; [exact Hpol | apply IH; exact Hl0 | exact Hres]. }
  destruct Hbal as (q & Hq & Hcount & _). exists q. split; [exact Hq|]. split; [exact Hcount|].
  intros Hjoin. unfold join_ready in Hjoin. rewrite Hq in Hjoin.
  unfold AsyncQueue.join_ready in Hjoin. apply Z.leb_le in Hjoin.
  destruct (AsyncQueue.items q); cbn [length] in *; split; auto; try lia.
Qed.

Lemma enqueue_pending : forall (rs : list Req) (c : @Collector Req U),
  _async_queue c = None ->
  fold_left (fun c r => enqueue r c) rs c
  = mkCollector (_queue c ++ rs)%list None (_num_workers c) (env c).
Proof.
  induction rs as [|r rs IH]; intros c Hc.
  - cbn. rewrite app_nil_r. destruct c; cbn in *; subst; reflexivity.
  - cbn [fold_left]. rewrite IH.
    + unfold enqueue. rewrite Hc. cbn. rewrite <- app_assoc. reflexivity.
    + unfold enqueue. rewrite Hc. reflexivity.
Qed.

(** X6. Requests registered before a run wait in the pending list; [_run]
    moves them to the event-loop queue in registration order, counts each of
    them once as unfinished, empties the pending list and starts
    [_num_workers] workers, all waiting in [get]. *)
Theorem run_starts_with_registrations_in_order : forall (rs : list Req) (c : @Collector Req U),
  _async_queue c = None ->
  let c' := fold_left (fun c r => enqueue r c) rs c in
  _async_queue c' = None
  /\ _queue c' = (_queue c ++ rs)%list
  /\ _async_queue (fst (machine (@_run_start Req Resp U c')))
     = Some (AsyncQueue.mk (_queue c ++ rs)%list (Z.of_nat (length (_queue c ++ rs))))
  /\ _queue (fst (machine (@_run_start Req Resp U c'))) = []
  /\ tasks (@_run_start Req Resp U c') = repeat AtGet (_num_workers c).
Proof.
  intros rs c Hc. cbv zeta. rewrite (enqueue_pending rs c Hc).
  split; [reflexivity|]. split; [reflexivity|].
  unfold _run_start, _fill_async_queue.
  cbn [machine tasks fst _async_queue with_async_queue _queue _num_workers env].
  rewrite fill_put_nowait. cbn. auto.
Qed.

Lemma worker_step : forall fuel (s : st_t),
  _worker (S fuel) s =
  match queue_get s with
  | None => (Suspended, s)
  | Some (request, s1) =>
      match unit_of_work request s1 with
      | (Ok _, s2) => _worker fuel s2
      | (Raise e, s2) => (Crashed e, s2)
      end
  end.
Proof. reflexivity. Qed.

Lemma worker_drains : forall (inv : U -> Prop) (items : list Req) (c : @Collector Req U)
    (tr : list (@Call Req Resp U)) n,
  (forall r u, In r items -> resource_hooks r u = [] /\ api_hooks r u = []) ->
  (forall r u, In r items -> inv u -> exists p u', http_send r u = (Ok p, u') /\ inv u') ->
  (forall r p u, In r items -> inv u -> exists u', db_put r p u = (Ok tt, u') /\ inv u') ->
  inv (env c) ->
  _async_queue c = Some (AsyncQueue.mk items n) ->
  (Z.of_nat (length items) <= n)%Z ->
  exists c' T,
    _worker (S (length items)) (c, tr) = (Suspended, (c', (tr ++ T)%list))
    /\ _async_queue c' = Some (AsyncQueue.mk [] (n - Z.of_nat (length items))%Z)
    /\ sent T = items
    /\ map fst (stored T) = items
    /\ task_done_calls T = length items.
Proof.
  intros inv. induction items as [|request items IH]; intros c tr n Hhooks Hsend Hput Hinv Hq Hn.
  - exists c, []. cbn [length]. rewrite worker_step. unfold queue_get. cbn [fst snd]. rewrite Hq. cbn.
    rewrite app_nil_r, Z.sub_0_r. auto.
  - cbn [length] in *. rewrite worker_step. unfold queue_get at 1. cbn [fst snd]. rewrite Hq.
    cbn [AsyncQueue.get AsyncQueue.items AsyncQueue.unfinished_tasks].
    set (c0 := with_async_queue (Some (AsyncQueue.mk items n)) c).
    unfold unit_of_work, try_finally. rewrite unit_body_unfold. cbv zeta.
    destruct (Hhooks request (env c0) (or_introl eq_refl)) as [Hr Ha]. rewrite Hr, Ha.
    cbn [app rev]. cbn [Request_run_hooks]. unfold ret at 1.
    destruct (Hsend request (env c0) (or_introl eq_refl) Hinv) as (p & u & Hs & Hinv1).
    rewrite Hs. cbn [Response_run_loop]. unfold ret at 1.
    destruct (Hput request p (env (with_env u c0)) (or_introl eq_refl) Hinv1)
      as (u' & Hp & Hinv2).
    rewrite Hp. cbn [fst snd].
    unfold task_done, bind, log, call. cbn [fst snd with_env _async_queue c0 with_async_queue].
    unfold AsyncQueue.task_done. cbn [AsyncQueue.items AsyncQueue.unfinished_tasks].
    destruct (Z.leb_spec n 0); [lia|]. cbn [fst snd].
    match goal with
    | |- context [_worker _ (?c1, ?tr1)] =>
        destruct (IH c1 tr1 (n - 1)%Z
                     (fun r u Hin => Hhooks r u (or_intror Hin))
                     (fun r u Hin => Hsend r u (or_intror Hin))
                     (fun r p u Hin => Hput r p u (or_intror Hin))
                     Hinv2 eq_refl ltac:(lia))
          as (c' & T & Hw & Hq' & Hsent & Hstored & Hdone)
    end.
    rewrite Hw. exists c', (CallSend request :: CallPut request p :: CallTaskDone :: T).
    split; [rewrite <- !app_assoc; reflexivity|].
    split; [rewrite Hq'; f_equal; f_equal; lia|].
    split; [unfold sent in *; cbn [flat_map app]; rewrite Hsent; reflexivity|].
    split; [unfold stored in *; cbn [flat_map app map fst]; rewrite Hstored; reflexivity|].
    unfold task_done_calls in *. cbn [filter length]. rewrite Hdone. reflexivity.
Qed.

(** X7. A worker that is alone, on queued requests whose resources have no
    hooks and for which the transport and the storage do not fail (in the
    states [inv] that sending and storing them lead to), takes the queued
    requests one by one in queue order: each is sent once and stored once,
    [task_done] is called once per request, and the worker ends suspended in
    [get] on an empty queue. *)
Theorem worker_alone_drains_the_queue_in_order :
  forall (inv : U -> Prop) (items : list Req) (c : @Collector Req U) n,
    (forall r u, In r items -> resource_hooks r u = [] /\ api_hooks r u = []) ->
    (forall r u, In r items -> inv u -> exists p u', http_send r u = (Ok p, u') /\ inv u') ->
    (forall r p u, In r items -> inv u -> exists u', db_put r p u = (Ok tt, u') /\ inv u') ->
    inv (env c) ->
    _async_queue c = Some (AsyncQueue.mk items n) ->
    (Z.of_nat (length items) <= n)%Z ->
    fst (_worker (S (length items)) (c, [])) = Suspended
    /\ _async_queue (fst (snd (_worker (S (length items)) (c, []))))
       = Some (AsyncQueue.mk [] (n - Z.of_nat (length items))%Z)
    /\ sent (snd (snd (_worker (S (length items)) (c, [])))) = items
    /\ map fst (stored (snd (snd (_worker (S (length items)) (c, []))))) = items
    /\ task_done_calls (snd (snd (_worker (S (length items)) (c, [])))) = length items.
Proof.
  intros inv items c n Hhooks Hsend Hput Hinv Hq Hn.
  destruct (worker_drains inv items c [] n Hhooks Hsend Hput Hinv Hq Hn)
    as (c' & T & Hw & Hq' & Hsent & Hstored & Hdone).
  rewrite Hw. cbn [fst snd app]. auto.
Qed.

End QueueFacts.

(** ** The API object *)

Lemma APIState_lookup_app : forall rs name n d,
  APIState.lookup name (rs ++ [(n, d)])
  = match APIState.lookup name rs with
    | Some x => Some x
    | None => if String.eqb n name then Some d else None
    end.
Proof.
  induction rs as [|[k v] rs IH]; intros name n d; [reflexivity|].
  cbn. destruct (String.eqb k name); [reflexivity | apply IH].
Qed.

(** X8. After [add(name, template, query_params, hooks)] has succeeded,
    [get(name)] returns a resource with that name and template, with the
    query parameters and hooks given ([None] standing for none), on the
    host and with the hooks of the API; what [get] returns for any other
    name is what it returned before, and the host and hooks of the API are
    untouched. *)
Theorem API_add_then_get : forall self name route_template query_params hooks self',
  APIState.add self name route_template query_params hooks = Ok self' ->
  APIState.get self' name
  = Ok (Resource.mk (API.mk (APIState.host self) (APIState.hooks self)) name route_template
                    (APIState.or_nil query_params) (APIState.or_nil hooks))
  /\ (forall other, other <> name -> APIState.get self' other = APIState.get self other)
  /\ APIState.host self' = APIState.host self
  /\ APIState.hooks self' = APIState.hooks self.
Proof.
  intros self name T qp hs self' Hadd. unfold APIState.add in Hadd.
  destruct (APIState.lookup name (APIState._resources self)) eqn:Hl; [discriminate|].
  inversion Hadd; subst self'. clear Hadd. unfold APIState.get. cbn.
  rewrite !APIState_lookup_app, Hl, String.eqb_refl. split; [reflexivity|].
  split; [|auto]. intros other Hne. rewrite APIState_lookup_app.
  destruct (APIState.lookup other (APIState._resources self)); [reflexivity|].
  destruct (String.eqb_spec name other); [congruence | reflexivity].
Qed.

(** X9. [add] succeeds exactly for the names [get] does not know: a name
    that is registered cannot be registered again (the assertion fails and
    nothing is replaced), and [get] of a name never added raises. *)
Theorem API_add_succeeds_iff_name_is_new :
  forall self name route_template query_params hooks,
    ((exists self', APIState.add self name route_template query_params hooks = Ok self')
     <-> APIState.get self name = Raise (Fault ("Unknown resource " ++ name)))
    /\ ((exists r, APIState.get self name = Ok r)
        <-> APIState.add self name route_template query_params hooks
            = Raise (Fault ("AssertionError: Resource " ++ name ++ " already exist")))
    /\ (forall host, APIState.get (APIState.__init__ host) name
                     = Raise (Fault ("Unknown resource " ++ name))).
Proof.
  intros self name T qp hs. unfold APIState.add, APIState.get.
  destruct (APIState.lookup name (APIState._resources self)); repeat split;
    try (intros [x Hx]; discriminate); try discriminate; eauto.
Qed.

(** X10. [hook(h)] appends [h] to the hooks of the API and leaves the
    resources alone: a resource looked up afterwards is the one looked up
    before, with [h] as the last of its API's hooks -- also when the
    resource was added before the hook was attached. *)
Theorem API_hook_is_seen_by_resources : forall self h name r,
  APIState.get self name = Ok r ->
  APIState.get (APIState.hook self h) name
  = Ok (Resource.mk (API.mk (API.host (Resource.api r)) (API.hooks (Resource.api r) ++ [h]))
                    (Resource.name r) (Resource.route_template r) (Resource.query_params r)
                    (Resource.hooks r))
  /\ Resource.hooks r = match APIState.lookup name (APIState._resources self) with
                        | Some d => APIState.d_hooks d
                        | None => []
                        end.
Proof.
  intros self h name r Hget. unfold APIState.get, APIState.hook in *. cbn.
  destruct (APIState.lookup name (APIState._resources self)); [|discriminate].
  inversion Hget; subst r. cbn. auto.
Qed.

(** ** Identity: more on [uri], [__eq__] and construction *)

Lemma lstrip_all_or_snoc : forall c l x,
  (Str.lstrip_chars c l = [] /\ Str.lstrip_chars c (l ++ [x]) = Str.lstrip_chars c [x])
  \/ (Str.lstrip_chars c l <> [] /\ Str.lstrip_chars c (l ++ [x]) = (Str.lstrip_chars c l ++ [x])%list).
Proof.
  induction l as [|y l IH]; intros x.
  - left. auto.
  - cbn [app Str.lstrip_chars]. destruct (Ascii.eqb y c); [apply IH|].
    right. split; [discriminate | reflexivity].
Qed.

Lemma strip_trailing : forall s, Str.strip "/" (s ++ "/") = Str.strip "/" s.
Proof.
  intros s. unfold Str.strip, Str.strip_chars. f_equal. rewrite chars_app.
  change (chars "/") with ["/"%char].
  destruct (lstrip_all_or_snoc "/"%char (chars s) "/"%char) as [[H0 H1]|[H0 H1]]; rewrite H1.
  - rewrite H0. reflexivity.
  - unfold Str.rstrip_chars. rewrite rev_app_distr. reflexivity.
Qed.

(** X11. A trailing slash on the API host does not show in [uri]: the
    request on host [h ++ "/"] has the uri of the request on host [h], and
    the two requests are equal. *)
Theorem uri_ignores_trailing_slash_of_host : forall (r : Request.t) h u,
  Request.uri (on_host h r) = Ok u ->
  wf_dict (Request.query_args r) ->
  Request.uri (on_host (h ++ "/") r) = Ok u
  /\ Request.__eq__ (on_host h r) (PyRequest (on_host (h ++ "/") r) : Val) = Ok true.
Proof.
  intros r h u Hu Hwf.
  assert (Hu' : Request.uri (on_host (h ++ "/") r) = Ok u).
  { unfold Request.uri, Request.route, on_host in *.
    cbn [Request.resource Resource.api API.host Resource.route_template Request.route_args] in *.
    rewrite strip_trailing. exact Hu. }
  split; [exact Hu'|].
  unfold Request.__eq__. rewrite Hu, Hu', String.eqb_refl.
  cbn. rewrite dict_eq_refl by exact Hwf. reflexivity.
Qed.

(** X12. On requests whose uri resolves (dictionaries having distinct
    keys), [==] is an equivalence: reflexive, symmetric and transitive. *)
Theorem Request_eq_is_an_equivalence : forall (r1 r2 r3 : Request.t) u1 u2 u3,
  Request.uri r1 = Ok u1 -> Request.uri r2 = Ok u2 -> Request.uri r3 = Ok u3 ->
  wf_dict (Request.query_args r1) -> wf_dict (Request.query_args r2) ->
  wf_dict (Request.query_args r3) ->
  Request.__eq__ r1 (PyRequest r1 : Val) = Ok true
  /\ Request.__eq__ r1 (PyRequest r2 : Val) = Request.__eq__ r2 (PyRequest r1 : Val)
  /\ (Request.__eq__ r1 (PyRequest r2 : Val) = Ok true ->
      Request.__eq__ r2 (PyRequest r3 : Val) = Ok true ->
      Request.__eq__ r1 (PyRequest r3 : Val) = Ok true).
Proof.
  intros r1 r2 r3 u1 u2 u3 H1 H2 H3 W1 W2 W3.
  unfold Request.__eq__. rewrite H1, H2, H3.
  assert (Hsym : forall a b, wf_dict a -> wf_dict b -> dict_eq a b = dict_eq b a).
  { intros a b Ha Hb. destruct (dict_eq a b) eqn:Hab, (dict_eq b a) eqn:Hba; auto.
    - apply dict_eq_spec in Hab; auto.
      assert (Hx : dict_eq b a = true) by (apply dict_eq_spec; auto; intros k v; symmetry; apply Hab).
      congruence.
    - apply dict_eq_spec in Hba; auto.
      assert (Hx : dict_eq a b = true) by (apply dict_eq_spec; auto; intros k v; symmetry; apply Hba).
      congruence. }
  split; [|split].
  - rewrite String.eqb_refl, dict_eq_refl by exact W1. reflexivity.
  - rewrite (String.eqb_sym u1 u2), (Hsym _ _ W1 W2). reflexivity.
  - intros E12 E23. injection E12 as B12. injection E23 as B23.
    apply andb_true_iff in B12. apply andb_true_iff in B23.
    destruct B12 as [S12 D12]. destruct B23 as [S23 D23].
    apply String.eqb_eq in S12. apply String.eqb_eq in S23. subst u2 u3.
    rewrite String.eqb_refl.
    apply dict_eq_spec in D12; auto. apply dict_eq_spec in D23; auto.
    assert (D13 : dict_eq (Request.query_args r1) (Request.query_args r3) = true).
    { apply dict_eq_spec; auto. intros k v. rewrite (D12 k v). apply D23. }
    rewrite D13. reflexivity.
Qed.

(** X13. On a template of literal text and named placeholders,
    [route_params] lists the placeholders in order of occurrence; a request
    is constructed exactly for the argument mappings whose keys are those
    placeholders, and every request so constructed has a [route] and a
    [uri]. *)
Theorem well_formed_template_requests_resolve :
  forall `{SetOrder} (resource : Resource.t) segs route_args query_args headers,
    Template.well_formed segs = true ->
    Resource.route_template resource = Template.render segs ->
    Resource.route_params resource = Ok (Template.holes segs)
    /\ ((forall k, In k (keys (or_empty route_args)) <-> In k (Template.holes segs))
        <-> exists r, Request.__init__ resource route_args query_args headers = Ok r)
    /\ (forall r, Request.__init__ resource route_args query_args headers = Ok r ->
                  exists route u, Request.route r = Ok route /\ Request.uri r = Ok u).
Proof.
  intros SO resource segs ra qa hd Hwf Htpl.
  destruct (parse_render segs [] Hwf) as (items & Hparse & Hnames & Hfmt).
  assert (Hps : Resource.route_params resource = Ok (Template.holes segs)).
  { unfold Resource.route_params, Str.Formatter_parse. rewrite Htpl, Hparse, Hnames. reflexivity. }
  set (self := Request.mk resource (or_empty ra) (or_empty qa) (or_empty hd)).
  assert (Hinit : Request.__init__ resource ra qa hd
                  = match Request._validate_route_args self with
                    | Raise e => Raise e
                    | Ok _ => Ok self
                    end) by reflexivity.
  split; [exact Hps|]. split.
  - rewrite Hinit.
    destruct (validate_cases self _ Hps) as [(k & Hv & Hk & Hn)|[(_ & k & Hv & Hk & Hn)|[Hiff Hv]]];
      rewrite Hv; split.
    + intros Hall. exfalso. apply Hn. apply Hall. exact Hk.
    + intros [r Hr]. discriminate.
    + intros Hall. exfalso. apply Hn. apply Hall. exact Hk.
    + intros [r Hr]. discriminate.
    + eauto.
    + intros _. exact Hiff.
  - intros r Hr. rewrite Hinit in Hr.
    destruct (validate_cases self _ Hps) as [(k & Hv & _)|[(_ & k & Hv & _)|[Hiff Hv]]];
      rewrite Hv in Hr; try discriminate. inversion Hr; subst r. clear Hr.
    destruct (substitute_total (or_empty ra) segs) as [route Hroute].
    { intros n Hn. apply Hiff. exact Hn. }
    assert (Hrt : Request.route self = Ok route).
    { unfold Request.route, Str.format, Str.Formatter_parse. cbn [self Request.resource Request.route_args].
      rewrite Htpl, Hparse. rewrite (Hfmt _ _ Hroute). reflexivity. }
    exists route. unfold Request.uri. rewrite Hrt. eauto.
Qed.

Lemma parse_auto_numbered : forall acc s,
  Str.parse_from (Str.PLit acc) ("{"%char :: "}"%char :: s)
  = let (items, e) := Str.parse_from (Str.PLit []) s in
    (Str.mk_item acc [] None [] :: items, e).
Proof. reflexivity. Qed.

Lemma parse_numbered_zero : forall acc s,
  Str.parse_from (Str.PLit acc) ("{"%char :: "0"%char :: "}"%char :: s)
  = let (items, e) := Str.parse_from (Str.PLit []) s in
    (Str.mk_item acc ["0"%char] None [] :: items, e).
Proof. reflexivity. Qed.

Lemma parse_tail_literal : forall l acc,
  forallb (fun c => negb (Template.is_brace c)) l = true ->
  exists items,
    Str.parse_from (Str.PLit acc) l = (items, None)
    /\ Forall (fun it : Str.Item => snd it = None) items.
Proof.
  intros l acc Hl. rewrite <- (app_nil_r l). rewrite parse_literal by exact Hl.
  cbn [Str.parse_from Str.at_end].
  destruct (rev l ++ acc)%list; eexists; (split; [reflexivity|]); repeat constructor.
Qed.

Lemma no_fields_no_params : forall items : list Str.Item,
  Forall (fun it : Str.Item => snd it = None) items ->
  flat_map (fun it : Str.Item =>
              match snd it with
              | Some f => if String.eqb (Str.field_name f) "" then [] else [Str.field_name f]
              | None => []
              end) items = [].
Proof.
  induction 1 as [|it items Hit _ IH]; [reflexivity|].
  cbn [flat_map]. rewrite Hit, IH. reflexivity.
Qed.

(** X14. Validation does not see positional placeholders for what they
    are. On a template with an auto-numbered field [{}] between literal
    texts, [route_params] is empty, a request without route arguments is
    constructed, and its [route] and [uri] raise [IndexError]. On a template
    with the field [{0}], [route_params] is ["0"], a request with a route
    argument named "0" is constructed, and its [route] and [uri] raise
    [IndexError] as well. *)
Theorem positional_placeholder_validates_but_never_resolves :
  forall `{SetOrder} (resource : Resource.t) lit1 lit2,
    forallb (fun c => negb (Template.is_brace c)) (chars lit1) = true ->
    forallb (fun c => negb (Template.is_brace c)) (chars lit2) = true ->
    (Resource.route_template resource = lit1 ++ "{}" ++ lit2 ->
     Resource.route_params resource = Ok []
     /\ exists r, Request.__init__ resource None None None = Ok r
                  /\ Request.route r = Raise (IndexError 0)
                  /\ Request.uri r = Raise (IndexError 0))
    /\ (Resource.route_template resource = lit1 ++ "{0}" ++ lit2 ->
        Resource.route_params resource = Ok ["0"]
        /\ forall v, exists r,
             Request.__init__ resource (Some [("0", v)]) None None = Ok r
             /\ Request.route r = Raise (IndexError 0)
             /\ Request.uri r = Raise (IndexError 0)).
Proof.
  intros SO resource lit1 lit2 H1 H2. split; intros Htpl.
  - assert (Hparse : exists items,
               Str.Formatter_parse (Resource.route_template resource)
               = (Str.mk_item (rev (chars lit1)) [] None [] :: items, None)
               /\ Forall (fun it : Str.Item => snd it = None) items).
    { unfold Str.Formatter_parse. rewrite Htpl, !chars_app.
      change (chars "{}") with ["{"%char; "}"%char]. cbn [app].
      rewrite parse_literal by exact H1. rewrite app_nil_r, parse_auto_numbered.
      destruct (parse_tail_literal (chars lit2) [] H2) as (items & Hp & Hf).
      rewrite Hp. eauto. }
    destruct Hparse as (items & Hparse & Hf).
    assert (Hps : Resource.route_params resource = Ok []).
    { unfold Resource.route_params. rewrite Hparse. cbn [flat_map snd Str.mk_item].
      cbn [Str.field_name rev text string_of_list_ascii String.eqb].
      rewrite (no_fields_no_params items Hf). reflexivity. }
    split; [exact Hps|].
    exists (Request.mk resource [] [] []).
    assert (Hr : Request.route (Request.mk resource [] [] []) = Raise (IndexError 0)).
    { unfold Request.route, Str.format. cbn [Request.resource Request.route_args].
      rewrite Hparse. reflexivity. }
    split; [|split; [exact Hr|]].
    + unfold Request.__init__, Request._validate_route_args. cbn [or_empty Request.resource].
      rewrite Hps. reflexivity.
    + unfold Request.uri. rewrite Hr. reflexivity.
  - assert (Hparse : exists items,
               Str.Formatter_parse (Resource.route_template resource)
               = (Str.mk_item (rev (chars lit1)) ["0"%char] None [] :: items, None)
               /\ Forall (fun it : Str.Item => snd it = None) items).
    { unfold Str.Formatter_parse. rewrite Htpl, !chars_app.
      change (chars "{0}") with ["{"%char; "0"%char; "}"%char]. cbn [app].
      rewrite parse_literal by exact H1. rewrite app_nil_r, parse_numbered_zero.
      destruct (parse_tail_literal (chars lit2) [] H2) as (items & Hp & Hf).
      rewrite Hp. eauto. }
    destruct Hparse as (items & Hparse & Hf).
    assert (Hps : Resource.route_params resource = Ok ["0"]).
    { unfold Resource.route_params. rewrite Hparse. cbn [flat_map snd Str.mk_item].
      cbn [Str.field_name rev app text string_of_list_ascii].
      rewrite (no_fields_no_params items Hf). reflexivity. }
    split; [exact Hps|]. intros v.
    exists (Request.mk resource [("0", v)] [] []).
    assert (Hr : Request.route (Request.mk resource [("0", v)] [] []) = Raise (IndexError 0)).
    { unfold Request.route, Str.format. cbn [Request.resource Request.route_args].
      rewrite Hparse. reflexivity. }
    split; [|split; [exact Hr|]].
    + unfold Request.__init__, Request._validate_route_args. cbn [or_empty Request.resource].
      rewrite Hps. reflexivity.
    + unfold Request.uri. rewrite Hr. reflexivity.
Qed.

(** ** The test doubles *)

Lemma assign_other_hash : forall es h1 h2 (r1 r2 : Request.t) resp es',
  h1 <> h2 ->
  FakeDatabase.assign h1 r1 resp es = Ok es' ->
  FakeDatabase.lookup h2 r2 es' = FakeDatabase.lookup h2 r2 es.
Proof.
  induction es as [|e es IH]; intros h1 h2 r1 r2 resp es' Hne Hass.
  - cbn in Hass. injection Hass as <-. cbn [FakeDatabase.lookup FakeDatabase.e_hash].
    destruct (Z.eqb_spec h1 h2); [contradiction | reflexivity].
  - cbn [FakeDatabase.assign] in Hass.
    assert (Hnext : match FakeDatabase.assign h1 r1 resp es with
                    | Raise ex => Raise ex
                    | Ok es1 => Ok (e :: es1)
                    end = Ok es' ->
                    FakeDatabase.lookup h2 r2 es' = FakeDatabase.lookup h2 r2 (e :: es)).
    { intros Hn. destruct (FakeDatabase.assign h1 r1 resp es) as [es1|ex] eqn:Ha; [|discriminate].
      injection Hn as <-. cbn [FakeDatabase.lookup]. rewrite (IH _ _ _ _ _ _ Hne Ha). reflexivity. }
    destruct (Z.eqb_spec (FakeDatabase.e_hash e) h1) as [Heq|Hneq]; [|apply Hnext; exact Hass].
    destruct (Request.__eq__ (FakeDatabase.e_key e) (PyRequest r1 : Val)) as [[|]|ex];
      [|apply Hnext; exact Hass|discriminate].
    injection Hass as <-. cbn [FakeDatabase.lookup FakeDatabase.e_hash].
    destruct (Z.eqb_spec (FakeDatabase.e_hash e) h2); [congruence | reflexivity].
Qed.

(** X15. Storing under a request does not disturb the entries of requests
    that hash differently: what [get] returns for such a request is the same
    before and after the [put]. *)
Theorem put_leaves_other_hashes_alone :
  forall `{PyHash} db (r1 r2 : Request.t) h1 h2 response db',
    Request.__hash__ r1 = Ok h1 -> Request.__hash__ r2 = Ok h2 -> h1 <> h2 ->
    FakeDatabase.put db r1 response = Ok db' ->
    FakeDatabase.get db' r2 = FakeDatabase.get db r2.
Proof.
  intros PH db r1 r2 h1 h2 response db' H1 H2 Hne Hput.
  unfold FakeDatabase.put, FakeDatabase.get in *. rewrite H1 in Hput. rewrite H2.
  eapply assign_other_hash; eauto.
Qed.



Lemma stub_find : forall self url response other,
  HttpClientStub.find other (HttpClientStub_stub self url response)
  = if String.eqb url other then Some response else HttpClientStub.find other self.
Proof.
  induction self as [|[k v] self IH]; intros url response other.
  - cbn. destruct (String.eqb url other); reflexivity.
  - cbn [HttpClientStub_stub]. destruct (String.eqb_spec k url) as [->|Hne].
    + cbn [HttpClientStub.find]. destruct (String.eqb url other); reflexivity.
    + cbn [HttpClientStub.find]. rewrite IH.
      destruct (String.eqb_spec k other) as [->|]; [|reflexivity].
      destruct (String.eqb_spec url other); [congruence | reflexivity].
Qed.

(** X17. The stub transport answers by full uri. After
    [stub(url, (status, body, headers))], a request whose uri is [url] gets
    that status, body and headers; stubbing another url changes nothing for
    it; a request whose uri was never stubbed gets status 404 with no body
    and no headers; the response always carries the request that was sent. *)
Theorem stub_answers_by_uri : forall self (request : Request.t) u,
  Request.uri request = Ok u ->
  (forall status body headers,
      HttpClientStub.send (HttpClientStub_stub self u (status, body, headers)) request
      = Ok (Response.mk request status body headers))
  /\ (forall other x, other <> u ->
        HttpClientStub.send (HttpClientStub_stub self other x) request
        = HttpClientStub.send self request)
  /\ (HttpClientStub.find u self = None ->
      HttpClientStub.send self request = Ok (Response.mk request 404 None []))
  /\ exists response, HttpClientStub.send self request = Ok response
                      /\ Response.request response = request.
Proof.
  intros self request u Hu. unfold HttpClientStub.send. rewrite Hu. repeat split.
  - intros status body headers. rewrite stub_find, String.eqb_refl. reflexivity.
  - intros other x Hne. rewrite stub_find.
    destruct (String.eqb_spec other u); [contradiction | reflexivity].
  - intros Hf. rewrite Hf. reflexivity.
  - destruct (HttpClientStub.find u self) as [[[status body] headers]|]; eexists; split; reflexivity.
Qed.

(** ** From registration to lookup *)

Section Collected.
Context `{SetOrder} `{PyHash}.
Variable hook_table : HookId -> Mapi.hook_t.

Lemma collected_schedule :
  forall http (request : Request.t) response h,
    Resource.hooks (Request.resource request) = [] ->
    API.hooks (Resource.api (Request.resource request)) = [] ->
    HttpClientStub.send http request = Ok response ->
    Request.__hash__ request = Ok h ->
    exists tr,
      run_schedule (ports := Mapi.ports hook_table) [0; 0]
        (_run_start (enqueue request (Mapi.__init__ None http None)))
      = Some (mkLoop (mkCollector [] (Some (AsyncQueue.mk [] 0%Z)) 3
                        (Mapi.mkWorld [FakeDatabase.mk_entry h request response] http []), tr)
                     [AtGet; AtGet; AtGet]).
Proof.
  intros http request response h Hrh Hah Hsend Hhash.
  cbn [run_schedule]. unfold resume at 1.
  cbn [_run_start enqueue Mapi.__init__ _async_queue _queue _num_workers env with_async_queue
       _fill_async_queue fold_left AsyncQueue.put_nowait AsyncQueue.items AsyncQueue.empty
       AsyncQueue.unfinished_tasks app machine tasks fst snd repeat nth_error].
  unfold queue_get, AsyncQueue.get, AsyncQueue.put_nowait, AsyncQueue.empty.
  cbn [fst snd _async_queue AsyncQueue.items app
       AsyncQueue.unfinished_tasks with_async_queue _queue _num_workers env].
  rewrite resume_get_unfold. cbv zeta.
  cbn [resource_hooks api_hooks Mapi.ports env]. rewrite Hrh, Hah. cbn [map app].
  cbn [Request_run_hooks]. unfold ret, log. cbn [fst snd set_nth app].
  unfold resume. cbn [tasks machine nth_error].
  unfold resume_send, bind, call_env, call, after_send, Response_run_hooks.
  cbn [fst snd env http_send Mapi.ports Mapi._http_client with_async_queue with_env
       _queue _async_queue _num_workers]. rewrite Hsend.
  cbn [rev Response_run_loop]. unfold ret, bind, log, call_env, call.
  cbn [fst snd env with_env with_async_queue db_put Mapi.ports Mapi._db _queue _async_queue
       _num_workers].
  unfold FakeDatabase.put. rewrite Hhash. cbn [FakeDatabase.assign FakeDatabase.__init__].
  cbn [Mapi._http_client Mapi.shared_log].
  unfold finish, task_done, bind, log, call.
  cbn [fst snd _async_queue with_env]. cbn. eexists. reflexivity.
Qed.

(** X18. A request registered on a resource without hooks, on a collector
    with an empty storage, is collected: a run returns, after which
    [get] with the same arguments returns the response the transport gave
    for that request, and [iter_responses] yields that response and nothing
    else. *)
Theorem registered_request_is_collected :
  forall http resource route_args query_args (request : Request.t) response,
    Resource.hooks resource = [] ->
    API.hooks (Resource.api resource) = [] ->
    Resource_as_request resource route_args query_args = Ok request ->
    HttpClientStub.send http request = Ok response ->
    wf_dict (Request.query_args request) ->
    exists c1 c2,
      Mapi.register resource route_args query_args (Mapi.__init__ None http None) = Ok c1
      /\ run_returns (ports := Mapi.ports hook_table) c1 c2
      /\ Mapi.get resource route_args query_args c2 = Ok (Some response)
      /\ Mapi.iter_responses c2 = [response].
Proof.
  intros http resource ra qa request response Hrh Hah Hreq Hsend Hwf.
  assert (Hres : Request.resource request = resource).
  { unfold Resource_as_request, Request.__init__ in Hreq.
    destruct (Request._validate_route_args _); [|discriminate]. injection Hreq as <-. reflexivity. }
  destruct (Request.uri request) as [u|e] eqn:Hu.
  2:{ unfold HttpClientStub.send in Hsend. rewrite Hu in Hsend. discriminate. }
  assert (Hhash : exists h, Request.__hash__ request = Ok h).
  { unfold Request.__hash__, Request.hash_key. rewrite Hu. eauto. }
  destruct Hhash as [h Hhash].
  rewrite <- Hres in Hrh, Hah.
  destruct (collected_schedule http request response h Hrh Hah Hsend Hhash) as [tr Hrun].
  exists (enqueue request (Mapi.__init__ None http None)). eexists.
  split; [unfold Mapi.register; rewrite Hreq; reflexivity|].
  split.
  - eexists. split; [apply (run_schedule_steps [0; 0]); exact Hrun|].
    split; reflexivity.
  - cbn [_run_finish machine fst]. unfold Mapi.get, Mapi.iter_responses. rewrite Hreq.
    unfold _run_finish. cbn [machine fst env with_async_queue Mapi._db]. split; [|reflexivity].
    unfold FakeDatabase.get. rewrite Hhash.
    cbn [FakeDatabase.lookup FakeDatabase.e_hash FakeDatabase.e_key FakeDatabase.e_value].
    rewrite Z.eqb_refl.
    assert (Hrefl : Request.__eq__ request (PyRequest request : Val) = Ok true).
    { unfold Request.__eq__. rewrite Hu, String.eqb_refl, dict_eq_refl by exact Hwf. reflexivity. }
    rewrite Hrefl. reflexivity.
Qed.

End Collected.

(** ** The properties above on the scenario objects *)

Section MoreScenarios.
Import Scenario.
Import CPython.

Lemma request_chain_stops_at_abort_witness :
  Forall proceeds [tagging "resource"]
  /\ aborts_requests abort_request
  /\ request_calls (calls_of (Request_run_hooks [tagging "resource"; abort_request; raising]
                                                (request_of guarded)) collector)
     = [tagging "resource"; abort_request]
  /\ exists r, fst (Request_run_hooks [tagging "resource"; abort_request; raising]
                                      (request_of guarded) (fresh collector))
               = Ok (PyRequest r).
Proof.
  assert (Hp : Forall proceeds [tagging "resource"]).
  { repeat constructor; intros x c; eexists; eexists; (split; [reflexivity | discriminate]). }
  assert (Hab : aborts_requests abort_request) by (intros x c; eexists; reflexivity).
  destruct (request_chain_stops_at_abort [tagging "resource"] [raising] abort_request
              (request_of guarded) collector Hp Hab) as [Hcalls Hret].
  split; [exact Hp|]. split; [exact Hab|]. split; [exact Hcalls | exact Hret].
Defined.

Lemma response_chain_stops_at_abort_witness :
  Forall proceeds [tagging "resource"]
  /\ aborts_responses abort_response
  /\ response_calls (calls_of (Response_run_hooks [raising; abort_response; tagging "resource"]
                                                  (not_found (request_of filtered))) collector)
     = [tagging "resource"; abort_response]
  /\ exists r, fst (Response_run_hooks [raising; abort_response; tagging "resource"]
                                       (not_found (request_of filtered)) (fresh collector))
               = Ok (PyResponse r).
Proof.
  assert (Hp : Forall proceeds [tagging "resource"]).
  { repeat constructor; intros x c; eexists; eexists; (split; [reflexivity | discriminate]). }
  assert (Hab : aborts_responses abort_response) by (intros x c; eexists; reflexivity).
  destruct (response_chain_stops_at_abort [raising] [tagging "resource"] abort_response
              (not_found (request_of filtered)) collector Hp Hab) as [Hcalls Hret].
  split; [exact Hp|]. split; [exact Hab|]. split; [exact Hcalls | exact Hret].
Defined.

Lemma transparent_chain_returns_self_witness :
  Forall transparent [hook None None; Hook_base : Mapi.hook_t]
  /\ fst (Request_run_hooks [hook None None; Hook_base] user_7 (fresh collector))
     = Ok (PyRequest user_7)
  /\ response_calls (calls_of (Response_run_hooks [hook None None; Hook_base]
                                                  (not_found user_7)) collector)
     = [Hook_base; hook None None].
Proof.
  assert (Ht : Forall transparent [hook None None; Hook_base : Mapi.hook_t]).
  { repeat constructor; intros x c; eexists; eexists; cbn;
      (split; [reflexivity|]; split; [discriminate|]); intros r Hr; inversion Hr; reflexivity. }
  destruct (transparent_chain_returns_self [hook None None; Hook_base : Mapi.hook_t] Ht)
    as [Hreq Hresp].
  split; [exact Ht|]. split.
  - exact (proj1 (Hreq user_7 collector)).
  - exact (proj2 (Hresp (not_found user_7) collector)).
Defined.

Lemma worker_sends_and_stores_the_chain_result_witness :
  fst (Request_run_hooks [tagging "resource"; tagging "api"] (request_of tagged)
                         (fresh one_in_flight))
  = Ok (PyRequest (request_of tagged))
  /\ sent (calls_of (unit_of_work (request_of tagged)) one_in_flight) = [request_of tagged]
  /\ (stored (calls_of (unit_of_work (request_of tagged)) one_in_flight) = []
      \/ exists p, stored (calls_of (unit_of_work (request_of tagged)) one_in_flight)
                   = [(request_of tagged, p)]).
Proof.
  assert (Hv : fst (Request_run_hooks [tagging "resource"; tagging "api"] (request_of tagged)
                                      (fresh one_in_flight))
               = Ok (PyRequest (request_of tagged))) by reflexivity.
  split; [exact Hv|].
  exact (worker_sends_and_stores_the_chain_result (ports := ports) (request_of tagged)
           one_in_flight (request_of tagged) Hv).
Defined.

Lemma outstanding_work_is_counted_witness :
  exists l q,
    run_schedule [0] (_run_start paged) = Some l
    /\ _async_queue (fst (machine l)) = Some q
    /\ AsyncQueue.unfinished_tasks q
       = Z.of_nat (length (AsyncQueue.items q) + in_flight (tasks l))
    /\ (join_ready l = true -> AsyncQueue.items q = [] /\ in_flight (tasks l) = 0).
Proof.
  assert (Hpol : forall (r : Request.t) (u : Mapi.World),
             Forall polite (resource_hooks r u ++ api_hooks r u)%list).
  { intros r u. apply Forall_forall. intros h Hh. apply in_app_or in Hh.
    destruct Hh as [Hh|Hh]; apply in_map_iff in Hh; destruct Hh as (id & <- & _);
      apply scenario_hooks_polite. }
  destruct (run_schedule [0] (_run_start paged)) as [l|] eqn:Hl; [|discriminate Hl].
  destruct (outstanding_work_is_counted (ports := ports) Hpol paged l
              (run_schedule_steps [0] _ _ Hl)) as (q & Hq & Hcount & Hjoin).
  exists l, q. split; [reflexivity|]. split; [exact Hq|]. split; [exact Hcount | exact Hjoin].
Defined.

Lemma run_starts_with_registrations_in_order_witness :
  _async_queue collector = None
  /\ _async_queue (started (fold_left (fun c r => enqueue r c)
                                      [request_of users; user_7] collector))
     = Some (AsyncQueue.mk [request_of users; user_7] 2%Z)
  /\ tasks (@_run_start Request.t Response.t Mapi.World
              (fold_left (fun c r => enqueue r c) [request_of users; user_7] collector))
     = [AtGet; AtGet; AtGet].
Proof.
  destruct (run_starts_with_registrations_in_order (Resp := Response.t)
              [request_of users; user_7] collector eq_refl)
    as (_ & _ & Hq & _ & Ht).
  split; [reflexivity|]. split; [exact Hq | exact Ht].
Defined.

Lemma worker_alone_drains_the_queue_in_order_witness :
  let c := with_async_queue (Some (AsyncQueue.mk [request_of users; user_7] 2%Z)) collector in
  fst (_worker 3 (fresh c)) = Suspended
  /\ sent (snd (snd (_worker 3 (fresh c)))) = [request_of users; user_7]
  /\ map fst (stored (snd (snd (_worker 3 (fresh c))))) = [request_of users; user_7]
  /\ task_done_calls (snd (snd (_worker 3 (fresh c)))) = 2.
Proof.
  intro c.
  pose (inv := fun w : Mapi.World =>
                 Forall (fun e => exists u, Request.uri (FakeDatabase.e_key e) = Ok u)
                        (Mapi._db w)).
  assert (Huri : forall r, In r [request_of users; user_7] -> exists u, Request.uri r = Ok u).
  { intros r [<-|[<-|[]]]; eexists; reflexivity. }
  assert (Hassign : forall es h (r : Request.t) p,
             (exists u, Request.uri r = Ok u) ->
             Forall (fun e => exists u, Request.uri (FakeDatabase.e_key e) = Ok u) es ->
             exists es', FakeDatabase.assign h r p es = Ok es'
                         /\ Forall (fun e => exists u, Request.uri (FakeDatabase.e_key e) = Ok u)
                                   es').
  { intros es h r p [u Hu]. induction 1 as [|e es [ue He] Hes (es' & IH & Hes')].
    - eexists. split; [reflexivity|]. repeat constructor. cbn. eauto.
    - cbn [FakeDatabase.assign]. rewrite IH. cbv zeta.
      destruct (FakeDatabase.e_hash e =? h)%Z.
      + unfold Request.__eq__. rewrite He, Hu.
        destruct (_ && _); eexists; (split; [reflexivity|]); constructor; cbn; eauto.
      + eexists. split; [reflexivity|]. constructor; eauto. }
  destruct (worker_alone_drains_the_queue_in_order (ports := ports) inv
              [request_of users; user_7] c 2%Z) as (Hs & _ & Hsent & Hstored & Hdone).
  - intros r u [<-|[<-|[]]]; split; reflexivity.
  - intros r u Hin Hinv. destruct (Huri r Hin) as [x Hx].
    cbn [http_send ports Mapi.ports]. unfold HttpClientStub.send. rewrite Hx.
    destruct (HttpClientStub.find x _) as [[[s b] hd]|]; eexists; eexists; split;
      try reflexivity; exact Hinv.
  - intros r p u Hin Hinv. destruct (Huri r Hin) as [x Hx].
    cbn [db_put ports Mapi.ports]. unfold FakeDatabase.put, Request.__hash__, Request.hash_key.
    rewrite Hx.
    destruct (Hassign (Mapi._db u) (hash_tuple [hash_str x; hash_tuple
                (map (fun kv => hash_tuple [hash_str (fst kv); hash_str (snd kv)])
                     (Request.query_args r))]) r p (ex_intro _ x Hx) Hinv) as (es' & Hes & Hinv').
    rewrite Hes. eexists. split; [reflexivity | exact Hinv'].
  - constructor.
  - reflexivity.
  - cbn. lia.
  - repeat split; assumption.
Defined.

Lemma API_add_then_get_witness :
  exists self',
    APIState.add (APIState.__init__ "http://test.org") "user" "users/{id}" None None = Ok self'
    /\ APIState.get self' "user" = Ok user
    /\ APIState.get self' "search" = APIState.get (APIState.__init__ "http://test.org") "search".
Proof.
  eexists. split; [reflexivity|].
  destruct (API_add_then_get (APIState.__init__ "http://test.org") "user" "users/{id}" None None
              _ eq_refl) as (Hget & Hother & _ & _).
  split; [exact Hget|]. apply Hother. discriminate.
Defined.

Lemma API_hook_is_seen_by_resources_witness :
  let self := APIState.mk "http://test.org" [("user", APIState.mk_decl "users/{id}" [] [])] [] in
  APIState.get self "user" = Ok user
  /\ APIState.get (APIState.hook self 5) "user"
     = Ok (Resource.mk (API.mk "http://test.org" [5]) "user" "users/{id}" [] []).
Proof.
  intro self. split; [reflexivity|].
  exact (proj1 (API_hook_is_seen_by_resources self 5 "user" user eq_refl)).
Defined.

Lemma uri_ignores_trailing_slash_of_host_witness :
  Request.uri (on_host "http://test.org" user_7) = Ok "http://test.org/users/7"
  /\ Request.uri (on_host "http://test.org/" user_7) = Ok "http://test.org/users/7"
  /\ Request.__eq__ (on_host "http://test.org" user_7)
                    (PyRequest (on_host "http://test.org/" user_7) : Val) = Ok true.
Proof.
  split; [reflexivity|].
  apply (uri_ignores_trailing_slash_of_host user_7 "http://test.org" "http://test.org/users/7"
           eq_refl).
  unfold wf_dict. cbn. constructor.
Defined.

Lemma Request_eq_is_an_equivalence_witness :
  Request.__eq__ request_ab (PyRequest request_ab : Val) = Ok true
  /\ Request.__eq__ request_ab (PyRequest request_ba : Val)
     = Request.__eq__ request_ba (PyRequest request_ab : Val)
  /\ (Request.__eq__ request_ab (PyRequest request_ba : Val) = Ok true ->
      Request.__eq__ request_ba
        (PyRequest (with_headers [("If-None-Match", "x")] request_ab) : Val) = Ok true ->
      Request.__eq__ request_ab
        (PyRequest (with_headers [("If-None-Match", "x")] request_ab) : Val) = Ok true).
Proof.
  assert (Hab : wf_dict ab).
  { unfold wf_dict. cbn. repeat constructor; cbn; intuition discriminate. }
  assert (Hba : wf_dict ba).
  { unfold wf_dict. cbn. repeat constructor; cbn; intuition discriminate. }
  exact (Request_eq_is_an_equivalence request_ab request_ba
           (with_headers [("If-None-Match", "x")] request_ab)
           "http://test.org/search" "http://test.org/search" "http://test.org/search"
           eq_refl eq_refl eq_refl Hab Hba Hab).
Defined.

Lemma well_formed_template_requests_resolve_witness :
  Template.well_formed [Template.Lit "users/"; Template.Hole "id"] = true
  /\ Resource.route_params user = Ok ["id"]
  /\ (exists r, Request.__init__ user (Some [("id", "7")]) None None = Ok r)
  /\ exists route u, Request.route user_7 = Ok route /\ Request.uri user_7 = Ok u.
Proof.
  destruct (well_formed_template_requests_resolve user
              [Template.Lit "users/"; Template.Hole "id"] (Some [("id", "7")]) None None
              eq_refl eq_refl) as (Hparams & Hiff & Hres).
  split; [reflexivity|]. split; [exact Hparams|]. split.
  - apply Hiff. intros k. cbn. tauto.
  - apply Hres. reflexivity.
Defined.

Lemma positional_placeholder_validates_but_never_resolves_witness :
  (exists r, Request.__init__ (Resource.mk api "post" "users/{}/posts" [] []) None None None
             = Ok r
             /\ Request.route r = Raise (IndexError 0))
  /\ (exists r, Request.__init__ (Resource.mk api "post" "users/{0}/posts" [] [])
                                 (Some [("0", "7")]) None None = Ok r
                /\ Request.uri r = Raise (IndexError 0)).
Proof.
  split.
  - destruct (positional_placeholder_validates_but_never_resolves
                (Resource.mk api "post" "users/{}/posts" [] []) "users/" "/posts"
                eq_refl eq_refl) as [Hauto _].
    destruct (Hauto eq_refl) as (_ & r & Hr & Hroute & _). exists r. split; assumption.
  - destruct (positional_placeholder_validates_but_never_resolves
                (Resource.mk api "post" "users/{0}/posts" [] []) "users/" "/posts"
                eq_refl eq_refl) as [_ Hzero].
    destruct (Hzero eq_refl) as (_ & Hr). destruct (Hr "7") as (r & Hinit & _ & Huri).
    exists r. split; assumption.
Defined.

Lemma put_leaves_other_hashes_alone_witness :
  exists db',
    FakeDatabase.put [] (request_of users) (not_found (request_of users)) = Ok db'
    /\ FakeDatabase.get db' user_7 = FakeDatabase.get [] user_7.
Proof.
  eexists. split; [vm_compute; reflexivity|].
  let h1 := eval vm_compute in (Request.__hash__ (request_of users)) in
  let h2 := eval vm_compute in (Request.__hash__ user_7) in
  match h1 with
  | Ok ?v1 =>
      match h2 with
      | Ok ?v2 =>
          apply (put_leaves_other_hashes_alone [] (request_of users) user_7 v1 v2
                   (not_found (request_of users)))
      end
  end; [vm_compute; reflexivity | vm_compute; reflexivity | discriminate
       | vm_compute; reflexivity].
Defined.


Lemma stub_answers_by_uri_witness :
  Request.uri user_7 = Ok "http://test.org/users/7"
  /\ HttpClientStub.send
       (HttpClientStub_stub http_client "http://test.org/users/7" (200%Z, Some "{}", []))
       user_7
     = Ok (Response.mk user_7 200%Z (Some "{}") [])
  /\ HttpClientStub.send http_client user_7 = Ok (not_found user_7).
Proof.
  destruct (stub_answers_by_uri http_client user_7 "http://test.org/users/7" eq_refl)
    as (Hstub & _ & Hnone & _).
  split; [reflexivity|]. split; [apply Hstub | apply Hnone; reflexivity].
Defined.

Lemma registered_request_is_collected_witness :
  let response :=
    Response.mk (request_of users) 200%Z (Some "[]") [("Content-type", "application/json")] in
  HttpClientStub.send http_client (request_of users) = Ok response
  /\ exists c1 c2,
       Mapi.register users None None collector = Ok c1
       /\ run_returns (ports := ports) c1 c2
       /\ Mapi.get users None None c2 = Ok (Some response)
       /\ Mapi.iter_responses c2 = [response].
Proof.
  intro response. split; [reflexivity|].
  apply (registered_request_is_collected hook_table http_client users None None
           (request_of users) response); try reflexivity.
  unfold wf_dict. cbn. constructor.
Defined.

End MoreScenarios.
